(** * Text-driven Arduino generator: the toolchain orchestration core

    A shallow embedding of [autoArduinoCoding.py] (class
    [TextDrivenArduinoSystem] and the routes [/api/generate-direct-code] and
    [/api/deploy]) and the properties of its device classifier, environment
    provisioner, repair loop and deploy pipeline.

    Conventions of the embedding.
    - Python [str] is [string] (a sequence of 8-bit characters); [lower],
      [upper] and the regular expression class [\s] are the ASCII ones.
    - A Python [dict] with string keys is a [gmap string _]; the values that
      come out of [json.loads] are [json].
    - The external collaborators (the [arduino-cli] sub-processes, the
      Gemini HTTP service, the serial port enumeration, [json.loads]) are the
      fields of a [World]; each sees the events that happened so far, so its
      answer may depend on the whole history.
    - Methods are computations in a state and exception monad over [system]
      (the attributes of [self] and the event log).
    - The tasks of an [asyncio.gather] are started in the order in which
      they are created, all of them before the exception of one of them
      reaches the caller; the iteration order of a Python [set] is taken to
      be the order of first occurrence.
    - A method runs from its call to its return without another request
      running in between. [asyncio.create_subprocess_exec] raises
      [ValueError] when the program or an argument holds a NUL character;
      otherwise the sub-process starts, and its exit status and output are
      what the [World] says.
    - A dict is a value: the assignment [generation_result["arduino_code"] =
      code] is an insert into the artifact that is returned (the caller of
      [validate_and_fix_code] only uses the one returned).
    - The text of a prompt is its template, which is fixed, and the values
      put into it; a [prompt] holds those values. *)

From Stdlib Require Import ZArith NArith Ascii String List Bool Lia.
From Stdlib Require Import Hexadecimal HexadecimalN.
From stdpp Require Import base option list strings gmap.

Set Warnings "-register-all".
Local Open Scope string_scope.
Local Open Scope list_scope.

(** ** Python strings *)

Module PyStr.

Definition is_upper (c : ascii) : bool :=
  let n := nat_of_ascii c in (65 <=? n)%nat && (n <=? 90)%nat.

Definition is_lower (c : ascii) : bool :=
  let n := nat_of_ascii c in (97 <=? n)%nat && (n <=? 122)%nat.

Definition lower_char (c : ascii) : ascii :=
  if is_upper c then ascii_of_nat (nat_of_ascii c + 32) else c.

Definition upper_char (c : ascii) : ascii :=
  if is_lower c then ascii_of_nat (nat_of_ascii c - 32) else c.

(** [s.lower()] *)
Fixpoint lower (s : string) : string :=
  match s with
  | EmptyString => EmptyString
  | String c t => String (lower_char c) (lower t)
  end.

(** [s.upper()] *)
Fixpoint upper (s : string) : string :=
  match s with
  | EmptyString => EmptyString
  | String c t => String (upper_char c) (upper t)
  end.

(** [needle in hay] on two strings: substring search *)
Fixpoint contains (needle hay : string) : bool :=
  String.prefix needle hay ||
  match hay with
  | EmptyString => false
  | String _ t => contains needle t
  end.

(** [x in l] on a list of strings *)
Definition mem (x : string) (l : list string) : bool :=
  existsb (String.eqb x) l.

(** [\s] of [re] on the 8-bit characters: TAB, LF, VT, FF, CR, the four
    separators 0x1C-0x1F and the space *)
Definition is_space (c : ascii) : bool :=
  let n := nat_of_ascii c in
  ((9 <=? n)%nat && (n <=? 13)%nat) || ((28 <=? n)%nat && (n <=? 32)%nat).

(** the longest prefix of characters satisfying [p], and the rest *)
Fixpoint span (p : ascii -> bool) (s : string) : string * string :=
  match s with
  | EmptyString => (EmptyString, EmptyString)
  | String c t =>
      if p c then let '(a, b) := span p t in (String c a, b)
      else (EmptyString, s)
  end.

(** [s] without its prefix [p], when it has it *)
Fixpoint drop_prefix (p s : string) : option string :=
  match p, s with
  | EmptyString, _ => Some s
  | String a p', String b s' =>
      if Ascii.eqb a b then drop_prefix p' s' else None
  | String _ _, EmptyString => None
  end.

(** [s.endswith(suffix)] *)
Definition ends_with (suffix s : string) : bool :=
  let n := String.length s in
  let k := String.length suffix in
  (k <=? n)%nat && String.eqb (String.substring (n - k) k s) suffix.

(** [s.split(sep)] for a one-character separator *)
Fixpoint split (sep : ascii) (s : string) : list string :=
  match s with
  | EmptyString => [EmptyString]
  | String c t =>
      if Ascii.eqb c sep then EmptyString :: split sep t
      else match split sep t with
           | [] => [String c EmptyString]
           | w :: ws => String c w :: ws
           end
  end.

(** [sep.join(l)] *)
Fixpoint join (sep : string) (l : list string) : string :=
  match l with
  | [] => EmptyString
  | [x] => x
  | x :: rest => x +:+ sep +:+ join sep rest
  end.

(** one hexadecimal digit string, upper case, as the [X] format writes it *)
Fixpoint hex_upper (d : Hexadecimal.uint) : string :=
  match d with
  | Nil => EmptyString
  | D0 d => String "0" (hex_upper d)
  | D1 d => String "1" (hex_upper d)
  | D2 d => String "2" (hex_upper d)
  | D3 d => String "3" (hex_upper d)
  | D4 d => String "4" (hex_upper d)
  | D5 d => String "5" (hex_upper d)
  | D6 d => String "6" (hex_upper d)
  | D7 d => String "7" (hex_upper d)
  | D8 d => String "8" (hex_upper d)
  | D9 d => String "9" (hex_upper d)
  | Da d => String "A" (hex_upper d)
  | Db d => String "B" (hex_upper d)
  | Dc d => String "C" (hex_upper d)
  | Dd d => String "D" (hex_upper d)
  | De d => String "E" (hex_upper d)
  | Df d => String "F" (hex_upper d)
  end.

(** [k] characters ["0"] *)
Fixpoint zeros (k : nat) : string :=
  match k with
  | O => EmptyString
  | S k' => String "0" (zeros k')
  end.

(** [f"{n:04X}"] for a non-negative [n]: upper-case hexadecimal, padded
    with zeros on the left to a width of at least four *)
Definition format_04X (n : N) : string :=
  let digits := hex_upper (N.to_hex_uint n) in
  zeros (4 - String.length digits) +:+ digits.

End PyStr.

(** ** Values of [json.loads] and the Python operations the code applies to them *)

Inductive json :=
| JNull
| JBool (b : bool)
| JInt (z : Z)
| JFloat (nonzero : bool)   (* a float; the code only ever tests its truth value *)
| JStr (s : string)
| JArr (l : list json)
| JObj (m : gmap string json).

Inductive exn :=
| ValueError (msg : string)   (* ValueError and its subclasses *)
| TypeError
| AttributeError
| OtherException.             (* any other subclass of Exception *)

Inductive result (A : Type) :=
| Ret (a : A)
| Raise (e : exn).
Arguments Ret {A} a.
Arguments Raise {A} e.

Module Py.

(** [bool(v)] *)
Definition truthy (v : json) : bool :=
  match v with
  | JNull => false
  | JBool b => b
  | JInt z => negb (z =? 0)%Z
  | JFloat nonzero => nonzero
  | JStr s => negb (String.eqb s EmptyString)
  | JArr l => match l with [] => false | _ :: _ => true end
  | JObj m => negb (bool_decide (m = ∅))
  end.

(** [bool(s)] for [s : str | None] *)
Definition truthy_str (s : option string) : bool :=
  match s with
  | None => false
  | Some s => negb (String.eqb s EmptyString)
  end.

(** [bool(n)] for [n : int | None] *)
Definition truthy_int (n : option N) : bool :=
  match n with
  | None => false
  | Some n => negb (n =? 0)%N
  end.

(** [str(s)] for [s : str | None] *)
Definition str (s : option string) : string :=
  match s with
  | None => "None"
  | Some s => s
  end.

Definition is_JStr (key : string) (v : json) : bool :=
  match v with
  | JStr s => String.eqb key s
  | _ => false
  end.

(** [key in v] for a string [key]: key membership in a dict, element
    membership in a list, substring in a string, [TypeError] otherwise *)
Definition contains (key : string) (v : json) : result bool :=
  match v with
  | JObj m => Ret (bool_decide (is_Some (m !! key)))
  | JArr l => Ret (existsb (is_JStr key) l)
  | JStr s => Ret (PyStr.contains key s)
  | JNull | JBool _ | JInt _ | JFloat _ => Raise TypeError
  end.

(** [v[key]] for a string [key] that the caller found with [key in v]:
    the value in a dict, [TypeError] on a list or a string *)
Definition getitem (v : json) (key : string) : result json :=
  match v with
  | JObj m => match m !! key with
              | Some x => Ret x
              | None => Raise OtherException   (* KeyError *)
              end
  | _ => Raise TypeError
  end.

(** [d.get(key, default)] on a dict *)
Definition get {V} (d : gmap string V) (key : string) (default : V) : V :=
  match d !! key with
  | Some x => x
  | None => default
  end.

(** [d.get(key)] on a dict, with [None] as JSON [null] *)
Definition get_or_null (d : gmap string json) (key : string) : json :=
  get d key JNull.

End Py.

(** ** Device classifier: [detect_arduino_devices] *)

(** What [serial.tools.list_ports] reports for one port. *)
Module ListPortInfo.
Record t := {
  device : string;
  description : option string;
  manufacturer : option string;
  vid : option N;
  pid : option N
}.
End ListPortInfo.

(** One entry of the list that [detect_arduino_devices] returns (a dict
    literal with five fixed keys). *)
Module Device.
Record t := {
  port : string;
  description : option string;
  manufacturer : option string;
  vid_pid : string;
  is_arduino : bool
}.
End Device.

Module Classifier.

Definition arduino_identifiers : list string :=
  ["Arduino"; "CH340"; "CP210x"; "FTDI"; "USB-SERIAL"; "Seeeduino"; "XIAO"; "ESP32"].

Definition arduino_vid_pids : list string :=
  ["2341"; "1A86"; "10C4"; "0403"; "2886"; "303A"].

(** the [any(...)] over the identifiers *)
Definition name_rule (port : ListPortInfo.t) : bool :=
  existsb
    (fun identifier =>
       PyStr.contains (PyStr.lower identifier)
         (PyStr.lower (Py.str (ListPortInfo.description port)))
       || PyStr.contains (PyStr.lower identifier)
            (PyStr.lower (Py.str (ListPortInfo.manufacturer port))))
    arduino_identifiers.

(** [port.vid and f"{port.vid:04X}".upper() in arduino_vid_pids] *)
Definition vid_rule (port : ListPortInfo.t) : bool :=
  match ListPortInfo.vid port with
  | None => false
  | Some v =>
      negb (v =? 0)%N
      && PyStr.mem (PyStr.upper (PyStr.format_04X v)) arduino_vid_pids
  end.

(** the body of the [for port in ports] loop: the entry appended *)
Definition entry (port : ListPortInfo.t) : Device.t :=
  let is_arduino := false in
  let is_arduino := if name_rule port then true else is_arduino in
  let is_arduino := if vid_rule port then true else is_arduino in
  {| Device.port := ListPortInfo.device port;
     Device.description := ListPortInfo.description port;
     Device.manufacturer := ListPortInfo.manufacturer port;
     Device.vid_pid :=
       match ListPortInfo.vid port, ListPortInfo.pid port with
       | Some v, Some p =>
           if negb (v =? 0)%N && negb (p =? 0)%N
           then PyStr.format_04X v +:+ ":" +:+ PyStr.format_04X p
           else "N/A"
       | _, _ => "N/A"
       end;
     Device.is_arduino := is_arduino |}.

(** the loop, appending to [devices] *)
Fixpoint scan (ports : list ListPortInfo.t) (devices : list Device.t)
  : list Device.t :=
  match ports with
  | [] => devices
  | port :: rest => scan rest (devices ++ [entry port])
  end.

(** the result for an enumeration outcome; [None] is an exception of
    [comports()], which is caught *)
Definition classify (enumeration : option (list ListPortInfo.t))
  : list Device.t :=
  match enumeration with
  | None => []
  | Some ports => scan ports []
  end.

End Classifier.

(** ** The outside world and the state of the system *)

(** A finished sub-process: exit status and the decoded output streams. *)
Record proc := {
  returncode : Z;
  stdout : string;
  stderr : string
}.

(** The prompts sent to the generation service, reduced to the values that
    are interpolated into the fixed template text. *)
Inductive prompt :=
| GeneratePrompt (description : string)
| FixPrompt (user_description : option string)
            (wiring_instructions : option json)
            (code : json)
            (error_message : string).

(** The outcome of one [_call_gemini_api] request: an exception that is not
    a [requests.RequestException] propagates, a [RequestException] gives
    [None], otherwise the text of the first candidate. *)
Inductive reply :=
| ReplyRaise (e : exn)
| ReplyNone
| ReplyText (text : string).

Inductive event :=
| ECli (args : list string)
| ECompile (sketch code fqbn : string) (p : proc)
| EUpload (port fqbn : string) (p : proc)
| EGemini (q : prompt) (r : reply)
| EComports (r : option (list ListPortInfo.t)).

Record World := {
  (** [arduino-cli compile --fqbn fqbn dir] on a sketch with the given
      name and source text *)
  cli_compile : list event -> string -> string -> string -> proc;
  (** [arduino-cli upload -p port --fqbn fqbn dir --verbose] *)
  cli_upload : list event -> string -> string -> proc;
  (** the generation service *)
  gemini : list event -> prompt -> reply;
  (** [serial.tools.list_ports.comports()]; [None] when it raises *)
  comports : list event -> option (list ListPortInfo.t);
  (** [json.loads]; [None] when it raises [JSONDecodeError] *)
  json_loads : string -> option json
}.

(** The attributes of the [TextDrivenArduinoSystem] instance, and the log of
    what it did to the outside world (oldest event first). *)
Record system := {
  user_description : option string;
  arduino_cli_path : option string;
  google_api_key : option string;
  _cli_env_setup_done : bool;
  trace : list event
}.

Definition M (A : Type) : Type := system -> result A * system.

Definition ret {A} (a : A) : M A := fun st => (Ret a, st).

Definition raise {A} (e : exn) : M A := fun st => (Raise e, st).

Definition bind {A B} (m : M A) (k : A -> M B) : M B :=
  fun st =>
    match m st with
    | (Ret a, st') => k a st'
    | (Raise e, st') => (Raise e, st')
    end.

(** a pure Python operation that may raise *)
Definition lift {A} (r : result A) : M A := fun st => (r, st).

(** [try: m except Exception as e: h e] *)
Definition try_except {A} (m : M A) (h : exn -> M A) : M A :=
  fun st =>
    match m st with
    | (Ret a, st') => (Ret a, st')
    | (Raise e, st') => h e st'
    end.

Definition read {A} (f : system -> A) : M A := fun st => (Ret (f st), st).

Definition log (e : event) : M unit :=
  fun st =>
    (Ret tt,
     {| user_description := user_description st;
        arduino_cli_path := arduino_cli_path st;
        google_api_key := google_api_key st;
        _cli_env_setup_done := _cli_env_setup_done st;
        trace := trace st ++ [e] |}).

Definition set_cli_env_setup_done (b : bool) : M unit :=
  fun st =>
    (Ret tt,
     {| user_description := user_description st;
        arduino_cli_path := arduino_cli_path st;
        google_api_key := google_api_key st;
        _cli_env_setup_done := b;
        trace := trace st |}).

Definition set_user_description (d : option string) : M unit :=
  fun st =>
    (Ret tt,
     {| user_description := d;
        arduino_cli_path := arduino_cli_path st;
        google_api_key := google_api_key st;
        _cli_env_setup_done := _cli_env_setup_done st;
        trace := trace st |}).

Global Instance M_ret : MRet M := @ret.
Global Instance M_bind : MBind M := fun A B k m => bind m k.

(** ** The two regular expressions of the source, written out *)

Module Re.

(** One attempt to match [#include\s*<([^>]+)\.h>] at the start of [s]:
    group 1 and the length of the match. [\s*] is followed by ["<"] and
    [[^>]+] stops at the first [">"], so the only way to match is: the
    run of characters up to that [">"] ends in [".h"] and has at least one
    character before it. *)
Definition match_include (s : string) : option (string * nat) :=
  match PyStr.drop_prefix "#include" s with
  | None => None
  | Some s1 =>
      let '(blank, s2) := PyStr.span PyStr.is_space s1 in
      match s2 with
      | String "<" s3 =>
          let '(run, s4) := PyStr.span (fun c => negb (Ascii.eqb c ">")) s3 in
          match s4 with
          | String ">" _ =>
              if (3 <=? String.length run)%nat && PyStr.ends_with ".h" run
              then Some (String.substring 0 (String.length run - 2) run,
                         8 + String.length blank + 1 + String.length run + 1)
              else None
          | _ => None
          end
      | _ => None
      end
  end.

(** [re.findall(r'#include\s*<([^>]+)\.h>', s)]: the matches from left to
    right, without overlap. [skip] counts the characters of the current
    match that are still to be passed over. *)
Fixpoint findall_include (skip : nat) (s : string) : list string :=
  match s with
  | EmptyString => []
  | String _ t =>
      match skip with
      | S k => findall_include k t
      | O =>
          match match_include s with
          | Some (lib, n) => lib :: findall_include (n - 1) t
          | None => findall_include 0 t
          end
      end
  end.

Definition fence : string := "```".

(** One attempt to match [```json\s*|\s*```] at the start of [s]: the
    length of the match. *)
Definition match_fence (s : string) : option nat :=
  match PyStr.drop_prefix (fence +:+ "json") s with
  | Some s1 =>
      let '(blank, _) := PyStr.span PyStr.is_space s1 in
      Some (7 + String.length blank)
  | None =>
      let '(blank, s2) := PyStr.span PyStr.is_space s in
      match PyStr.drop_prefix fence s2 with
      | Some _ => Some (String.length blank + 3)
      | None => None
      end
  end.

(** [re.sub(r'```json\s*|\s*```', '', s, flags=re.DOTALL)] *)
Fixpoint sub_fence (skip : nat) (s : string) : string :=
  match s with
  | EmptyString => EmptyString
  | String c t =>
      match skip with
      | S k => sub_fence k t
      | O =>
          match match_fence s with
          | Some n => sub_fence (n - 1) t
          | None => String c (sub_fence 0 t)
          end
      end
  end.

Definition lstrip (s : string) : string := snd (PyStr.span PyStr.is_space s).

Fixpoint rstrip (s : string) : string :=
  match s with
  | EmptyString => EmptyString
  | String c t =>
      match rstrip t with
      | EmptyString => if PyStr.is_space c then EmptyString else String c EmptyString
      | t' => String c t'
      end
  end.

(** [s.strip()] *)
Definition strip (s : string) : string := rstrip (lstrip s).

End Re.

(** ** Starting a sub-process *)

(** [s] holds a NUL character *)
Fixpoint has_nul (s : string) : bool :=
  match s with
  | EmptyString => false
  | String c t => Ascii.eqb c Ascii.zero || has_nul t
  end.

(** the exception of [create_subprocess_exec] on a NUL character *)
Definition embedded_null_byte : exn := ValueError "embedded null byte".

(** [asyncio.create_subprocess_exec(program, *args)], up to the start of the
    process: [TypeError] when the program is [None], [ValueError] when the
    program or an argument holds a NUL character *)
Definition create_subprocess_exec (program : option string)
    (args : list string) : result unit :=
  match program with
  | None => Raise TypeError
  | Some program =>
      if has_nul program || existsb has_nul args then Raise embedded_null_byte
      else Ret tt
  end.

(** [compile_cmd] and [upload_cmd] without the program; the sketch directory
    is made by [tempfile] and stands there under the name of the sketch *)
Definition compile_cmd (fqbn sketch_dir : string) : list string :=
  ["compile"; "--fqbn"; fqbn; sketch_dir].

Definition upload_cmd (port fqbn sketch_dir : string) : list string :=
  ["upload"; "-p"; port; "--fqbn"; fqbn; sketch_dir; "--verbose"].

(** A [JSONResponse]: status code and content. *)
Record JSONResponse := {
  status_code : nat;
  content : gmap string json
}.

(** ** The methods of [TextDrivenArduinoSystem] *)

Section Methods.

Context (w : World).

Definition default_fqbn : string := "Seeeduino:samd:seeed_XIAO_m0".

Definition dquote : string := String (ascii_of_nat 34) EmptyString.

(** [detect_arduino_devices] *)
Definition detect_arduino_devices : M (list Device.t) :=
  fun st =>
    let ports := comports w (trace st) in
    (_ ← log (EComports ports); ret (Classifier.classify ports)) st.

(** [_call_gemini_api] *)
Definition _call_gemini_api (q : prompt) : M (option string) :=
  fun st =>
    if negb (Py.truthy_str (google_api_key st))
    then (Raise (ValueError "Google API key 未設定 (請設定環境變數 GOOGLE_API_KEY)"), st)
    else
      let r := gemini w (trace st) q in
      (_ ← log (EGemini q r);
       match r with
       | ReplyRaise e => raise e
       | ReplyNone => ret None
       | ReplyText text => ret (Some text)
       end) st.

(** [_extract_code_from_json] *)
Definition _extract_code_from_json (text : string) : option json :=
  let clean_text := Re.strip (Re.sub_fence 0 text) in
  json_loads w clean_text.

(** [generate_code_and_instructions] *)
Definition generate_code_and_instructions (description : string)
  : M (option json) :=
  response_text ← _call_gemini_api (GeneratePrompt description);
  ret (match response_text with
       | Some text =>
           if Py.truthy_str response_text then _extract_code_from_json text
           else None
       | None => None
       end).

(** [_run_cli_command]; the exit status of the command is not looked at *)
Definition _run_cli_command (args : list string) : M unit :=
  fun st =>
    if negb (Py.truthy_str (arduino_cli_path st)) then (Ret tt, st)
    else
      (_ ← lift (create_subprocess_exec (arduino_cli_path st) args);
       log (ECli args)) st.

(** [await asyncio.gather] on tasks that each start one sub-process:
    every task is started, in the order given, also after one of them has
    raised; the first exception is the one that reaches the caller *)
Fixpoint gather (tasks : list (M unit)) : M unit :=
  match tasks with
  | [] => ret tt
  | task :: rest =>
      fun st =>
        match task st with
        | (Ret _, st') => gather rest st'
        | (Raise e, st') => (Raise e, snd (gather rest st'))
        end
  end.

(** the [for lib in set(required_libs)] loop building [install_tasks] *)
Definition install_tasks (libs : list string) : list (M unit) :=
  map (fun lib =>
         let lib_name_for_install :=
           if PyStr.contains "Adafruit" lib then dquote +:+ lib +:+ dquote
           else lib in
         _run_cli_command ["lib"; "install"; lib_name_for_install])
      libs.

(** the libraries that [setup_cli_environment] derives from the source *)
Definition required_libs_of (code : string) : list string :=
  let required_libs := Re.findall_include 0 code in
  if negb (PyStr.mem "Servo" required_libs)
     && negb (PyStr.contains "Servo.h" code)
     && PyStr.contains "myServo" code
  then required_libs ++ ["Servo"]
  else required_libs.

(** [setup_cli_environment]. [code] is whatever the caller found under
    ["arduino_code"]; [re.findall] raises [TypeError] when it is not a
    string. The flag is set by the last statement only: a call that raises
    leaves it as it was. *)
Definition setup_cli_environment (code : json) (fqbn : string) : M unit :=
  fun st =>
    if _cli_env_setup_done st || negb (Py.truthy_str (arduino_cli_path st))
    then (Ret tt, st)
    else
      (_ ← gather
             [_run_cli_command ["core"; "update-index"];
              _run_cli_command
                ["core"; "install";
                 PyStr.join ":" (take 2 (PyStr.split ":" fqbn))]];
       match code with
       | JStr code =>
           let required_libs := required_libs_of code in
           _ ← match required_libs with
               | [] => ret tt
               | _ :: _ => gather (install_tasks (remove_dups required_libs))
               end;
           set_cli_env_setup_done true
       | _ => raise TypeError
       end) st.

(** [_compile_code]; [f.write(code)] raises [TypeError] when [code] is
    not a string *)
Definition _compile_code (code : json) (fqbn : string)
  : M (bool * gmap string string) :=
  match code with
  | JStr code =>
      fun st =>
        (_ ← lift (create_subprocess_exec (arduino_cli_path st)
                     (compile_cmd fqbn "temp_sketch"));
         let p := cli_compile w (trace st) "temp_sketch" code fqbn in
         _ ← log (ECompile "temp_sketch" code fqbn p);
         ret ((returncode p =? 0)%Z,
              ({[ "stdout" := stdout p; "stderr" := stderr p ]}
                 : gmap string string))) st
  | _ => raise TypeError
  end.

(** What the loop of [validate_and_fix_code] makes of a repair response:
    [fixed_result and "arduino_code" in fixed_result], then
    [fixed_result["arduino_code"]]. [Some (code, fixed_result)] is the
    well-formed case, [None] the [else] branch. *)
Definition accept_fix (fixed_result : option json)
  : result (option (json * gmap string json)) :=
  match fixed_result with
  | None => Ret None
  | Some v =>
      if Py.truthy v then
        match Py.contains "arduino_code" v with
        | Raise e => Raise e
        | Ret false => Ret None
        | Ret true =>
            match Py.getitem v "arduino_code", v with
            | Ret code, JObj m => Ret (Some (code, m))
            | Ret _, _ => Raise TypeError
            | Raise e, _ => Raise e
            end
        end
      else Ret None
  end.

(** the [for attempt in range(3)] loop of [validate_and_fix_code] and the
    two statements after it *)
Fixpoint repair_loop (attempts : list nat) (code : json)
    (generation_result : gmap string json) (fqbn : string)
  : M (bool * gmap string json) :=
  match attempts with
  | [] => ret (false, generation_result)
  | attempt :: rest =>
      '(success, result) ← _compile_code code fqbn;
      if (success : bool) then
        ret (true, <["arduino_code" := code]> generation_result)
      else if (attempt =? 2)%nat then
        ret (false, generation_result)
      else
        let error_message := Py.get result "stderr" "未知的編譯錯誤" in
        description ← read user_description;
        fixed_response_text ←
          _call_gemini_api
            (FixPrompt description
               (generation_result !! "wiring_instructions")
               code error_message);
        match fixed_response_text with
        | Some text =>
            if Py.truthy_str fixed_response_text then
              fixed ← lift (accept_fix (_extract_code_from_json text));
              match fixed with
              | Some (code, fixed_result) =>
                  repair_loop rest code fixed_result fqbn
              | None => ret (false, generation_result)
              end
            else ret (false, generation_result)
        | None => ret (false, generation_result)
        end
  end.

(** [validate_and_fix_code] *)
Definition validate_and_fix_code (generation_result : gmap string json)
    (fqbn : string) : M (bool * gmap string json) :=
  fun st =>
    if negb (Py.truthy_str (arduino_cli_path st))
    then (Ret (true, generation_result), st)
    else
      let code := Py.get generation_result "arduino_code" (JStr EmptyString) in
      (_ ← setup_cli_environment code fqbn;
       repair_loop (seq 0 3) code generation_result fqbn) st.

(** [deploy_to_arduino] *)
Definition deploy_to_arduino (code : string) (port : string) (fqbn : string)
  : M (gmap string json) :=
  fun st =>
    if negb (Py.truthy_str (arduino_cli_path st))
    then (Ret {[ "success" := JBool false;
                 "error" := JStr "Arduino CLI 未安裝，無法部署" ]}, st)
    else
      (_ ← setup_cli_environment (JStr code) fqbn;
       selected ←
         (if String.eqb port "auto" then
            devices ← detect_arduino_devices;
            let arduino_ports :=
              map Device.port (filter (fun d => Device.is_arduino d = true) devices) in
            match arduino_ports with
            | [] => ret (inr ({[ "success" := JBool false;
                                 "error" := JStr "未找到任何 Arduino 設備";
                                 "suggestion" := JStr "請檢查 USB 連接或驅動程式。" ]}
                                : gmap string json))
            | first :: _ => ret (inl first)
            end
          else ret (inl port));
       match selected with
       | inr response => ret response
       | inl port =>
           compile_proc ←
             (fun st =>
                (_ ← lift (create_subprocess_exec (arduino_cli_path st)
                             (compile_cmd fqbn "deploy_sketch"));
                 let p := cli_compile w (trace st) "deploy_sketch" code fqbn in
                 _ ← log (ECompile "deploy_sketch" code fqbn p); ret p) st);
           if negb (returncode compile_proc =? 0)%Z then
             ret {[ "success" := JBool false;
                    "error" := JStr "部署前編譯失敗";
                    "details" := JStr (stderr compile_proc) ]}
           else
             upload_proc ←
               (fun st =>
                  (_ ← lift (create_subprocess_exec (arduino_cli_path st)
                               (upload_cmd port fqbn "deploy_sketch"));
                   let p := cli_upload w (trace st) port fqbn in
                   _ ← log (EUpload port fqbn p); ret p) st);
             if negb (returncode upload_proc =? 0)%Z then
               ret {[ "success" := JBool false;
                      "error" := JStr "上傳失敗";
                      "details" := JStr (stderr upload_proc) ]}
             else
               ret {[ "success" := JBool true;
                      "message" := JStr "程式碼已成功部署！";
                      "port" := JStr port;
                      "output" := JStr (stdout upload_proc) ]}
       end) st.

(** the route [/api/generate-direct-code] *)
Definition api_generate_direct_code (request : gmap string string)
  : M JSONResponse :=
  let description := Py.get request "description" EmptyString in
  if String.eqb description EmptyString then
    ret {| status_code := 400;
           content := {[ "error" := JStr "請提供專案描述" ]} |}
  else
    _ ← set_user_description (Some description);
    try_except
      (generation_result ← generate_code_and_instructions description;
       unusable ←
         lift (match generation_result with
               | None => Ret true
               | Some v =>
                   if Py.truthy v then
                     match Py.contains "arduino_code" v with
                     | Ret b => Ret (negb b)
                     | Raise e => Raise e
                     end
                   else Ret true
               end);
       if (unusable : bool) then
         ret {| status_code := 500;
                content := {[ "error" := JStr "AI程式碼生成失敗，模型未返回有效內容或格式錯誤。" ]} |}
       else
         match generation_result with
         | Some (JObj generation_result) =>
             '(is_valid, final_result) ←
               validate_and_fix_code generation_result default_fqbn;
             if (is_valid : bool) then
               ret {| status_code := 200;
                      content :=
                        {[ "arduino_code" := Py.get_or_null final_result "arduino_code";
                           "wiring_instructions" :=
                             Py.get_or_null final_result "wiring_instructions";
                           "message" := JStr "AI成功生成程式碼與接線指南" ]} |}
             else
               ret {| status_code := 400;
                      content :=
                        {[ "error" := JStr "生成的程式碼無法通過驗證與修復，請檢查需求或稍後再試。";
                           "arduino_code" := Py.get_or_null final_result "arduino_code";
                           "wiring_instructions" :=
                             Py.get_or_null final_result "wiring_instructions" ]} |}
         | _ =>
             (* a string or a list that contains "arduino_code": the first
                [.get] on it raises, with or without a toolchain *)
             raise AttributeError
         end)
      (fun e =>
         match e with
         | ValueError msg =>
             ret {| status_code := 400; content := {[ "error" := JStr msg ]} |}
         | _ =>
             ret {| status_code := 500;
                    content := {[ "error" := JStr "伺服器處理時發生未預期的錯誤。" ]} |}
         end).

End Methods.

(** ** Runs, and what can be observed of them *)

(** the state after some more events *)
Definition append_events (st : system) (evs : list event) : system :=
  {| user_description := user_description st;
     arduino_cli_path := arduino_cli_path st;
     google_api_key := google_api_key st;
     _cli_env_setup_done := _cli_env_setup_done st;
     trace := trace st ++ evs |}.

(** what a computation returns (or raises) from the state [st] *)
Definition outcome {A} (m : M A) (st : system) : result A := fst (m st).

(** the events that a computation adds to the log of [st] *)
Definition run_events {A} (m : M A) (st : system) : list event :=
  drop (length (trace st)) (trace (snd (m st))).

Definition is_cli (e : event) : bool :=
  match e with ECli _ => true | _ => false end.

Definition is_compile (e : event) : bool :=
  match e with ECompile _ _ _ _ => true | _ => false end.

Definition is_upload (e : event) : bool :=
  match e with EUpload _ _ _ => true | _ => false end.

Definition is_gemini (e : event) : bool :=
  match e with EGemini _ _ => true | _ => false end.

Definition is_comports (e : event) : bool :=
  match e with EComports _ => true | _ => false end.

(** the toolchain is available: [self.arduino_cli_path] is truthy *)
Definition toolchain_available (st : system) : bool :=
  Py.truthy_str (arduino_cli_path st).

(** the sub-process [cli args...] can be started *)
Definition can_start (cli : option string) (args : list string) : bool :=
  match create_subprocess_exec cli args with
  | Ret _ => true
  | Raise _ => false
  end.

(** the repair response that the loop accepts as well formed, if it does:
    the new source and the new artifact *)
Definition accepted (w : World) (r : reply) : option (json * gmap string json) :=
  match r with
  | ReplyText text =>
      if Py.truthy_str (Some text) then
        match accept_fix (_extract_code_from_json w text) with
        | Ret (Some fixed) => Some fixed
        | _ => None
        end
      else None
  | _ => None
  end.

(** the well-formed repair responses of a run, oldest first *)
Fixpoint accepted_fixes (w : World) (evs : list event)
  : list (json * gmap string json) :=
  match evs with
  | [] => []
  | EGemini _ r :: rest =>
      match accepted w r with
      | Some fixed => fixed :: accepted_fixes w rest
      | None => accepted_fixes w rest
      end
  | _ :: rest => accepted_fixes w rest
  end.

(** The runs of the loop of [validate_and_fix_code], as a relation between
    the attempts left, the current source and artifact, the events and the
    result: [repair_loop] read off case by case. [description] is
    [self.user_description]. [LoopNoStart] is the run in which a
    sub-process cannot be started. *)
Inductive loop_run (w : World) (description : option string) (fqbn : string)
  : list nat -> json -> gmap string json -> list event
    -> result (bool * gmap string json) -> Prop :=
| LoopDone code gr :
    loop_run w description fqbn [] code gr [] (Ret (false, gr))
| LoopNotStr attempt rest code gr :
    (forall s, code <> JStr s) ->
    loop_run w description fqbn (attempt :: rest) code gr [] (Raise TypeError)
| LoopNoStart attempt rest code gr :
    loop_run w description fqbn (attempt :: rest) code gr []
      (Raise embedded_null_byte)
| LoopSuccess attempt rest c gr p :
    returncode p = 0%Z ->
    loop_run w description fqbn (attempt :: rest) (JStr c) gr
      [ECompile "temp_sketch" c fqbn p]
      (Ret (true, <["arduino_code" := JStr c]> gr))
| LoopExhausted rest c gr p :
    returncode p <> 0%Z ->
    loop_run w description fqbn (2 :: rest) (JStr c) gr
      [ECompile "temp_sketch" c fqbn p]
      (Ret (false, gr))
| LoopNoKey attempt rest c gr p msg :
    returncode p <> 0%Z -> attempt <> 2 ->
    loop_run w description fqbn (attempt :: rest) (JStr c) gr
      [ECompile "temp_sketch" c fqbn p]
      (Raise (ValueError msg))
| LoopAbort attempt rest c gr p r res :
    returncode p <> 0%Z -> attempt <> 2 ->
    accepted w r = None ->
    (res = Ret (false, gr) \/ exists e, res = Raise e) ->
    loop_run w description fqbn (attempt :: rest) (JStr c) gr
      [ECompile "temp_sketch" c fqbn p;
       EGemini (FixPrompt description (gr !! "wiring_instructions") (JStr c) (stderr p)) r]
      res
| LoopRepair attempt rest c gr p r code' gr' evs res :
    returncode p <> 0%Z -> attempt <> 2 ->
    accepted w r = Some (code', gr') ->
    loop_run w description fqbn rest code' gr' evs res ->
    loop_run w description fqbn (attempt :: rest) (JStr c) gr
      (ECompile "temp_sketch" c fqbn p
       :: EGemini (FixPrompt description (gr !! "wiring_instructions") (JStr c) (stderr p)) r
       :: evs)
      res.

(** the Build Runner calls of a run, and its round trips to the generation
    service *)
Definition builds (evs : list event) : list event := List.filter is_compile evs.
Definition round_trips (evs : list event) : list event := List.filter is_gemini evs.

(** a build that exited with status zero *)
Definition build_passed (e : event) : bool :=
  match e with
  | ECompile _ _ _ p => (returncode p =? 0)%Z
  | _ => false
  end.

(** the argument of [lib install] for a library *)
Definition lib_name_for_install (lib : string) : string :=
  if PyStr.contains "Adafruit" lib then dquote +:+ lib +:+ dquote else lib.

(** the library installs of one provisioning *)
Definition install_events (libs : list string) : list event :=
  map (fun lib => ECli ["lib"; "install"; lib_name_for_install lib]) libs.

(** the index refresh, the core install and the library installs *)
Definition provisioning_events (code fqbn : string) : list event :=
  ECli ["core"; "update-index"]
  :: ECli ["core"; "install"; PyStr.join ":" (take 2 (PyStr.split ":" fqbn))]
  :: install_events (remove_dups (required_libs_of code)).

(** the commands of a provisioning: the two of the first [gather], and the
    library installs of the second *)
Definition core_commands (fqbn : string) : list (list string) :=
  [["core"; "update-index"];
   ["core"; "install"; PyStr.join ":" (take 2 (PyStr.split ":" fqbn))]].

Definition lib_commands (code : string) : list (list string) :=
  map (fun lib => ["lib"; "install"; lib_name_for_install lib])
      (remove_dups (required_libs_of code)).

(** the commands among [cmds] that are started by a [gather] *)
Definition issued (cli : option string) (cmds : list (list string))
  : list event :=
  map ECli (List.filter (can_start cli) cmds).

(** the state after a provisioning that issued [evs] *)
Definition provisioned (st : system) (evs : list event) : system :=
  {| user_description := user_description st;
     arduino_cli_path := arduino_cli_path st;
     google_api_key := google_api_key st;
     _cli_env_setup_done := true;
     trace := trace st ++ evs |}.

(** the four responses of [deploy_to_arduino] with a toolchain *)
Definition not_found_response : gmap string json :=
  {[ "success" := JBool false;
     "error" := JStr "未找到任何 Arduino 設備";
     "suggestion" := JStr "請檢查 USB 連接或驅動程式。" ]}.

Definition build_failed_response (p : proc) : gmap string json :=
  {[ "success" := JBool false;
     "error" := JStr "部署前編譯失敗";
     "details" := JStr (stderr p) ]}.

Definition upload_failed_response (p : proc) : gmap string json :=
  {[ "success" := JBool false;
     "error" := JStr "上傳失敗";
     "details" := JStr (stderr p) ]}.

Definition deployed_response (port : string) (p : proc) : gmap string json :=
  {[ "success" := JBool true;
     "message" := JStr "程式碼已成功部署！";
     "port" := JStr port;
     "output" := JStr (stdout p) ]}.

(** the ports of the candidates, in enumeration order *)
Definition arduino_ports (devices : list Device.t) : list string :=
  map Device.port (filter (fun d => Device.is_arduino d = true) devices).

(** After the events [before], a run builds and then uploads to [target]:
    either the build fails and the run ends with the build error, or it
    passes and the upload follows. The run raises where the build or the
    upload cannot be started from the program [cli]. *)
Definition build_then_upload (cli : option string) (code fqbn target : string)
    (before evs : list event) (res : result (gmap string json)) : Prop :=
  (exists p,
     evs = before ++ [ECompile "deploy_sketch" code fqbn p]
     /\ returncode p <> 0%Z
     /\ res = Ret (build_failed_response p))
  \/ (exists p u,
        evs = before ++ [ECompile "deploy_sketch" code fqbn p;
                         EUpload target fqbn u]
        /\ returncode p = 0%Z
        /\ res = Ret (if (returncode u =? 0)%Z
                      then deployed_response target u
                      else upload_failed_response u))
  \/ (evs = before
      /\ can_start cli (compile_cmd fqbn "deploy_sketch") = false
      /\ res = Raise embedded_null_byte)
  \/ (exists p,
        evs = before ++ [ECompile "deploy_sketch" code fqbn p]
        /\ returncode p = 0%Z
        /\ can_start cli (upload_cmd target fqbn "deploy_sketch") = false
        /\ res = Raise embedded_null_byte).

(** The build and transfer steps of a deploy run, once the port is chosen. *)
Inductive transfer_run (cli : option string) (code target fqbn : string)
  : list event -> result (gmap string json) -> Prop :=
| BuildNotStarted :
    can_start cli (compile_cmd fqbn "deploy_sketch") = false ->
    transfer_run cli code target fqbn [] (Raise embedded_null_byte)
| BuildFailed p :
    returncode p <> 0%Z ->
    transfer_run cli code target fqbn
      [ECompile "deploy_sketch" code fqbn p]
      (Ret (build_failed_response p))
| UploadNotStarted p :
    returncode p = 0%Z ->
    can_start cli (upload_cmd target fqbn "deploy_sketch") = false ->
    transfer_run cli code target fqbn
      [ECompile "deploy_sketch" code fqbn p]
      (Raise embedded_null_byte)
| UploadFailed p u :
    returncode p = 0%Z -> returncode u <> 0%Z ->
    transfer_run cli code target fqbn
      [ECompile "deploy_sketch" code fqbn p; EUpload target fqbn u]
      (Ret (upload_failed_response u))
| Deployed p u :
    returncode p = 0%Z -> returncode u = 0%Z ->
    transfer_run cli code target fqbn
      [ECompile "deploy_sketch" code fqbn p; EUpload target fqbn u]
      (Ret (deployed_response target u)).

(** a command of the provisioning for [code] and [fqbn] cannot be started *)
Definition provisioning_stops (cli : option string) (code fqbn : string)
  : Prop :=
  exists args,
    ECli args ∈ provisioning_events code fqbn /\ can_start cli args = false.

(** The steps of a deploy run after the commands of the provisioning.
    [was_set_up] is the flag at the start of the run. *)
Inductive deploy_run (cli : option string) (was_set_up : bool)
    (code port fqbn : string)
  : list event -> result (gmap string json) -> Prop :=
| NotProvisioned :
    was_set_up = false ->
    provisioning_stops cli code fqbn ->
    deploy_run cli was_set_up code port fqbn [] (Raise embedded_null_byte)
| ExplicitPort evs res :
    port <> "auto" ->
    transfer_run cli code port fqbn evs res ->
    deploy_run cli was_set_up code port fqbn evs res
| AutoNotFound r :
    port = "auto" ->
    arduino_ports (Classifier.classify r) = [] ->
    deploy_run cli was_set_up code port fqbn [EComports r]
      (Ret not_found_response)
| AutoSelected r target others evs res :
    port = "auto" ->
    arduino_ports (Classifier.classify r) = target :: others ->
    transfer_run cli code target fqbn evs res ->
    deploy_run cli was_set_up code port fqbn (EComports r :: evs) res.

(** the port selection of [deploy_to_arduino], as a computation *)
Definition select_port (w : World) (port : string)
  : M (string + gmap string json) :=
  if String.eqb port "auto" then
    devices ← detect_arduino_devices w;
    match arduino_ports devices with
    | [] => ret (inr not_found_response)
    | first :: _ => ret (inl first)
    end
  else ret (inl port).

(** the build and the upload of [deploy_to_arduino], as a computation *)
Definition build_and_upload (w : World) (code port fqbn : string)
  : M (gmap string json) :=
  compile_proc ←
    (fun st =>
       (_ ← lift (create_subprocess_exec (arduino_cli_path st)
                    (compile_cmd fqbn "deploy_sketch"));
        let p := cli_compile w (trace st) "deploy_sketch" code fqbn in
        _ ← log (ECompile "deploy_sketch" code fqbn p); ret p) st);
  if negb (returncode compile_proc =? 0)%Z then
    ret (build_failed_response compile_proc)
  else
    upload_proc ←
      (fun st =>
         (_ ← lift (create_subprocess_exec (arduino_cli_path st)
                      (upload_cmd port fqbn "deploy_sketch"));
          let p := cli_upload w (trace st) port fqbn in
          _ ← log (EUpload port fqbn p); ret p) st);
    if negb (returncode upload_proc =? 0)%Z then
      ret (upload_failed_response upload_proc)
    else ret (deployed_response port upload_proc).

(** ** The two rules of the classifier, as the specification words them *)

(** case-insensitive equality of two strings *)
Definition ci_equal (a b : string) : Prop := PyStr.lower a = PyStr.lower b.

(** [needle] occurs in [hay], up to case *)
Definition ci_substring (needle hay : string) : Prop :=
  exists pre mid post, hay = pre +:+ mid +:+ post /\ ci_equal mid needle.

(** rule (a) on one field of a port *)
Definition field_match (identifier : string) (field : option string) : Prop :=
  exists s, field = Some s /\ ci_substring identifier s.

(** rule (a): a name of the identifier list occurs, up to case, in the
    description or in the manufacturer *)
Definition name_match (port : ListPortInfo.t) : Prop :=
  exists identifier,
    identifier ∈ Classifier.arduino_identifiers
    /\ (field_match identifier (ListPortInfo.description port)
        \/ field_match identifier (ListPortInfo.manufacturer port)).

(** rule (b): the vendor id, written as four hexadecimal digits, is on the
    allow-list, up to case *)
Definition vid_match (port : ListPortInfo.t) : Prop :=
  exists v entry,
    ListPortInfo.vid port = Some v
    /\ entry ∈ Classifier.arduino_vid_pids
    /\ ci_equal (PyStr.format_04X v) entry.

(** ** Four properties that the code does not have *)

(** Provisioning happens once per process: of any two calls, one after the
    other, the second issues no command. *)
Definition provisioning_is_idempotent : Prop :=
  forall st code1 fqbn1 code2 fqbn2,
    toolchain_available st = true ->
    run_events (setup_cli_environment (JStr code2) fqbn2)
      (snd (setup_cli_environment (JStr code1) fqbn1 st)) = [].

(** The validation step tags what it returns: from the value returned one
    can tell an artifact accepted without a toolchain from one that went
    through the Build Runner. *)
Definition unvalidated_is_tagged : Prop :=
  exists tag : bool * gmap string json -> bool,
    forall w st gr fqbn v,
      outcome (validate_and_fix_code w gr fqbn) st = Ret v ->
      (tag v = true <-> toolchain_available st = false).

(** On exhaustion the value returned carries the diagnostics of the last
    build: they can be read off it. *)
Definition exhausted_returns_diagnostics : Prop :=
  exists diagnostics_of : bool * gmap string json -> string,
    forall w st gr fqbn e1 e2 s3 c3 f3 p3 v,
      toolchain_available st = true ->
      builds (run_events (validate_and_fix_code w gr fqbn) st)
      = [e1; e2; ECompile s3 c3 f3 p3] ->
      Forall (fun e => build_passed e = false)
        (builds (run_events (validate_and_fix_code w gr fqbn) st)) ->
      outcome (validate_and_fix_code w gr fqbn) st = Ret v ->
      diagnostics_of v = stderr p3.

(** The ports are enumerated only in the transfer phase, after a build that
    passed. *)
Definition selection_follows_build : Prop :=
  forall w st code port fqbn pre r post,
    toolchain_available st = true ->
    run_events (deploy_to_arduino w code port fqbn) st = pre ++ EComports r :: post ->
    exists e, e ∈ pre /\ build_passed e = true.

(** ** Scripted worlds, for the scenarios *)

Module Scenario.

Definition failed (diagnostics : string) : proc :=
  {| returncode := 1; stdout := EmptyString; stderr := diagnostics |}.

Definition passed : proc :=
  {| returncode := 0; stdout := "done"; stderr := EmptyString |}.

(** the text [{"arduino_code": "<code>", "wiring_instructions": "<doc>"}] *)
Definition json_text (code doc : string) : string :=
  "{" +:+ dquote +:+ "arduino_code" +:+ dquote +:+ ": "
      +:+ dquote +:+ code +:+ dquote +:+ ", "
      +:+ dquote +:+ "wiring_instructions" +:+ dquote +:+ ": "
      +:+ dquote +:+ doc +:+ dquote +:+ "}".

Definition artifact (code doc : string) : gmap string json :=
  {[ "arduino_code" := JStr code; "wiring_instructions" := JStr doc ]}.

(** [json.loads] on the texts that the scenarios use *)
Definition loads (known : list (string * string)) (text : string)
  : option json :=
  match find (fun cd => String.eqb text (json_text (fst cd) (snd cd))) known with
  | Some cd => Some (JObj (artifact (fst cd) (snd cd)))
  | None => None
  end.

(** A world that answers the n-th compile call with the n-th entry of
    [builds] and the n-th request to the generation service with the n-th
    entry of [replies]. *)
Definition scripted (builds : list proc) (replies : list reply)
    (ports : option (list ListPortInfo.t)) (known : list (string * string))
  : World :=
  {| cli_compile := fun history _ _ _ =>
       nth (length (List.filter is_compile history)) builds (failed "no more builds");
     cli_upload := fun _ _ _ => passed;
     gemini := fun history _ =>
       nth (length (List.filter is_gemini history)) replies ReplyNone;
     comports := fun _ => ports;
     json_loads := loads known |}.

(** a freshly started process, with or without a toolchain *)
Definition fresh (cli : option string) : system :=
  {| user_description := Some "blink an LED on pin D5 every 500ms";
     arduino_cli_path := cli;
     google_api_key := Some "key";
     _cli_env_setup_done := false;
     trace := [] |}.

Definition with_cli : system := fresh (Some "/usr/bin/arduino-cli").

Definition without_cli : system := fresh None.

Definition known_fixes : list (string * string) :=
  [("v2", "doc"); ("v3", "doc"); ("v2", "other doc")].

(** attempts 1 and 2 fail, attempt 3 builds *)
Definition third_time_lucky : World :=
  scripted [failed "e1"; failed "e2"; passed]
           [ReplyText (json_text "v2" "doc"); ReplyText (json_text "v3" "doc")]
           None known_fixes.

(** all three attempts fail; the last diagnostics are a parameter *)
Definition never_builds (last_diagnostics : string) : World :=
  scripted [failed "e1"; failed "e2"; failed last_diagnostics]
           [ReplyText (json_text "v2" "doc"); ReplyText (json_text "v3" "doc")]
           None known_fixes.

(** the first attempt builds *)
Definition builds_at_once : World :=
  scripted [passed] [] None known_fixes.

(** the repair response changes the wiring document *)
Definition rewrites_doc : World :=
  scripted [failed "e1"; passed]
           [ReplyText (json_text "v2" "other doc")]
           None known_fixes.

Definition uno : ListPortInfo.t :=
  {| ListPortInfo.device := "/dev/ttyACM0";
     ListPortInfo.description := Some "Arduino Uno";
     ListPortInfo.manufacturer := Some "Arduino (www.arduino.cc)";
     ListPortInfo.vid := Some 0x2341%N;
     ListPortInfo.pid := Some 0x0043%N |}.

Definition modem : ListPortInfo.t :=
  {| ListPortInfo.device := "/dev/ttyS0";
     ListPortInfo.description := Some "n/a";
     ListPortInfo.manufacturer := None;
     ListPortInfo.vid := None;
     ListPortInfo.pid := None |}.

(** a board is attached and everything builds *)
Definition board_attached : World :=
  scripted [passed] [] (Some [modem; uno]) [].

(** only a port that is no board *)
Definition no_board : World :=
  scripted [passed] [] (Some [modem]) [].

Definition sketch : string := "void setup() {} void loop() {}".

(** a source that includes a header whose name holds a NUL character *)
Definition nul_include : string :=
  "#include <a" +:+ String Ascii.zero "b.h>".

(** the generation service writes "v1", and it builds at once *)
Definition generated_builds_at_once : World :=
  scripted [passed] [ReplyText (json_text "v1" "doc")] None
           (("v1", "doc") :: known_fixes).

(** the generation service writes "v1", repairs it twice, nothing builds *)
Definition generated_never_builds : World :=
  scripted [failed "e1"; failed "e2"; failed "e3"]
           [ReplyText (json_text "v1" "doc"); ReplyText (json_text "v2" "doc");
            ReplyText (json_text "v3" "doc")]
           None (("v1", "doc") :: known_fixes).

Definition request : gmap string string :=
  {[ "description" := "blink an LED on pin D5 every 500ms" ]}.

End Scenario.

Import Scenario.

(** ** The rest of the program: start-up, the deploy route, and the
    vocabulary of the further properties *)

(** the toolchain commands that [setup_cli_environment] issues from the
    state [st] for the source [code]: those of its two [gather] that can be
    started, the second one being reached when the first did not raise and
    the source is a string *)
Definition setup_events (st : system) (code : json) (fqbn : string)
  : list event :=
  if _cli_env_setup_done st || negb (toolchain_available st) then []
  else
    let cli := arduino_cli_path st in
    issued cli (core_commands fqbn)
    ++ (if forallb (can_start cli) (core_commands fqbn) then
          match code with
          | JStr code => issued cli (lib_commands code)
          | _ => []
          end
        else []).

(** the artifact that the loop holds after the events [evs], when it started
    with [gr] *)
Definition artifact_after (w : World) (gr : gmap string json)
    (evs : list event) : gmap string json :=
  match last (accepted_fixes w evs) with
  | Some (_, m) => m
  | None => gr
  end.

(** the state after [arduino_system.user_description = description] *)
Definition with_description (st : system) (description : string) : system :=
  {| user_description := Some description;
     arduino_cli_path := arduino_cli_path st;
     google_api_key := google_api_key st;
     _cli_env_setup_done := _cli_env_setup_done st;
     trace := trace st |}.

(** the message of the [ValueError] that [_call_gemini_api] raises *)
Definition key_message : string :=
  "Google API key 未設定 (請設定環境變數 GOOGLE_API_KEY)".

(** the response of [/api/generate-direct-code] when nothing usable was
    generated *)
Definition generation_failed_response : JSONResponse :=
  {| status_code := 500;
     content := {[ "error" := JStr "AI程式碼生成失敗，模型未返回有效內容或格式錯誤。" ]} |}.

(** the route [/api/deploy] *)
Definition api_deploy_code (w : World) (request : gmap string string)
  : M JSONResponse :=
  let code_to_deploy := request !! "code" in
  match code_to_deploy with
  | Some code =>
      if Py.truthy_str code_to_deploy then
        let port := Py.get request "port" "auto" in
        result ← deploy_to_arduino w code port default_fqbn;
        ret {| status_code := 200; content := result |}
      else
        ret {| status_code := 400;
               content := {[ "error" := JStr "請求中未包含程式碼" ]} |}
  | None =>
      ret {| status_code := 400;
             content := {[ "error" := JStr "請求中未包含程式碼" ]} |}
  end.

(** [find_arduino_cli]. [which] is [shutil.which] and [runs name path]
    tells whether the call [path version] made while [name] is tried ran and
    exited with status zero within the timeout. *)
Fixpoint find_among (which : string -> option string)
    (runs : string -> string -> bool)
    (possible_names : list string) : option string :=
  match possible_names with
  | [] => None
  | name :: rest =>
      let path := which name in
      match path with
      | Some p =>
          if Py.truthy_str path && runs name p then Some p
          else find_among which runs rest
      | None => find_among which runs rest
      end
  end.

Definition find_arduino_cli (which : string -> option string)
    (runs : string -> string -> bool) : option string :=
  find_among which runs ["arduino-cli"; "arduino-cli.exe"].

(** the state that [__init__] builds *)
Definition init (which : string -> option string)
    (runs : string -> string -> bool) (api_key : option string) : system :=
  {| user_description := None;
     arduino_cli_path := find_arduino_cli which runs;
     google_api_key := api_key;
     _cli_env_setup_done := false;
     trace := [] |}.

Module Cases.

(** the first build fails and the generation service does not answer *)
Definition no_answer : World :=
  Scenario.scripted [Scenario.failed "e1"; Scenario.passed] [ReplyNone] None [].

(** a process without the key of the generation service *)
Definition without_key : system :=
  {| user_description := None;
     arduino_cli_path := Some "/usr/bin/arduino-cli";
     google_api_key := None;
     _cli_env_setup_done := false;
     trace := [] |}.

(** the build passes, the upload fails *)
Definition upload_fails : World :=
  {| cli_compile := fun _ _ _ _ => Scenario.passed;
     cli_upload := fun _ _ _ => Scenario.failed "no device on port";
     gemini := fun _ _ => ReplyNone;
     comports := fun _ => Some [Scenario.uno];
     json_loads := fun _ => None |}.

(** a deploy request whose port holds a NUL character *)
Definition nul_port : gmap string string :=
  {[ "code" := Scenario.sketch; "port" := "COM" +:+ String Ascii.zero "3" ]}.

(** the same board on a second port *)
Definition second_uno : ListPortInfo.t :=
  {| ListPortInfo.device := "/dev/ttyACM1";
     ListPortInfo.description := None;
     ListPortInfo.manufacturer := None;
     ListPortInfo.vid := Some 0x2341%N;
     ListPortInfo.pid := Some 0x0043%N |}.

End Cases.

Import Cases.

(** every character of [s] satisfies [p] *)
Fixpoint all_chars (p : ascii -> bool) (s : string) : bool :=
  match s with
  | EmptyString => true
  | String c t => p c && all_chars p t
  end.

(** [code] holds the directive [#include <lib.h>], with any white space
    between the keyword and the bracket *)
Definition includes (lib code : string) : Prop :=
  exists pre blank post,
    code = pre +:+ "#include" +:+ blank +:+ "<" +:+ lib +:+ ".h>" +:+ post
    /\ all_chars PyStr.is_space blank = true.

(** a path that [which] resolves for [name], that is not empty and that
    passes the version check *)
Definition usable (which : string -> option string)
    (runs : string -> string -> bool) (name p : string) : Prop :=
  which name = Some p /\ p <> EmptyString /\ runs name p = true.

(** the vendor ids of the allow-list, as numbers *)
Definition arduino_vids : list N :=
  [0x2341; 0x1A86; 0x10C4; 0x0403; 0x2886; 0x303A]%N.

(** reading back what [hex_upper] writes *)
Fixpoint hex_read (s : string) : option Hexadecimal.uint :=
  match s with
  | EmptyString => Some Hexadecimal.Nil
  | String c t =>
      match hex_read t with
      | None => None
      | Some d =>
          if Ascii.eqb c "0" then Some (Hexadecimal.D0 d)
          else if Ascii.eqb c "1" then Some (Hexadecimal.D1 d)
          else if Ascii.eqb c "2" then Some (Hexadecimal.D2 d)
          else if Ascii.eqb c "3" then Some (Hexadecimal.D3 d)
          else if Ascii.eqb c "4" then Some (Hexadecimal.D4 d)
          else if Ascii.eqb c "5" then Some (Hexadecimal.D5 d)
          else if Ascii.eqb c "6" then Some (Hexadecimal.D6 d)
          else if Ascii.eqb c "7" then Some (Hexadecimal.D7 d)
          else if Ascii.eqb c "8" then Some (Hexadecimal.D8 d)
          else if Ascii.eqb c "9" then Some (Hexadecimal.D9 d)
          else if Ascii.eqb c "A" then Some (Hexadecimal.Da d)
          else if Ascii.eqb c "B" then Some (Hexadecimal.Db d)
          else if Ascii.eqb c "C" then Some (Hexadecimal.Dc d)
          else if Ascii.eqb c "D" then Some (Hexadecimal.Dd d)
          else if Ascii.eqb c "E" then Some (Hexadecimal.De d)
          else if Ascii.eqb c "F" then Some (Hexadecimal.Df d)
          else None
      end
  end.

(** [s] holds no backtick *)
Definition no_backtick (s : string) : bool :=
  all_chars (fun c => negb (Ascii.eqb c "`")) s.

(** [s] is made of white space only *)
Definition blank (s : string) : bool := all_chars PyStr.is_space s.

(** [s] holds no colon *)
Definition no_colon (s : string) : bool :=
  all_chars (fun c => negb (Ascii.eqb c ":")) s.

(** * Proofs *)

(** ** The monad and the log *)

Lemma append_events_nil st : append_events st [] = st.
Proof. destruct st; unfold append_events; simpl. by rewrite app_nil_r. Qed.

Lemma append_events_app st a b :
  append_events (append_events st a) b = append_events st (a ++ b).
Proof. unfold append_events; simpl. by rewrite app_assoc. Qed.

Lemma log_append e st : log e st = (Ret tt, append_events st [e]).
Proof. reflexivity. Qed.

Lemma run_events_append {A} (m : M A) st r evs :
  m st = (r, append_events st evs) -> run_events m st = evs.
Proof.
  intros E. unfold run_events. rewrite E. simpl. by rewrite drop_app_length.
Qed.

Lemma bind_unfold {A B} (m : M A) (k : A -> M B) st :
  (m ≫= k) st = match m st with
                | (Ret a, st') => k a st'
                | (Raise e, st') => (Raise e, st')
                end.
Proof. reflexivity. Qed.

Section RunFacts.

Context (w : World).

Lemma exec_available st args :
toolchain_available st = true ->
create_subprocess_exec (arduino_cli_path st) args
= if can_start (arduino_cli_path st) args then Ret tt
  else Raise embedded_null_byte.
Proof.
unfold toolchain_available, can_start, create_subprocess_exec.
destruct (arduino_cli_path st) as [program|]; [|discriminate]. intros _.
by destruct (has_nul program || existsb has_nul args).
Qed.

Lemma compile_code_str c fqbn st :
toolchain_available st = true ->
can_start (arduino_cli_path st) (compile_cmd fqbn "temp_sketch") = true ->
exists p,
  _compile_code w (JStr c) fqbn st
  = (Ret ((returncode p =? 0)%Z,
          ({[ "stdout" := stdout p; "stderr" := stderr p ]} : gmap string string)),
     append_events st [ECompile "temp_sketch" c fqbn p]).
Proof.
intros Hcli Hstart. eexists. cbn [_compile_code].
rewrite bind_unfold. unfold lift. rewrite exec_available, Hstart by done.
reflexivity.
Qed.

Lemma compile_code_no_start c fqbn st :
toolchain_available st = true ->
can_start (arduino_cli_path st) (compile_cmd fqbn "temp_sketch") = false ->
_compile_code w (JStr c) fqbn st = (Raise embedded_null_byte, st).
Proof.
intros Hcli Hstart. cbn [_compile_code].
rewrite bind_unfold. unfold lift. by rewrite exec_available, Hstart by done.
Qed.

Lemma compile_code_not_str code fqbn st :
(forall s, code <> JStr s) ->
_compile_code w code fqbn st = (Raise TypeError, st).
Proof. intros H. destruct code; try reflexivity. by destruct (H s). Qed.

Lemma call_gemini_cases q st :
(exists msg, _call_gemini_api w q st = (Raise (ValueError msg), st))
\/ exists r,
     _call_gemini_api w q st
     = (match r with
        | ReplyRaise e => Raise e
        | ReplyNone => Ret None
        | ReplyText text => Ret (Some text)
        end, append_events st [EGemini q r]).
Proof.
unfold _call_gemini_api.
destruct (negb (Py.truthy_str (google_api_key st))).
- left. eauto.
- right. exists (gemini w (trace st) q). rewrite bind_unfold, log_append.
  by destruct (gemini w (trace st) q).
Qed.

Lemma stderr_of_result p :
Py.get ({[ "stdout" := stdout p; "stderr" := stderr p ]} : gmap string string)
  "stderr" "未知的編譯錯誤" = stderr p.
Proof. unfold Py.get. by simplify_map_eq. Qed.

Lemma repair_loop_run attempts : forall code gr fqbn st,
toolchain_available st = true ->
exists evs res,
  repair_loop w attempts code gr fqbn st = (res, append_events st evs)
  /\ loop_run w (user_description st) fqbn attempts code gr evs res.
Proof.
induction attempts as [|attempt rest IH]; intros code gr fqbn st Hcli.
- exists [], (Ret (false, gr)). split; [|constructor].
  simpl. by rewrite append_events_nil.
- assert (Hcode : (exists c, code = JStr c) \/ (forall s, code <> JStr s))
    by (destruct code; eauto; right; congruence).
  destruct Hcode as [[c ->]|Hns].
  2:{ exists [], (Raise TypeError). split; [|by constructor].
      cbn [repair_loop]. rewrite bind_unfold, compile_code_not_str by done.
      by rewrite append_events_nil. }
  cbn [repair_loop]. rewrite bind_unfold.
  destruct (can_start (arduino_cli_path st) (compile_cmd fqbn "temp_sketch"))
    eqn:Hstart.
  2:{ exists [], (Raise embedded_null_byte). split; [|by constructor].
      rewrite compile_code_no_start by done. by rewrite append_events_nil. }
  destruct (compile_code_str c fqbn st Hcli Hstart) as [p ->].
  destruct (returncode p =? 0)%Z eqn:Hrc.
  { apply Z.eqb_eq in Hrc. do 2 eexists. split; [reflexivity|]. by constructor. }
  apply Z.eqb_neq in Hrc.
  destruct (attempt =? 2)%nat eqn:Ha.
  { apply Nat.eqb_eq in Ha as ->. do 2 eexists. split; [reflexivity|]. by constructor. }
  apply Nat.eqb_neq in Ha.
  rewrite stderr_of_result, bind_unfold. cbn [read user_description append_events].
  rewrite bind_unfold.
  set (st1 := append_events st _).
  set (q := FixPrompt _ _ _ _).
  destruct (call_gemini_cases q st1) as [[msg ->]|[r ->]].
  { do 2 eexists. split; [reflexivity|]. by constructor. }
  subst st1. rewrite append_events_app. cbn [app].
  destruct (accepted w r) as [[code' gr']|] eqn:Hacc.
  + destruct r as [e| |text]; try discriminate.
    unfold accepted in Hacc.
    destruct (Py.truthy_str (Some text)) eqn:Ht; [|discriminate].
    rewrite bind_unfold. unfold lift at 1.
    destruct (accept_fix _) as [[fixed|]|] eqn:Hfix; try discriminate.
    injection Hacc as ->.
    destruct (IH code' gr' fqbn (append_events st
                [ECompile "temp_sketch" c fqbn p; EGemini q (ReplyText text)])
                Hcli)
      as (evs & res & -> & Hrun).
    rewrite append_events_app. do 2 eexists. split; [reflexivity|].
    cbn [app]. subst q. eapply LoopRepair; eauto.
    unfold accepted. by rewrite Ht, Hfix.
  + match goal with
    | |- exists evs res, ?t = _ /\ _ =>
        assert (Hres : exists res,
                   t = (res, append_events st
                               [ECompile "temp_sketch" c fqbn p; EGemini q r])
                   /\ (res = Ret (false, gr) \/ exists e, res = Raise e))
    end.
    { destruct r as [e| |text]; [eauto 6..|].
      unfold accepted in Hacc.
      destruct (Py.truthy_str (Some text)) eqn:Ht; [|eauto 6].
      rewrite bind_unfold. unfold lift at 1.
      destruct (accept_fix _) as [[fixed|]|] eqn:Hfix; try discriminate; eauto 6. }
    destruct Hres as (res & -> & Hres).
    do 2 eexists. split; [reflexivity|]. subst q. by eapply LoopAbort.
Qed.

Lemma run_cli_command_available args st :
toolchain_available st = true ->
_run_cli_command args st
= if can_start (arduino_cli_path st) args
  then (Ret tt, append_events st [ECli args])
  else (Raise embedded_null_byte, st).
Proof.
intros Hcli. unfold _run_cli_command.
pose proof Hcli as Hcli'. unfold toolchain_available in Hcli'. rewrite Hcli'.
cbn [negb]. rewrite bind_unfold. unfold lift. rewrite exec_available by done.
by destruct (can_start (arduino_cli_path st) args).
Qed.

(** a [gather] of commands starts those that can be started *)
Lemma gather_commands cmds : forall st,
toolchain_available st = true ->
gather (map _run_cli_command cmds) st
= (if forallb (can_start (arduino_cli_path st)) cmds then Ret tt
   else Raise embedded_null_byte,
   append_events st (issued (arduino_cli_path st) cmds)).
Proof.
induction cmds as [|args rest IH]; intros st Hcli.
- cbn. by rewrite append_events_nil.
- cbn [map gather forallb]. rewrite run_cli_command_available by done.
  unfold issued. cbn [List.filter].
  destruct (can_start (arduino_cli_path st) args) eqn:Hstart; cbn [andb].
  + rewrite (IH (append_events st [ECli args]) Hcli).
    cbn [arduino_cli_path append_events]. unfold issued.
    by rewrite append_events_app.
  + rewrite (IH st Hcli). cbn [snd]. reflexivity.
Qed.

Lemma install_tasks_commands code :
install_tasks (remove_dups (required_libs_of code))
= map _run_cli_command (lib_commands code).
Proof. unfold install_tasks, lib_commands. by rewrite map_map. Qed.

Lemma issued_all cli cmds :
forallb (can_start cli) cmds = true -> issued cli cmds = map ECli cmds.
Proof.
unfold issued. induction cmds as [|args rest IH]; [done|].
cbn [forallb List.filter]. intros [-> H]%andb_true_iff.
cbn [map]. by rewrite IH.
Qed.

Lemma provisioning_events_commands code fqbn :
provisioning_events code fqbn
= map ECli (core_commands fqbn) ++ map ECli (lib_commands code).
Proof.
unfold provisioning_events, install_events, lib_commands, core_commands.
by rewrite map_map.
Qed.

Lemma setup_done code fqbn st :
_cli_env_setup_done st = true ->
setup_cli_environment code fqbn st = (Ret tt, st).
Proof. unfold setup_cli_environment. by intros ->. Qed.

Lemma setup_unavailable code fqbn st :
toolchain_available st = false ->
setup_cli_environment code fqbn st = (Ret tt, st).
Proof.
unfold setup_cli_environment, toolchain_available. intros ->.
by rewrite orb_true_r.
Qed.

(** a first provisioning, case by case *)
Lemma setup_spec code fqbn st :
_cli_env_setup_done st = false ->
toolchain_available st = true ->
setup_cli_environment code fqbn st
= if forallb (can_start (arduino_cli_path st)) (core_commands fqbn) then
    match code with
    | JStr c =>
        if forallb (can_start (arduino_cli_path st)) (lib_commands c)
        then (Ret tt, provisioned st (provisioning_events c fqbn))
        else (Raise embedded_null_byte,
              append_events st
                (map ECli (core_commands fqbn)
                 ++ issued (arduino_cli_path st) (lib_commands c)))
    | _ => (Raise TypeError, append_events st (map ECli (core_commands fqbn)))
    end
  else (Raise embedded_null_byte,
        append_events st (issued (arduino_cli_path st) (core_commands fqbn))).
Proof.
intros Hflag Hcli. unfold setup_cli_environment.
rewrite Hflag. pose proof Hcli as Hcli'. unfold toolchain_available in Hcli'.
rewrite Hcli'. cbn [negb orb]. rewrite bind_unfold.
change [_run_cli_command ["core"; "update-index"];
        _run_cli_command
          ["core"; "install"; PyStr.join ":" (take 2 (PyStr.split ":" fqbn))]]
  with (map _run_cli_command (core_commands fqbn)).
rewrite gather_commands by done.
destruct (forallb (can_start (arduino_cli_path st)) (core_commands fqbn))
  eqn:Hcore; [|done].
rewrite issued_all by done.
destruct code as [| | | |c| |]; try reflexivity.
cbn zeta. rewrite bind_unfold.
assert (Hlibs : (match required_libs_of c with
                 | [] => ret tt
                 | _ :: _ => gather (install_tasks (remove_dups (required_libs_of c)))
                 end)
                = gather (map _run_cli_command (lib_commands c))).
{ rewrite <- install_tasks_commands.
  by destruct (required_libs_of c). }
rewrite Hlibs, gather_commands by done.
cbn [arduino_cli_path append_events].
destruct (forallb (can_start (arduino_cli_path st)) (lib_commands c)) eqn:Hl.
- rewrite issued_all, append_events_app by done.
  by rewrite provisioning_events_commands.
- by rewrite append_events_app.
Qed.

Lemma validate_unavailable gr fqbn st :
toolchain_available st = false ->
validate_and_fix_code w gr fqbn st = (Ret (true, gr), st).
Proof.
unfold validate_and_fix_code, toolchain_available. by intros ->.
Qed.

Lemma issued_cli cli cmds :
Forall (fun e => is_cli e = true) (issued cli cmds).
Proof. unfold issued. by apply Forall_map, Forall_true. Qed.

Lemma commands_cli cmds : Forall (fun e => is_cli e = true) (map ECli cmds).
Proof. by apply Forall_map, Forall_true. Qed.

Lemma setup_cases code fqbn st :
toolchain_available st = true ->
exists pre r st',
  setup_cli_environment code fqbn st = (r, st')
  /\ trace st' = trace st ++ pre
  /\ Forall (fun e => is_cli e = true) pre
  /\ user_description st' = user_description st
  /\ arduino_cli_path st' = arduino_cli_path st
  /\ google_api_key st' = google_api_key st
  /\ (r = Ret tt
      \/ (r = Raise TypeError /\ forall s, code <> JStr s)
      \/ r = Raise embedded_null_byte).
Proof.
intros Hcli. destruct (_cli_env_setup_done st) eqn:Hflag.
- exists [], (Ret tt), st. rewrite setup_done, app_nil_r by done. auto 10.
- rewrite setup_spec by done.
  destruct (forallb _ (core_commands fqbn)).
  2:{ eexists _, _, _. split; [reflexivity|]. split; [reflexivity|].
      split; [apply issued_cli|]. auto 10. }
  destruct code;
    try (eexists _, _, _; split; [reflexivity|]; split; [reflexivity|];
         split; [apply commands_cli|]; repeat split; try done;
         right; left; split; [done|]; intros ?; discriminate).
  destruct (forallb _ (lib_commands s)).
  + eexists _, _, _. split; [reflexivity|]. split; [reflexivity|].
    split; [|auto 10]. rewrite provisioning_events_commands.
    apply Forall_app. split; apply commands_cli.
  + eexists _, _, _. split; [reflexivity|]. split; [reflexivity|].
    split; [|auto 10].
    apply Forall_app. split; [apply commands_cli|apply issued_cli].
Qed.

Lemma validate_run gr fqbn st :
toolchain_available st = true ->
exists pre evs,
  run_events (validate_and_fix_code w gr fqbn) st = pre ++ evs
  /\ Forall (fun e => is_cli e = true) pre
  /\ loop_run w (user_description st) fqbn (seq 0 3)
       (Py.get gr "arduino_code" (JStr EmptyString)) gr evs
       (outcome (validate_and_fix_code w gr fqbn) st).
Proof.
intros Hcli. unfold run_events, outcome, validate_and_fix_code.
pose proof Hcli as Hcli'. unfold toolchain_available in Hcli'.
rewrite Hcli'. cbn [negb]. rewrite bind_unfold.
set (code := Py.get gr "arduino_code" (JStr EmptyString)).
destruct (setup_cases code fqbn st Hcli)
  as (pre & r & st' & -> & Htr & Hpre & Hud & Hpath & _ & Hr).
destruct Hr as [->|[[-> Hns]| ->]].
- destruct (repair_loop_run (seq 0 3) code gr fqbn st')
    as (evs & res & -> & Hrun).
  { unfold toolchain_available. by rewrite Hpath. }
  exists pre, evs. cbn [fst snd append_events trace].
  rewrite Htr, <- app_assoc, drop_app_length. rewrite <- Hud.
  auto.
- exists pre, []. cbn [fst snd].
  rewrite Htr, drop_app_length, app_nil_r. split; [done|]. split; [done|].
  by constructor.
- exists pre, []. cbn [fst snd].
  rewrite Htr, drop_app_length, app_nil_r. split; [done|]. split; [done|].
  by constructor.
Qed.
End RunFacts.

(** ** Facts about the runs of the loop *)

Section LoopFacts.
Context (w : World) (description : option string) (fqbn : string).

Lemma accepted_has_code r code m :
  accepted w r = Some (code, m) -> m !! "arduino_code" = Some code.
Proof.
  destruct r as [e| |text]; try discriminate. unfold accepted.
  destruct (Py.truthy_str _); [|discriminate].
  destruct (_extract_code_from_json w text) as [v|]; [|discriminate].
  unfold accept_fix. destruct (Py.truthy v); [|discriminate].
  destruct (Py.contains "arduino_code" v) as [[|]|]; try discriminate.
  destruct v; try discriminate. cbn [Py.getitem].
  destruct (m0 !! "arduino_code") eqn:E; try discriminate.
  by intros [= <- <-].
Qed.

Lemma loop_run_builds_le attempts code gr evs res :
  loop_run w description fqbn attempts code gr evs res ->
  length (builds evs) <= length attempts.
Proof.
  induction 1; simpl in *; lia.
Qed.

Lemma loop_run_round_trips_le attempts code gr evs res :
  loop_run w description fqbn attempts code gr evs res ->
  length (round_trips evs) <= length (builds evs)
  /\ length (builds evs) <= S (length (accepted_fixes w evs)).
Proof.
  induction 1; simpl in *; try rewrite H1; simpl; lia.
Qed.

(** a build that passes ends the run with success *)
Lemma loop_run_passed attempts code gr evs res :
  loop_run w description fqbn attempts code gr evs res ->
  forall e, e ∈ evs -> build_passed e = true ->
  exists gr', res = Ret (true, gr').
Proof.
  induction 1; intros e He Hp.
  - by apply elem_of_nil in He.
  - by apply elem_of_nil in He.
  - by apply elem_of_nil in He.
  - eauto.
  - apply list_elem_of_singleton in He as ->. cbn in Hp.
    apply Z.eqb_eq in Hp. done.
  - apply list_elem_of_singleton in He as ->. cbn in Hp.
    apply Z.eqb_eq in Hp. done.
  - apply elem_of_cons in He as [->|He].
    { cbn in Hp. apply Z.eqb_eq in Hp. done. }
    apply list_elem_of_singleton in He as ->. discriminate.
  - apply elem_of_cons in He as [->|He].
    { cbn in Hp. apply Z.eqb_eq in Hp. done. }
    apply elem_of_cons in He as [->|He]; [discriminate|]. eauto.
Qed.

(** a successful run ends with the build that passed, after as many
    round trips as failed builds, and returns the source of that build *)
Lemma loop_run_success attempts code gr evs gr' :
  loop_run w description fqbn attempts code gr evs (Ret (true, gr')) ->
  exists pre c p,
    evs = pre ++ [ECompile "temp_sketch" c fqbn p]
    /\ returncode p = 0%Z
    /\ gr' !! "arduino_code" = Some (JStr c)
    /\ length (round_trips pre) = length (builds pre)
    /\ Forall (fun e => build_passed e = false) pre.
Proof.
  remember (Ret (true, gr')) as res eqn:Hres.
  induction 1; try discriminate.
  - injection Hres as <-. exists [], c, p. cbn. split; [done|]. split; [done|].
    split; [by simplify_map_eq|]. split; [done|]. constructor.
  - destruct H2 as [->|[e ->]]; discriminate.
  - destruct (IHloop_run Hres) as (pre & c0 & p0 & -> & Hrc & Hc & Hn & Hall).
    exists (ECompile "temp_sketch" c fqbn p
            :: EGemini (FixPrompt description (gr !! "wiring_instructions")
                          (JStr c) (stderr p)) r :: pre), c0, p0.
    split; [done|]. split; [done|]. split; [done|].
    split; [unfold round_trips, builds in *; simpl; by rewrite Hn|].
    constructor; [cbn; by apply Z.eqb_neq|]. by constructor.
Qed.

(** the artifact returned is the last repair response that was accepted,
    as a whole; without one it is the artifact passed in (with its source
    written back on success) *)
Lemma loop_run_artifact attempts code gr evs b gr' :
  loop_run w description fqbn attempts code gr evs (Ret (b, gr')) ->
  match last (accepted_fixes w evs) with
  | Some (_, m) => gr' = m
  | None => gr' = gr \/ gr' = <["arduino_code" := code]> gr
  end.
Proof.
  remember (Ret (b, gr')) as res eqn:Hres.
  induction 1; try discriminate.
  - injection Hres as <- <-. cbn. auto.
  - injection Hres as <- <-. cbn. auto.
  - injection Hres as <- <-. cbn. auto.
  - cbn [accepted_fixes]. rewrite H1. cbn.
    destruct H2 as [->|[e ->]]; [|discriminate]. injection Hres as <- <-. auto.
  - specialize (IHloop_run Hres).
    cbn [accepted_fixes]. rewrite H1. rewrite last_cons.
    destruct (last (accepted_fixes w evs)) as [[c0 m0]|]; [done|].
    apply accepted_has_code in H1.
    destruct IHloop_run as [->| ->]; [done|]. by apply insert_id.
Qed.

(** the source in the artifact returned is the source of the last build *)
Lemma loop_run_lockstep attempts code gr evs b gr' :
  loop_run w description fqbn attempts code gr evs (Ret (b, gr')) ->
  2 ∈ attempts ->
  Py.get gr "arduino_code" (JStr EmptyString) = code ->
  exists c p,
    last (builds evs) = Some (ECompile "temp_sketch" c fqbn p)
    /\ Py.get gr' "arduino_code" (JStr EmptyString) = JStr c.
Proof.
  remember (Ret (b, gr')) as res eqn:Hres.
  induction 1; intros H2in Hget; try discriminate.
  - by apply elem_of_nil in H2in.
  - injection Hres as <- <-. exists c, p. split; [done|].
    unfold Py.get. by simplify_map_eq.
  - injection Hres as <- <-. exists c, p. by split.
  - destruct H2 as [->|[e ->]]; [|discriminate]. injection Hres as <- <-.
    exists c, p. by split.
  - apply elem_of_cons in H2in as [Heq|H2in]; [congruence|].
    destruct (IHloop_run Hres H2in) as (c0 & p0 & Hlast & Hc).
    { apply accepted_has_code in H1. unfold Py.get. by rewrite H1. }
    exists c0, p0. split; [|done].
    cbn [builds List.filter is_compile is_gemini]. rewrite last_cons.
    fold (builds evs). by rewrite Hlast.
Qed.

(** when every attempt was used and the last build failed, the run
    returns a failure *)
Lemma loop_run_exhausted attempts code gr evs res :
  loop_run w description fqbn attempts code gr evs res ->
  last attempts = Some 2 ->
  length (builds evs) = length attempts ->
  Forall (fun e => build_passed e = false) evs ->
  S (length (round_trips evs)) = length (builds evs)
  /\ exists gr', res = Ret (false, gr').
Proof.
  induction 1; intros Hlast Hlen Hall; simpl in *.
  - discriminate.
  - discriminate.
  - discriminate.
  - apply Forall_cons in Hall as [Hp _]. simpl in Hp. apply Z.eqb_neq in Hp. done.
  - eauto.
  - destruct rest; [|discriminate]. simpl in Hlast. congruence.
  - destruct rest; [|discriminate]. simpl in Hlast. congruence.
  - destruct rest as [|a rest']; [simpl in Hlast; congruence|].
    destruct IHloop_run as [Hn Hres].
    + done.
    + by injection Hlen.
    + by do 2 apply Forall_cons in Hall as [_ Hall].
    + split; [|done]. unfold round_trips, builds in *. by rewrite Hn.
Qed.

Lemma accepted_fixes_have_code evs code m :
  (code, m) ∈ accepted_fixes w evs -> m !! "arduino_code" = Some code.
Proof.
  induction evs as [|e evs IH]; simpl; [by intros ?%elem_of_nil|].
  destruct e; try done.
  destruct (accepted w r) as [[c0 m0]|] eqn:Hacc; [|done].
  intros [[= -> ->]|Hin]%elem_of_cons; [|by apply IH].
  by eapply accepted_has_code.
Qed.

Lemma accepted_fixes_le evs :
  length (accepted_fixes w evs) <= length (round_trips evs).
Proof.
  induction evs as [|e evs IH]; simpl; [done|].
  destruct e; simpl; try done. destruct (accepted w r); simpl; lia.
Qed.

End LoopFacts.

Lemma cli_is_no_build pre evs :
  Forall (fun e => is_cli e = true) pre -> builds (pre ++ evs) = builds evs.
Proof.
  induction 1 as [|e pre He _ IH]; [done|]. destruct e; try discriminate. exact IH.
Qed.

Lemma cli_is_no_round_trip pre evs :
  Forall (fun e => is_cli e = true) pre -> round_trips (pre ++ evs) = round_trips evs.
Proof.
  induction 1 as [|e pre He _ IH]; [done|]. destruct e; try discriminate. exact IH.
Qed.

Lemma cli_is_no_fix w pre evs :
  Forall (fun e => is_cli e = true) pre ->
  accepted_fixes w (pre ++ evs) = accepted_fixes w evs.
Proof.
  induction 1 as [|e pre He _ IH]; [done|]. destruct e; try discriminate. exact IH.
Qed.

Lemma builds_sublist evs e : e ∈ builds evs -> e ∈ evs.
Proof.
  unfold builds. rewrite !list_elem_of_In, filter_In. tauto.
Qed.

Lemma run_events_unavailable w gr fqbn st :
  toolchain_available st = false ->
  run_events (validate_and_fix_code w gr fqbn) st = [].
Proof.
  intros H. unfold run_events. rewrite validate_unavailable by done.
  simpl. by rewrite drop_all.
Qed.

(** C1. Every run of [validate_and_fix_code] with a toolchain available calls
    the Build Runner at most three times. When the builds of the run are
    three, the first two failing and the third passing, the run made
    exactly two round trips to the generation service and returns success
    with the source text of the third build. *)
Theorem repair_loop_at_most_three_builds w st gr fqbn :
  toolchain_available st = true ->
  let evs := run_events (validate_and_fix_code w gr fqbn) st in
  length (builds evs) <= 3
  /\ forall e1 e2 e3,
       builds evs = [e1; e2; e3] ->
       build_passed e1 = false -> build_passed e2 = false ->
       build_passed e3 = true ->
       length (round_trips evs) = 2
       /\ exists c3 p3 gr',
            e3 = ECompile "temp_sketch" c3 fqbn p3
            /\ outcome (validate_and_fix_code w gr fqbn) st = Ret (true, gr')
            /\ gr' !! "arduino_code" = Some (JStr c3).
Proof.
  intros Hcli evs. subst evs.
  destruct (validate_run w gr fqbn st Hcli) as (pre & evs & -> & Hpre & Hrun).
  rewrite cli_is_no_build, cli_is_no_round_trip by done. split.
  { apply loop_run_builds_le in Hrun. exact Hrun. }
  intros e1 e2 e3 Hb _ _ H3.
  destruct (loop_run_passed _ _ _ _ _ _ _ _ Hrun e3) as [gr' Hres]; [|done|].
  { apply builds_sublist. rewrite Hb. set_solver. }
  rewrite Hres in Hrun |- *.
  destruct (loop_run_success _ _ _ _ _ _ _ _ Hrun)
    as (pre' & c & p & -> & Hrc & Hc & Hn & _).
  unfold builds, round_trips in *. rewrite !List.filter_app in *. simpl in *.
  rewrite app_nil_r.
  assert (Hlen : length (List.filter is_compile pre') = 2).
  { apply (f_equal length) in Hb. rewrite length_app in Hb. simpl in Hb. lia. }
  split; [lia|].
  exists c, p, gr'. split; [|done].
  destruct (List.filter is_compile pre') as [|x [|y [|z l]]]; try discriminate.
  by injection Hb as _ _ <-.
Qed.

(** C1 on the scenario where the third attempt builds. *)
Lemma repair_loop_at_most_three_builds_witness :
  toolchain_available with_cli = true
  /\ length (round_trips (run_events
        (validate_and_fix_code third_time_lucky (artifact "v1" "doc") default_fqbn)
        with_cli)) = 2.
Proof.
  split; [reflexivity|].
  apply (proj2 (repair_loop_at_most_three_builds third_time_lucky with_cli
                  (artifact "v1" "doc") default_fqbn eq_refl)
           (ECompile "temp_sketch" "v1" default_fqbn (failed "e1"))
           (ECompile "temp_sketch" "v2" default_fqbn (failed "e2"))
           (ECompile "temp_sketch" "v3" default_fqbn passed));
    reflexivity.
Defined.

(** C4. Whenever [validate_and_fix_code] returns success, the final compile
    call of the run, if there is one, passed, is the last thing the run did,
    and was given exactly the source text that the returned artifact holds
    under "arduino_code"; with a toolchain available there is such a call. *)
Theorem success_returns_the_built_source w st gr fqbn gr' :
  outcome (validate_and_fix_code w gr fqbn) st = Ret (true, gr') ->
  let evs := run_events (validate_and_fix_code w gr fqbn) st in
  (forall e, last (builds evs) = Some e ->
     exists c p,
       e = ECompile "temp_sketch" c fqbn p
       /\ returncode p = 0%Z
       /\ gr' !! "arduino_code" = Some (JStr c)
       /\ last evs = Some e)
  /\ (toolchain_available st = true -> exists e, last (builds evs) = Some e).
Proof.
  intros Hres evs. subst evs.
  destruct (toolchain_available st) eqn:Hcli.
  2:{ rewrite run_events_unavailable by done. split; [discriminate|discriminate]. }
  destruct (validate_run w gr fqbn st Hcli) as (pre & evs & -> & Hpre & Hrun).
  rewrite Hres in Hrun.
  destruct (loop_run_success _ _ _ _ _ _ _ _ Hrun)
    as (pre' & c & p & -> & Hrc & Hc & _ & _).
  rewrite cli_is_no_build by done.
  assert (Hlast : last (builds (pre' ++ [ECompile "temp_sketch" c fqbn p]))
                  = Some (ECompile "temp_sketch" c fqbn p)).
  { unfold builds. rewrite List.filter_app. simpl. by rewrite last_snoc. }
  rewrite Hlast. split; [|eauto].
  intros e [= <-]. exists c, p. repeat split; try done.
  by rewrite app_assoc, last_snoc.
Qed.

(** C4 on the scenario where the second attempt builds. *)
Lemma success_returns_the_built_source_witness :
  exists e, last (builds (run_events
      (validate_and_fix_code rewrites_doc (artifact "v1" "doc") default_fqbn)
      with_cli)) = Some e.
Proof.
  apply (proj2 (success_returns_the_built_source rewrites_doc with_cli
                  (artifact "v1" "doc") default_fqbn (artifact "v2" "other doc")
                  eq_refl)).
  reflexivity.
Defined.

(** C8, amended. Without a toolchain [validate_and_fix_code] returns success
    at once with the artifact it was given, unchanged: the state is the same
    afterwards, so nothing was provisioned, built or repaired. (The value
    returned carries no mark that it was not validated.) *)
Theorem no_toolchain_accepts_unvalidated w st gr fqbn :
  toolchain_available st = false ->
  validate_and_fix_code w gr fqbn st = (Ret (true, gr), st)
  /\ run_events (validate_and_fix_code w gr fqbn) st = [].
Proof.
  intros H. split; [by apply validate_unavailable|by apply run_events_unavailable].
Qed.

(** C8, amended, on a process without a toolchain. *)
Lemma no_toolchain_accepts_unvalidated_witness :
  validate_and_fix_code third_time_lucky (artifact "v1" "doc") default_fqbn without_cli
  = (Ret (true, artifact "v1" "doc"), without_cli).
Proof.
  apply (no_toolchain_accepts_unvalidated third_time_lucky without_cli
           (artifact "v1" "doc") default_fqbn).
  reflexivity.
Defined.

(** C8 as stated fails: without a toolchain, and with one when the first
    build passes, the same value is returned. *)
Lemma unvalidated_is_not_tagged : ~ unvalidated_is_tagged.
Proof.
  intros [tag Htag].
  pose proof (Htag builds_at_once without_cli (artifact "v1" "doc") default_fqbn
                (true, artifact "v1" "doc") eq_refl) as H1.
  pose proof (Htag builds_at_once with_cli (artifact "v1" "doc") default_fqbn
                (true, artifact "v1" "doc") eq_refl) as H2.
  destruct H1 as [_ H1]. destruct H2 as [H2 _].
  specialize (H1 eq_refl). specialize (H2 H1). discriminate.
Qed.

(** C2, amended. When all three builds of a run fail, [validate_and_fix_code]
    returns a failure with the artifact of the third attempt: the second
    repair response as a whole, whose source is the one the third build was
    given, never an earlier one. (The diagnostics of the build are not part
    of what is returned.) *)
Theorem exhausted_returns_last_artifact w st gr fqbn e1 e2 e3 :
  toolchain_available st = true ->
  let evs := run_events (validate_and_fix_code w gr fqbn) st in
  builds evs = [e1; e2; e3] ->
  Forall (fun e => build_passed e = false) (builds evs) ->
  exists c3 p3 gr',
    e3 = ECompile "temp_sketch" c3 fqbn p3
    /\ outcome (validate_and_fix_code w gr fqbn) st = Ret (false, gr')
    /\ last (accepted_fixes w evs) = Some (JStr c3, gr')
    /\ gr' !! "arduino_code" = Some (JStr c3)
    /\ length (accepted_fixes w evs) = 2.
Proof.
  intros Hcli evs. subst evs.
  destruct (validate_run w gr fqbn st Hcli) as (pre & evs & -> & Hpre & Hrun).
  rewrite cli_is_no_build, cli_is_no_fix by done. intros Hb Hall.
  destruct (loop_run_exhausted _ _ _ _ _ _ _ _ Hrun) as [Hn [gr' Hres]].
  - reflexivity.
  - by rewrite Hb.
  - apply Forall_forall. intros e He.
    destruct (build_passed e) eqn:Hp; [|done].
    assert (Hin : e ∈ builds evs).
    { unfold builds. rewrite list_elem_of_In, filter_In, <- list_elem_of_In.
      split; [done|]. by destruct e. }
    rewrite Forall_forall in Hall. rewrite (Hall e Hin) in Hp. discriminate.
  - rewrite Hres in Hrun |- *.
    destruct (loop_run_lockstep _ _ _ _ _ _ _ _ _ Hrun) as (c & p & Hlast & Hc).
    { set_solver. }
    { reflexivity. }
    rewrite Hb in Hlast. simpl in Hlast. injection Hlast as ->.
    pose proof (loop_run_artifact _ _ _ _ _ _ _ _ _ Hrun) as Hart.
    pose proof (loop_run_round_trips_le _ _ _ _ _ _ _ _ Hrun) as [_ Hle2].
    pose proof (accepted_fixes_le w evs) as Hle3.
    rewrite Hb in *. simpl in Hn, Hle2.
    destruct (last (accepted_fixes w evs)) as [[c0 m0]|] eqn:Hl.
    2:{ apply last_None in Hl. rewrite Hl in Hle2. simpl in Hle2. lia. }
    subst m0.
    assert (Hc0 : gr' !! "arduino_code" = Some c0).
    { eapply accepted_fixes_have_code. apply last_Some_elem_of. exact Hl. }
    unfold Py.get in Hc. rewrite Hc0 in Hc. subst c0.
    exists c, p, gr'. repeat split; try done. lia.
Qed.

(** C2, amended, on the scenario where nothing builds. *)
Lemma exhausted_returns_last_artifact_witness :
  toolchain_available with_cli = true
  /\ exists c3 p3 gr',
       ECompile "temp_sketch" "v3" default_fqbn (failed "e3")
       = ECompile "temp_sketch" c3 default_fqbn p3
       /\ outcome (validate_and_fix_code (never_builds "e3") (artifact "v1" "doc")
                     default_fqbn) with_cli = Ret (false, gr')
       /\ last (accepted_fixes (never_builds "e3")
                  (run_events (validate_and_fix_code (never_builds "e3")
                                 (artifact "v1" "doc") default_fqbn) with_cli))
          = Some (JStr c3, gr')
       /\ gr' !! "arduino_code" = Some (JStr c3)
       /\ length (accepted_fixes (never_builds "e3")
                    (run_events (validate_and_fix_code (never_builds "e3")
                                   (artifact "v1" "doc") default_fqbn) with_cli))
          = 2.
Proof.
  split; [reflexivity|].
  apply (exhausted_returns_last_artifact (never_builds "e3") with_cli
           (artifact "v1" "doc") default_fqbn
           (ECompile "temp_sketch" "v1" default_fqbn (failed "e1"))
           (ECompile "temp_sketch" "v2" default_fqbn (failed "e2"))
           (ECompile "temp_sketch" "v3" default_fqbn (failed "e3"))).
  - reflexivity.
  - vm_compute. reflexivity.
  - vm_compute. repeat constructor.
Defined.

(** C2 as stated fails: two exhausted runs whose last diagnostics differ
    return the same value. *)
Lemma exhausted_returns_no_diagnostics : ~ exhausted_returns_diagnostics.
Proof.
  intros [diagnostics_of H].
  assert (Ha : diagnostics_of (false, artifact "v3" "doc") = "e3").
  { apply (H (never_builds "e3") with_cli (artifact "v1" "doc") default_fqbn
             (ECompile "temp_sketch" "v1" default_fqbn (failed "e1"))
             (ECompile "temp_sketch" "v2" default_fqbn (failed "e2"))
             "temp_sketch" "v3" default_fqbn (failed "e3"));
      [reflexivity|vm_compute; reflexivity|vm_compute; repeat constructor
      |vm_compute; reflexivity]. }
  assert (Hb : diagnostics_of (false, artifact "v3" "doc") = "library not found").
  { apply (H (never_builds "library not found") with_cli (artifact "v1" "doc")
             default_fqbn
             (ECompile "temp_sketch" "v1" default_fqbn (failed "e1"))
             (ECompile "temp_sketch" "v2" default_fqbn (failed "e2"))
             "temp_sketch" "v3" default_fqbn (failed "library not found"));
      [reflexivity|vm_compute; reflexivity|vm_compute; repeat constructor
      |vm_compute; reflexivity]. }
  rewrite Ha in Hb. discriminate.
Qed.

(** C10. The artifact that [validate_and_fix_code] returns after a
    well-formed repair response is the last such response as a whole, its
    "wiring_instructions" included; and nothing compares that document with
    the original one: there is a run that succeeds and returns a different
    document. *)
Theorem repair_replaces_the_artifact :
  (forall w st gr fqbn b gr' code m,
     outcome (validate_and_fix_code w gr fqbn) st = Ret (b, gr') ->
     last (accepted_fixes w (run_events (validate_and_fix_code w gr fqbn) st))
     = Some (code, m) ->
     gr' = m)
  /\ exists w st gr fqbn gr',
       outcome (validate_and_fix_code w gr fqbn) st = Ret (true, gr')
       /\ gr' !! "wiring_instructions" <> gr !! "wiring_instructions".
Proof.
  split.
  - intros w st gr fqbn b gr' code m Hres Hlast.
    destruct (toolchain_available st) eqn:Hcli.
    2:{ rewrite run_events_unavailable in Hlast by done. discriminate. }
    destruct (validate_run w gr fqbn st Hcli) as (pre & evs & Hev & Hpre & Hrun).
    rewrite Hev, cli_is_no_fix in Hlast by done. rewrite Hres in Hrun.
    apply loop_run_artifact in Hrun. by rewrite Hlast in Hrun.
  - exists rewrites_doc, with_cli, (artifact "v1" "doc"), default_fqbn,
      (artifact "v2" "other doc").
    split; [reflexivity|]. vm_compute. discriminate.
Qed.

(** C10 on the scenario where the repair response changes the document. *)
Lemma repair_replaces_the_artifact_witness :
  outcome (validate_and_fix_code rewrites_doc (artifact "v1" "doc") default_fqbn)
    with_cli = Ret (true, artifact "v2" "other doc")
  /\ last (accepted_fixes rewrites_doc
             (run_events (validate_and_fix_code rewrites_doc (artifact "v1" "doc")
                            default_fqbn) with_cli))
     = Some (JStr "v2", artifact "v2" "other doc")
  /\ artifact "v2" "other doc" = artifact "v2" "other doc".
Proof.
  split; [reflexivity|]. split; [vm_compute; reflexivity|].
  apply (proj1 repair_replaces_the_artifact rewrites_doc with_cli
           (artifact "v1" "doc") default_fqbn true (artifact "v2" "other doc")
           (JStr "v2") (artifact "v2" "other doc"));
    [reflexivity|vm_compute; reflexivity].
Defined.

(** ** The provisioner *)

(** C5, amended. With a toolchain available, for any two calls of
    [setup_cli_environment] one after the other, whatever their sources and
    boards: when the first call returns, the flag is set and the second call
    returns at once, leaves the state as it is and issues no command; a
    first call that found the flag unset was given a string and has issued
    the index refresh, the core install and one install per library of the
    source, the installs in some order. A call that raises found the flag
    unset and leaves it unset. *)
Theorem provisioning_happens_once st code1 fqbn1 code2 fqbn2 :
  toolchain_available st = true ->
  let st1 := snd (setup_cli_environment code1 fqbn1 st) in
  (outcome (setup_cli_environment code1 fqbn1) st = Ret tt ->
   _cli_env_setup_done st1 = true
   /\ setup_cli_environment code2 fqbn2 st1 = (Ret tt, st1)
   /\ run_events (setup_cli_environment code2 fqbn2) st1 = []
   /\ (_cli_env_setup_done st = false ->
       exists source libs,
         code1 = JStr source
         /\ libs ≡ₚ remove_dups (required_libs_of source)
         /\ run_events (setup_cli_environment code1 fqbn1) st
            = ECli ["core"; "update-index"]
              :: ECli ["core"; "install";
                       PyStr.join ":" (take 2 (PyStr.split ":" fqbn1))]
              :: install_events libs))
  /\ (forall e,
        outcome (setup_cli_environment code1 fqbn1) st = Raise e ->
        _cli_env_setup_done st = false /\ _cli_env_setup_done st1 = false).
Proof.
  intros Hcli st1. subst st1. unfold outcome, run_events.
  destruct (_cli_env_setup_done st) eqn:Hflag.
  { rewrite (setup_done code1) by done. cbn [fst snd]. split; [|discriminate].
    intros _. rewrite setup_done by done. cbn [snd].
    rewrite drop_all. by repeat split. }
  rewrite (setup_spec code1) by done.
  destruct (forallb _ (core_commands fqbn1)).
  2:{ cbn [fst snd append_events _cli_env_setup_done].
      split; [discriminate|]. by intros e _. }
  destruct code1 as [| | | |source| |];
    try (cbn [fst snd append_events _cli_env_setup_done];
         split; [discriminate|]; by intros e _).
  destruct (forallb _ (lib_commands source)).
  2:{ cbn [fst snd append_events _cli_env_setup_done].
      split; [discriminate|]. by intros e _. }
  cbn [fst snd]. split; [|discriminate]. intros _.
  rewrite setup_done by done. cbn [snd provisioned trace _cli_env_setup_done].
  rewrite drop_all, drop_app_length. repeat split; try done.
  intros _. by exists source, (remove_dups (required_libs_of source)).
Qed.

(** C5, amended, on two calls with different sources and boards. *)
Lemma provisioning_happens_once_witness :
  toolchain_available with_cli = true
  /\ run_events (setup_cli_environment (JStr "#include <Wire.h>") default_fqbn)
       (snd (setup_cli_environment (JStr "Servo myServo;") "arduino:avr:uno" with_cli))
     = [].
Proof.
  split; [reflexivity|].
  destruct (provisioning_happens_once with_cli (JStr "Servo myServo;")
              "arduino:avr:uno" (JStr "#include <Wire.h>") default_fqbn eq_refl)
    as [H _].
  destruct (H eq_refl) as (_ & _ & Hev & _). exact Hev.
Defined.

(** C5 as stated fails: a first call that raises (here on a library name
    with a NUL character, which no sub-process can be started with) leaves
    the flag unset, and the second call issues the commands again. *)
Lemma failed_provisioning_is_repeated : ~ provisioning_is_idempotent.
Proof.
  intros H.
  specialize (H with_cli nul_include default_fqbn sketch default_fqbn eq_refl).
  vm_compute in H. discriminate.
Qed.

(** Once the flag is set, it stays set: validation does not reset it and
    issues no toolchain command other than its builds. *)
Lemma loop_run_no_cli w description fqbn attempts code gr evs res :
  loop_run w description fqbn attempts code gr evs res ->
  List.filter is_cli evs = [].
Proof. induction 1; simpl; auto. Qed.

Lemma validate_keeps_the_flag w gr fqbn st :
  _cli_env_setup_done st = true ->
  _cli_env_setup_done (snd (validate_and_fix_code w gr fqbn st)) = true
  /\ List.filter is_cli (run_events (validate_and_fix_code w gr fqbn) st) = [].
Proof.
  intros Hflag. unfold run_events, validate_and_fix_code.
  destruct (Py.truthy_str (arduino_cli_path st)) eqn:Hcli; cbn [negb].
  2:{ cbn [snd]. by rewrite drop_all. }
  rewrite bind_unfold, setup_done by done.
  destruct (repair_loop_run w (seq 0 3)
              (Py.get gr "arduino_code" (JStr EmptyString)) gr fqbn st Hcli)
    as (evs & res & -> & Hrun).
  cbn [snd append_events _cli_env_setup_done trace]. split; [done|].
  rewrite drop_app_length. by eapply loop_run_no_cli.
Qed.

(** ** The deploy pipeline *)

Lemma deploy_to_arduino_unfold w code port fqbn st :
  deploy_to_arduino w code port fqbn st
  = if negb (Py.truthy_str (arduino_cli_path st))
    then (Ret {[ "success" := JBool false;
                 "error" := JStr "Arduino CLI 未安裝，無法部署" ]}, st)
    else
      (_ ← setup_cli_environment (JStr code) fqbn;
       selected ← select_port w port;
       match selected with
       | inr response => ret response
       | inl port => build_and_upload w code port fqbn
       end) st.
Proof. reflexivity. Qed.

Lemma select_port_cases w port st :
  (port <> "auto" /\ select_port w port st = (Ret (inl port), st))
  \/ (port = "auto"
      /\ exists r,
           (arduino_ports (Classifier.classify r) = []
            /\ select_port w port st
               = (Ret (inr not_found_response), append_events st [EComports r]))
           \/ (exists target others,
                 arduino_ports (Classifier.classify r) = target :: others
                 /\ select_port w port st
                    = (Ret (inl target), append_events st [EComports r]))).
Proof.
  unfold select_port. destruct (String.eqb port "auto") eqn:Hport.
  - apply String.eqb_eq in Hport. right. split; [done|].
    exists (comports w (trace st)).
    rewrite bind_unfold. unfold detect_arduino_devices.
    rewrite bind_unfold, log_append. cbn [ret].
    destruct (arduino_ports _) as [|target others] eqn:Hports.
    + left. split; [done|]. reflexivity.
    + right. exists target, others. split; [done|]. reflexivity.
  - apply String.eqb_neq in Hport. left. by split.
Qed.

Lemma transfer_steps w code target fqbn st :
  toolchain_available st = true ->
  exists evs res,
    build_and_upload w code target fqbn st = (res, append_events st evs)
    /\ transfer_run (arduino_cli_path st) code target fqbn evs res.
Proof.
  intros Hcli. unfold build_and_upload.
  rewrite bind_unfold, bind_unfold. unfold lift at 1.
  rewrite exec_available by done.
  destruct (can_start (arduino_cli_path st) (compile_cmd fqbn "deploy_sketch"))
    eqn:Hc.
  2:{ exists [], (Raise embedded_null_byte). rewrite append_events_nil.
      split; [reflexivity|by constructor]. }
  cbn zeta. rewrite bind_unfold, log_append.
  set (p := cli_compile w (trace st) "deploy_sketch" code fqbn).
  unfold ret at 1.
  destruct (returncode p =? 0)%Z eqn:Hp; cbn [negb].
  2:{ apply Z.eqb_neq in Hp. do 2 eexists. split; [reflexivity|by constructor]. }
  apply Z.eqb_eq in Hp.
  rewrite bind_unfold, bind_unfold. unfold lift at 1.
  rewrite exec_available by done. cbn [arduino_cli_path append_events].
  destruct (can_start (arduino_cli_path st) (upload_cmd target fqbn "deploy_sketch"))
    eqn:Hup.
  2:{ do 2 eexists. split; [reflexivity|by constructor]. }
  cbn zeta. rewrite bind_unfold, log_append, append_events_app.
  set (u := cli_upload w _ target fqbn). unfold ret at 1.
  destruct (returncode u =? 0)%Z eqn:Hu; cbn [negb].
  - apply Z.eqb_eq in Hu. do 2 eexists. split; [reflexivity|by constructor].
  - apply Z.eqb_neq in Hu. do 2 eexists. split; [reflexivity|by constructor].
Qed.

Lemma forallb_false {A} (f : A -> bool) l :
  forallb f l = false -> exists x, x ∈ l /\ f x = false.
Proof.
  induction l as [|a l IH]; [discriminate|]. cbn [forallb].
  destruct (f a) eqn:Ha; cbn [andb].
  - intros (x & Hx & Hf)%IH. exists x. split; [by right|done].
  - intros _. exists a. split; [by left|done].
Qed.

Lemma setup_string_cases code fqbn st :
  toolchain_available st = true ->
  exists pre r st',
    setup_cli_environment (JStr code) fqbn st = (r, st')
    /\ Forall (fun e => is_cli e = true) pre
    /\ trace st' = trace st ++ pre
    /\ arduino_cli_path st' = arduino_cli_path st
    /\ (r = Ret tt
        \/ (r = Raise embedded_null_byte
            /\ _cli_env_setup_done st = false
            /\ provisioning_stops (arduino_cli_path st) code fqbn)).
Proof.
  intros Hcli. destruct (_cli_env_setup_done st) eqn:Hflag.
  { exists [], (Ret tt), st. rewrite setup_done, app_nil_r by done. auto 10. }
  rewrite setup_spec by done.
  destruct (forallb _ (core_commands fqbn)) eqn:Hcore.
  2:{ eexists _, _, _. split; [reflexivity|]. split; [apply issued_cli|].
      split; [reflexivity|]. split; [reflexivity|]. right.
      split; [done|]. split; [done|].
      apply forallb_false in Hcore as (args & Hin & Hno).
      exists args. split; [|done]. rewrite provisioning_events_commands.
      apply elem_of_app. left. by apply list_elem_of_fmap_2. }
  destruct (forallb _ (lib_commands code)) eqn:Hlibs.
  - eexists _, _, _. split; [reflexivity|]. split; [|auto 10].
    rewrite provisioning_events_commands.
    apply Forall_app. split; apply commands_cli.
  - eexists _, _, _. split; [reflexivity|].
    split; [apply Forall_app; split; [apply commands_cli|apply issued_cli]|].
    split; [reflexivity|]. split; [reflexivity|]. right.
    split; [done|]. split; [done|].
    apply forallb_false in Hlibs as (args & Hin & Hno).
    exists args. split; [|done]. rewrite provisioning_events_commands.
    apply elem_of_app. right. by apply list_elem_of_fmap_2.
Qed.

Lemma deploy_steps w code port fqbn st :
  toolchain_available st = true ->
  exists pre evs,
    run_events (deploy_to_arduino w code port fqbn) st = pre ++ evs
    /\ Forall (fun e => is_cli e = true) pre
    /\ deploy_run (arduino_cli_path st) (_cli_env_setup_done st) code port fqbn
         evs (outcome (deploy_to_arduino w code port fqbn) st).
Proof.
  intros Hcli. unfold run_events, outcome. rewrite deploy_to_arduino_unfold.
  pose proof Hcli as Hcli'. unfold toolchain_available in Hcli'.
  rewrite Hcli'. cbn [negb]. rewrite bind_unfold.
  destruct (setup_string_cases code fqbn st Hcli)
    as (pre & r & st' & -> & Hpre & Htr & Hpath & Hr).
  destruct Hr as [->|(-> & Hflag & Hstop)].
  2:{ exists pre, []. cbn [fst snd]. rewrite Htr, drop_app_length, app_nil_r.
      split; [done|]. split; [done|]. by apply NotProvisioned. }
  assert (Hcli1 : toolchain_available st' = true).
  { unfold toolchain_available. by rewrite Hpath. }
  rewrite bind_unfold.
  destruct (select_port_cases w port st')
    as [[Hport ->]|[Hport [r [[Hnone ->]|(target & others & Hsome & ->)]]]].
  - destruct (transfer_steps w code port fqbn st' Hcli1) as (evs & res & -> & Hrun).
    exists pre, evs. cbn [fst snd append_events trace].
    rewrite Htr, <- app_assoc, drop_app_length. rewrite Hpath in Hrun.
    repeat split; try done. by apply ExplicitPort.
  - exists pre, [EComports r].
    cbn [ret fst snd append_events trace].
    rewrite Htr, <- app_assoc, drop_app_length.
    repeat split; try done. by apply AutoNotFound.
  - destruct (transfer_steps w code target fqbn (append_events st' [EComports r])
                Hcli1)
      as (evs & res & -> & Hrun).
    rewrite append_events_app.
    exists pre, (EComports r :: evs). cbn [fst snd append_events trace].
    rewrite Htr, <- app_assoc, drop_app_length.
    cbn [arduino_cli_path append_events] in Hrun. rewrite Hpath in Hrun.
    repeat split; try done. by eapply AutoSelected.
Qed.

(** The same for a deploy. *)
Lemma deploy_keeps_the_flag w code port fqbn st :
  _cli_env_setup_done st = true ->
  _cli_env_setup_done (snd (deploy_to_arduino w code port fqbn st)) = true
  /\ List.filter is_cli (run_events (deploy_to_arduino w code port fqbn) st) = [].
Proof.
  intros Hflag. unfold run_events. rewrite deploy_to_arduino_unfold.
  destruct (Py.truthy_str (arduino_cli_path st)) eqn:Hcli; cbn [negb].
  2:{ cbn [snd]. by rewrite drop_all. }
  rewrite bind_unfold, setup_done by done. rewrite bind_unfold.
  assert (Htransfer : forall cli target evs res,
            transfer_run cli code target fqbn evs res ->
            List.filter is_cli evs = []).
  { intros cli target evs res Ht. by destruct Ht. }
  destruct (select_port_cases w port st)
    as [[Hport ->]|[Hport [r [[Hnone ->]|(target & others & Hsome & ->)]]]].
  - destruct (transfer_steps w code port fqbn st Hcli) as (evs & res & -> & Hrun).
    cbn [snd append_events _cli_env_setup_done trace]. split; [done|].
    rewrite drop_app_length. by eapply Htransfer.
  - cbn [ret snd append_events _cli_env_setup_done trace]. split; [done|].
    by rewrite drop_app_length.
  - destruct (transfer_steps w code target fqbn (append_events st [EComports r])
                Hcli)
      as (evs & res & -> & Hrun).
    rewrite append_events_app.
    cbn [snd append_events _cli_env_setup_done trace]. split; [done|].
    rewrite drop_app_length. cbn [app List.filter is_cli]. by eapply Htransfer.
Qed.

(** C3, amended. A run of [deploy_to_arduino] with a toolchain consists of the
    provisioning commands, then the port enumeration (exactly when the
    selector is "auto", picking the first flagged port), then the build,
    then the upload. The upload is attempted only after a build that passed;
    a build that fails returns the build error with the captured stderr and
    no upload; and when the enumeration finds no candidate the run ends
    there, before any build. Where a sub-process cannot be started (an
    argument holds a NUL character) the run stops with the [ValueError]:
    among the provisioning commands, at the build, or at the upload after a
    build that passed. *)
Theorem deploy_phases w st code port fqbn :
  toolchain_available st = true ->
  let evs := run_events (deploy_to_arduino w code port fqbn) st in
  let res := outcome (deploy_to_arduino w code port fqbn) st in
  let cli := arduino_cli_path st in
  exists pre,
    Forall (fun e => is_cli e = true) pre
    /\ ((evs = pre
         /\ res = Raise embedded_null_byte
         /\ _cli_env_setup_done st = false
         /\ provisioning_stops cli code fqbn)
        \/ if String.eqb port "auto" then
             exists r,
               match arduino_ports (Classifier.classify r) with
               | [] => evs = pre ++ [EComports r] /\ res = Ret not_found_response
               | target :: _ =>
                   build_then_upload cli code fqbn target (pre ++ [EComports r])
                     evs res
               end
           else build_then_upload cli code fqbn port pre evs res).
Proof.
  intros Hcli evs res cli. subst evs res cli.
  destruct (deploy_steps w code port fqbn st Hcli)
    as (pre & evs & -> & Hpre & Hrun).
  set (res := outcome _ _) in *. clearbody res.
  assert (Htransfer : forall target evs' before,
            transfer_run (arduino_cli_path st) code target fqbn evs' res ->
            build_then_upload (arduino_cli_path st) code fqbn target before
              (before ++ evs') res).
  { intros target evs' before Ht.
    destruct Ht as [Hc|p Hp|p Hp Hu|p u Hp Hu|p u Hp Hu].
    - do 2 right. left. by rewrite app_nil_r.
    - left. eauto.
    - do 3 right. eauto.
    - right. left. exists p, u. apply Z.eqb_neq in Hu. rewrite Hu. auto.
    - right. left. exists p, u. apply Z.eqb_eq in Hu. rewrite Hu. auto. }
  exists pre. split; [done|].
  destruct Hrun as [Hflag Hstop|evs res Hport Ht|r Hport Hnone
                   |r target others evs res Hport Hsome Ht].
  - left. by rewrite app_nil_r.
  - right. apply String.eqb_neq in Hport. rewrite Hport. by apply Htransfer.
  - right. subst port. rewrite String.eqb_refl. exists r. by rewrite Hnone.
  - right. subst port. rewrite String.eqb_refl. exists r. rewrite Hsome.
    replace (pre ++ EComports r :: evs) with ((pre ++ [EComports r]) ++ evs)
      by (by rewrite <- app_assoc).
    by apply Htransfer.
Qed.

(** C3, amended, on a deploy to an attached board. *)
Lemma deploy_phases_witness :
  toolchain_available with_cli = true
  /\ exists pre,
       Forall (fun e => is_cli e = true) pre
       /\ ((run_events (deploy_to_arduino board_attached sketch "auto" default_fqbn)
              with_cli = pre
            /\ outcome (deploy_to_arduino board_attached sketch "auto" default_fqbn)
                 with_cli = Raise embedded_null_byte
            /\ _cli_env_setup_done with_cli = false
            /\ provisioning_stops (arduino_cli_path with_cli) sketch default_fqbn)
           \/ exists r,
                match arduino_ports (Classifier.classify r) with
                | [] =>
                    run_events (deploy_to_arduino board_attached sketch "auto"
                                  default_fqbn) with_cli = pre ++ [EComports r]
                    /\ outcome (deploy_to_arduino board_attached sketch "auto"
                                  default_fqbn) with_cli = Ret not_found_response
                | target :: _ =>
                    build_then_upload (arduino_cli_path with_cli) sketch
                      default_fqbn target (pre ++ [EComports r])
                      (run_events (deploy_to_arduino board_attached sketch "auto"
                                     default_fqbn) with_cli)
                      (outcome (deploy_to_arduino board_attached sketch "auto"
                                  default_fqbn) with_cli)
                end).
Proof.
  split; [reflexivity|].
  apply (deploy_phases board_attached with_cli sketch "auto" default_fqbn).
  reflexivity.
Defined.

(** C3 as stated fails: with a board attached, the ports are enumerated
    before anything is built. *)
Lemma selection_precedes_build : ~ selection_follows_build.
Proof.
  intros H.
  destruct (H board_attached with_cli sketch "auto" default_fqbn
              [ECli ["core"; "update-index"];
               ECli ["core"; "install"; "Seeeduino:samd"]]
              (Some [modem; uno])
              [ECompile "deploy_sketch" sketch default_fqbn passed;
               EUpload "/dev/ttyACM0" default_fqbn passed]
              eq_refl eq_refl) as (e & He & Hp).
  apply elem_of_cons in He as [->|He]; [discriminate|].
  apply list_elem_of_singleton in He as ->. discriminate.
Qed.

Lemma deploy_unavailable w code port fqbn st :
  toolchain_available st = false ->
  run_events (deploy_to_arduino w code port fqbn) st = [].
Proof.
  intros H. unfold run_events. rewrite deploy_to_arduino_unfold.
  unfold toolchain_available in H. rewrite H. cbn [negb snd]. by rewrite drop_all.
Qed.

Lemma transfer_run_no_enumeration cli code target fqbn evs res r :
  transfer_run cli code target fqbn evs res -> EComports r ∉ evs.
Proof.
  destruct 1; intros Hin;
    repeat (apply elem_of_cons in Hin as [Hin|Hin]; [discriminate|]);
    by apply elem_of_nil in Hin.
Qed.

Lemma cli_is_no_enumeration pre r :
  Forall (fun e => is_cli e = true) pre -> EComports r ∉ pre.
Proof.
  intros Hpre Hin. rewrite Forall_forall in Hpre. by apply Hpre in Hin.
Qed.

(** C7. When a deploy with selector "auto" runs the Device Classifier and no
    port is flagged, [deploy_to_arduino] returns the device-not-found error
    with its suggestion, and neither the upload nor the compile subcommand
    is invoked. *)
Theorem auto_deploy_without_candidate w st code fqbn r :
  EComports r ∈ run_events (deploy_to_arduino w code "auto" fqbn) st ->
  Forall (fun d => Device.is_arduino d = false) (Classifier.classify r) ->
  outcome (deploy_to_arduino w code "auto" fqbn) st = Ret not_found_response
  /\ not_found_response !! "suggestion" = Some (JStr "請檢查 USB 連接或驅動程式。")
  /\ List.filter is_upload (run_events (deploy_to_arduino w code "auto" fqbn) st) = []
  /\ builds (run_events (deploy_to_arduino w code "auto" fqbn) st) = [].
Proof.
  intros Hr Hnone.
  destruct (toolchain_available st) eqn:Hcli.
  2:{ rewrite deploy_unavailable in Hr by done. by apply elem_of_nil in Hr. }
  destruct (deploy_steps w code "auto" fqbn st Hcli)
    as (pre & evs & Hev & Hpre & Hrun).
  rewrite Hev in *.
  assert (Hcli_up : List.filter is_upload pre = []).
  { clear -Hpre. induction Hpre as [|e pre He _ IH]; [done|]. by destruct e. }
  destruct Hrun as [Hflag Hstop|evs res Hport Ht|r' Hport Hno
                   |r' target others evs res Hport Hsome Ht].
  - exfalso. rewrite app_nil_r in Hr. by eapply cli_is_no_enumeration.
  - done.
  - rewrite cli_is_no_build by done. rewrite List.filter_app, Hcli_up. done.
  - exfalso.
    apply elem_of_app in Hr as [Hr|Hr]; [by eapply cli_is_no_enumeration|].
    apply elem_of_cons in Hr as [Hr|Hr];
      [|by eapply transfer_run_no_enumeration]. injection Hr as ->.
    rewrite Forall_forall in Hnone.
    assert (Hin : target ∈ arduino_ports (Classifier.classify r'))
      by (rewrite Hsome; set_solver).
    unfold arduino_ports in Hin.
    apply list_elem_of_fmap in Hin as (d & _ & Hd).
    apply list_elem_of_filter in Hd as [Hd Hin].
    rewrite Hnone in Hd; [discriminate|done].
Qed.

(** C7 on a machine with no board attached. *)
Lemma auto_deploy_without_candidate_witness :
  EComports (Some [modem])
    ∈ run_events (deploy_to_arduino no_board sketch "auto" default_fqbn) with_cli
  /\ outcome (deploy_to_arduino no_board sketch "auto" default_fqbn) with_cli
     = Ret not_found_response.
Proof.
  assert (H : EComports (Some [modem])
                ∈ run_events (deploy_to_arduino no_board sketch "auto" default_fqbn)
                    with_cli).
  { vm_compute. apply list_elem_of_In. simpl. auto. }
  split; [exact H|].
  apply (auto_deploy_without_candidate no_board with_cli sketch default_fqbn
           (Some [modem]) H).
  vm_compute. repeat constructor.
Defined.

(** ** The route [/api/generate-direct-code] *)

(** When nothing builds, the response has status 400 and carries the error
    text, the source of the third attempt and the document. *)
Example route_when_nothing_builds :
  outcome (api_generate_direct_code generated_never_builds request) with_cli
  = Ret {| status_code := 400;
           content :=
             {[ "error" := JStr "生成的程式碼無法通過驗證與修復，請檢查需求或稍後再試。";
                "arduino_code" := JStr "v3";
                "wiring_instructions" := JStr "doc" ]} |}.
Proof. vm_compute. reflexivity. Qed.

(** Without a toolchain the response is the one of a validated success. *)
Example route_without_toolchain :
  outcome (api_generate_direct_code generated_builds_at_once request) without_cli
  = outcome (api_generate_direct_code generated_builds_at_once request) with_cli.
Proof. vm_compute. reflexivity. Qed.

(** ** The device classifier *)

Section StringFacts.

Lemma app_cons c a b : String c a +:+ b = String c (a +:+ b).
Proof. reflexivity. Qed.

Lemma lower_char_idem c : PyStr.lower_char (PyStr.lower_char c) = PyStr.lower_char c.
Proof. destruct c as [[] [] [] [] [] [] [] []]; reflexivity. Qed.

Lemma lower_upper_char c : PyStr.lower_char (PyStr.upper_char c) = PyStr.lower_char c.
Proof. destruct c as [[] [] [] [] [] [] [] []]; reflexivity. Qed.

Lemma upper_lower_char c : PyStr.upper_char (PyStr.lower_char c) = PyStr.upper_char c.
Proof. destruct c as [[] [] [] [] [] [] [] []]; reflexivity. Qed.

Lemma lower_idem s : PyStr.lower (PyStr.lower s) = PyStr.lower s.
Proof. induction s as [|c s IH]; simpl; [done|]. by rewrite lower_char_idem, IH. Qed.

Lemma lower_upper s : PyStr.lower (PyStr.upper s) = PyStr.lower s.
Proof. induction s as [|c s IH]; simpl; [done|]. by rewrite lower_upper_char, IH. Qed.

Lemma upper_lower s : PyStr.upper (PyStr.lower s) = PyStr.upper s.
Proof. induction s as [|c s IH]; simpl; [done|]. by rewrite upper_lower_char, IH. Qed.

Lemma lower_app a b : PyStr.lower (a +:+ b) = PyStr.lower a +:+ PyStr.lower b.
Proof. induction a as [|c a IH]; simpl; [done|]. by rewrite IH. Qed.

(** a split of [lower s] comes from a split of [s] *)
Lemma lower_split a : forall s b,
  PyStr.lower s = a +:+ b ->
  exists s1 s2, s = s1 +:+ s2 /\ PyStr.lower s1 = a /\ PyStr.lower s2 = b.
Proof.
  induction a as [|c a IH]; intros s b H.
  - exists EmptyString, s. by repeat split.
  - destruct s as [|c' s]; [discriminate|].
    rewrite app_cons in H. simpl in H. injection H as Hc H.
    destruct (IH s b H) as (s1 & s2 & -> & Ha & Hb).
    exists (String c' s1), s2. simpl. by rewrite Hc, Ha.
Qed.

Lemma prefix_spec p : forall s,
  String.prefix p s = true <-> exists post, s = p +:+ post.
Proof.
  induction p as [|a p IH]; intros s.
  - destruct s; simpl; split; eauto.
  - destruct s as [|b s]; simpl.
    + split; [discriminate|]. intros [post ?]. discriminate.
    + destruct (ascii_dec a b) as [->|Hne].
      * rewrite IH. split; intros [post Hp]; exists post;
          rewrite app_cons in *; congruence.
      * split; [discriminate|]. intros [post Hp]. rewrite app_cons in Hp.
        congruence.
Qed.

Lemma contains_spec needle : forall hay,
  PyStr.contains needle hay = true
  <-> exists pre post, hay = pre +:+ needle +:+ post.
Proof.
  induction hay as [|c hay IH]; cbn [PyStr.contains];
    rewrite orb_true_iff, prefix_spec.
  - split.
    + intros [[post H]|H]; [|discriminate]. by exists EmptyString, post.
    + intros (pre & post & H). left. destruct pre; [|discriminate]. eauto.
  - rewrite IH. split.
    + intros [[post H]|(pre & post & H)].
      * by exists EmptyString, post.
      * exists (String c pre), post. by rewrite app_cons, H.
    + intros (pre & post & H). destruct pre as [|c' pre].
      * left. eauto.
      * right. rewrite app_cons in H. injection H as _ H. eauto.
Qed.

(** the test of the code, [a.lower() in b.lower()], is the
    case-insensitive substring match *)
Lemma contains_lower needle hay :
  PyStr.contains (PyStr.lower needle) (PyStr.lower hay) = true
  <-> ci_substring needle hay.
Proof.
  rewrite contains_spec. unfold ci_substring, ci_equal. split.
  - intros (pre & post & H).
    apply lower_split in H as (s1 & s23 & -> & H1 & H).
    apply lower_split in H as (s2 & s3 & -> & H2 & H3).
    exists s1, s2, s3. by split.
  - intros (pre & mid & post & -> & H).
    exists (PyStr.lower pre), (PyStr.lower post).
    by rewrite !lower_app, H.
Qed.

End StringFacts.

Section ClassifierFacts.

Lemma scan_app ports : forall devices,
  Classifier.scan ports devices = devices ++ map Classifier.entry ports.
Proof.
  induction ports as [|port ports IH]; intros devices; simpl.
  - by rewrite app_nil_r.
  - by rewrite IH, <- app_assoc.
Qed.

Lemma classify_map ports :
  Classifier.classify (Some ports) = map Classifier.entry ports.
Proof. unfold Classifier.classify. by rewrite scan_app. Qed.

Lemma entry_is_arduino port :
  Device.is_arduino (Classifier.entry port)
  = Classifier.name_rule port || Classifier.vid_rule port.
Proof.
  unfold Classifier.entry. cbn [Device.is_arduino].
  by destruct (Classifier.name_rule port), (Classifier.vid_rule port).
Qed.

(** no identifier of the list occurs in the text that [str] gives for an
    absent field *)
Lemma absent_field_never_matches identifier :
  identifier ∈ Classifier.arduino_identifiers ->
  PyStr.contains (PyStr.lower identifier) (PyStr.lower (Py.str None)) = false.
Proof.
  unfold Classifier.arduino_identifiers. intros H.
  repeat (apply elem_of_cons in H as [->|H]; [reflexivity|]).
  by apply elem_of_nil in H.
Qed.

Lemma field_rule identifier field :
  identifier ∈ Classifier.arduino_identifiers ->
  PyStr.contains (PyStr.lower identifier) (PyStr.lower (Py.str field)) = true
  <-> field_match identifier field.
Proof.
  intros Hid. destruct field as [s|].
  - cbn [Py.str]. rewrite contains_lower. unfold field_match. split.
    + eauto.
    + by intros (s' & [= <-] & H).
  - rewrite absent_field_never_matches by done. split; [discriminate|].
    by intros (s & [=] & _).
Qed.

Lemma name_rule_spec port :
  Classifier.name_rule port = true <-> name_match port.
Proof.
  unfold Classifier.name_rule, name_match. rewrite existsb_exists. split.
  - intros (identifier & Hin & H). apply list_elem_of_In in Hin.
    exists identifier. split; [done|].
    apply orb_true_iff in H. by rewrite <- !field_rule.
  - intros (identifier & Hin & H). exists identifier.
    split; [by apply list_elem_of_In|].
    apply orb_true_iff. by rewrite !field_rule.
Qed.

Lemma mem_spec x l : PyStr.mem x l = true <-> x ∈ l.
Proof.
  unfold PyStr.mem. rewrite existsb_exists. split.
  - intros (y & Hin & ->%String.eqb_eq). by apply list_elem_of_In.
  - intros Hin. exists x. split; [by apply list_elem_of_In|apply String.eqb_refl].
Qed.

Lemma allow_list_is_upper entry :
  entry ∈ Classifier.arduino_vid_pids -> PyStr.upper entry = entry.
Proof.
  unfold Classifier.arduino_vid_pids. intros H.
  repeat (apply elem_of_cons in H as [->|H]; [reflexivity|]).
  by apply elem_of_nil in H.
Qed.

Lemma zero_is_not_allowed entry :
  entry ∈ Classifier.arduino_vid_pids ->
  ~ ci_equal (PyStr.format_04X 0) entry.
Proof.
  unfold Classifier.arduino_vid_pids, ci_equal. intros H.
  repeat (apply elem_of_cons in H as [->|H]; [discriminate|]).
  by apply elem_of_nil in H.
Qed.

Lemma vid_rule_spec port :
  Classifier.vid_rule port = true <-> vid_match port.
Proof.
  unfold Classifier.vid_rule, vid_match.
  destruct (ListPortInfo.vid port) as [v|].
  2:{ split; [discriminate|]. by intros (v & entry & [=] & _). }
  rewrite andb_true_iff, negb_true_iff, N.eqb_neq, mem_spec. split.
  - intros [_ Hin]. exists v, (PyStr.upper (PyStr.format_04X v)).
    split; [done|]. split; [done|]. unfold ci_equal. by rewrite lower_upper.
  - intros (v' & entry & [= <-] & Hin & Heq). split.
    + intros ->. by apply (zero_is_not_allowed entry).
    + unfold ci_equal in Heq. apply (f_equal PyStr.upper) in Heq.
      rewrite !upper_lower, (allow_list_is_upper entry) in Heq by done.
      by rewrite Heq.
Qed.

End ClassifierFacts.

(** C6. [detect_arduino_devices] returns one entry per enumerated port, in
    enumeration order, and the flag of each entry is the disjunction of the
    two rules: (a) a name of the identifier list occurs, up to case, in the
    description or the manufacturer of the port; (b) the vendor id of the
    port, written as four hexadecimal digits, is on the allow-list, up to
    case. *)
Theorem classifier_flags_each_port ports :
  let devices := Classifier.classify (Some ports) in
  length devices = length ports
  /\ forall i port,
       ports !! i = Some port ->
       exists d,
         devices !! i = Some d
         /\ Device.port d = ListPortInfo.device port
         /\ (Device.is_arduino d = true <-> name_match port \/ vid_match port).
Proof.
  intros devices. subst devices. rewrite classify_map. split.
  - by rewrite length_map.
  - intros i port Hi. exists (Classifier.entry port).
    split; [by rewrite list_lookup_fmap, Hi|]. split; [done|].
    by rewrite entry_is_arduino, orb_true_iff, name_rule_spec, vid_rule_spec.
Qed.

(** C6 on two ports, the second a board. *)
Lemma classifier_flags_each_port_witness :
  [Scenario.modem; Scenario.uno] !! 1 = Some Scenario.uno
  /\ exists d,
       Classifier.classify (Some [Scenario.modem; Scenario.uno]) !! 1 = Some d
       /\ Device.port d = ListPortInfo.device Scenario.uno
       /\ (Device.is_arduino d = true
           <-> name_match Scenario.uno \/ vid_match Scenario.uno).
Proof.
  split; [reflexivity|].
  apply (proj2 (classifier_flags_each_port [Scenario.modem; Scenario.uno])).
  reflexivity.
Defined.

Section VidPid.

Lemma length_app_string a b :
  String.length (a +:+ b) = String.length a + String.length b.
Proof. induction a as [|c a IH]; [done|]. rewrite app_cons. simpl. by rewrite IH. Qed.

Lemma length_zeros k : String.length (PyStr.zeros k) = k.
Proof. induction k as [|k IH]; simpl; [done|]. by rewrite IH. Qed.

Lemma format_04X_length n : 4 <= String.length (PyStr.format_04X n).
Proof.
  unfold PyStr.format_04X. cbn zeta. rewrite length_app_string, length_zeros. lia.
Qed.

Lemma vid_pid_is_not_NA v p :
  PyStr.format_04X v +:+ ":" +:+ PyStr.format_04X p <> "N/A".
Proof.
  intros H. apply (f_equal String.length) in H.
  rewrite !length_app_string in H. pose proof (format_04X_length v).
  simpl in H. lia.
Qed.

Lemma entry_vid_pid port :
  Device.vid_pid (Classifier.entry port) = "N/A"
  <-> ~ (Py.truthy_int (ListPortInfo.vid port) = true
         /\ Py.truthy_int (ListPortInfo.pid port) = true).
Proof.
  unfold Classifier.entry. cbn [Device.vid_pid].
  destruct (ListPortInfo.vid port) as [v|], (ListPortInfo.pid port) as [p|];
    cbn [Py.truthy_int]; try (split; [intros _ [? ?]; discriminate|done]).
  destruct (negb (v =? 0)%N), (negb (p =? 0)%N); cbn [andb];
    try (split; [intros _ [? ?]; discriminate|done]).
  split; [|intros H; by destruct H]. intros H. by apply vid_pid_is_not_NA in H.
Qed.

End VidPid.

(** C9. For a port whose vendor id is absent or zero, rule (b) never holds,
    so the flag is decided by rule (a) alone, and the "vid_pid" field is
    "N/A"; for every port, "vid_pid" is "N/A" unless both the vendor id and
    the product id are present and not zero. *)
Theorem falsy_vendor_id_is_never_matched ports i port d :
  ports !! i = Some port ->
  Classifier.classify (Some ports) !! i = Some d ->
  (Py.truthy_int (ListPortInfo.vid port) = false ->
   Classifier.vid_rule port = false
   /\ ~ vid_match port
   /\ (Device.is_arduino d = true <-> name_match port)
   /\ Device.vid_pid d = "N/A")
  /\ (Device.vid_pid d = "N/A"
      <-> ~ (Py.truthy_int (ListPortInfo.vid port) = true
             /\ Py.truthy_int (ListPortInfo.pid port) = true)).
Proof.
  intros Hi Hd. rewrite classify_map, list_lookup_fmap, Hi in Hd.
  injection Hd as <-. split; [|apply entry_vid_pid].
  intros Hvid.
  assert (Hrule : Classifier.vid_rule port = false).
  { unfold Classifier.vid_rule. destruct (ListPortInfo.vid port) as [v|]; [|done].
    cbn [Py.truthy_int] in Hvid. by rewrite Hvid. }
  split; [done|]. split.
  { rewrite <- vid_rule_spec, Hrule. discriminate. }
  split.
  { rewrite entry_is_arduino, Hrule, orb_false_r. apply name_rule_spec. }
  apply entry_vid_pid. intros [H _]. rewrite Hvid in H. discriminate.
Qed.

(** C9 on a port without vendor id. *)
Lemma falsy_vendor_id_is_never_matched_witness :
  [Scenario.modem; Scenario.uno] !! 0 = Some Scenario.modem
  /\ Device.vid_pid (Classifier.entry Scenario.modem) = "N/A".
Proof.
  split; [reflexivity|].
  apply (proj1 (falsy_vendor_id_is_never_matched [Scenario.modem; Scenario.uno] 0
                  Scenario.modem (Classifier.entry Scenario.modem)
                  eq_refl eq_refl)).
  reflexivity.
Defined.

(** ** Further properties of the code *)

Section MoreLoopFacts.

Context (w : World) (description : option string) (fqbn : string).

Lemma cons_split {A} (a x : A) l pre post :
  a :: l = pre ++ x :: post ->
  (pre = [] /\ a = x /\ l = post)
  \/ exists pre', pre = a :: pre' /\ l = pre' ++ x :: post.
Proof.
  destruct pre as [|b pre]; simpl; intros [= -> ->]; eauto.
Qed.

Lemma loop_run_round_trips_lt attempts code gr evs res :
  loop_run w description fqbn attempts code gr evs res ->
  last attempts = Some 2 ->
  length (round_trips evs) < length attempts.
Proof.
  induction 1; intros Hlast; simpl in *; try lia.
  - discriminate.
  - destruct rest; [simpl in Hlast; congruence|]. simpl. lia.
  - destruct rest as [|a rest']; [simpl in Hlast; congruence|].
    specialize (IHloop_run Hlast). unfold round_trips in *. simpl in *. lia.
Qed.

(** a round trip whose response is not accepted ends the run *)
Lemma loop_run_abort attempts code gr evs res :
  loop_run w description fqbn attempts code gr evs res ->
  forall pre q r post,
    evs = pre ++ EGemini q r :: post ->
    accepted w r = None ->
    post = [] /\ forall gr', res <> Ret (true, gr').
Proof.
  induction 1; intros pre q0 r0 post Hev Hacc.
  - by destruct pre.
  - by destruct pre.
  - by destruct pre.
  - destruct pre as [|? [|? ?]]; discriminate.
  - destruct pre as [|? [|? ?]]; discriminate.
  - destruct pre as [|? [|? ?]]; discriminate.
  - apply cons_split in Hev as [(_ & [=] & _)|(pre' & -> & Hev)].
    apply cons_split in Hev as [(_ & [= <- <-] & <-)|(pre'' & -> & Hev)].
    + split; [done|]. intros gr'. destruct H2 as [->|[e ->]]; discriminate.
    + by destruct pre''.
  - apply cons_split in Hev as [(_ & [=] & _)|(pre' & -> & Hev)].
    apply cons_split in Hev as [(_ & [= <- <-] & <-)|(pre'' & -> & Hev)].
    + congruence.
    + eauto.
Qed.

(** every round trip follows a failed build and carries its source and its
    diagnostics, and the document of the artifact of that moment *)
Lemma loop_run_prompt attempts code gr evs res :
  loop_run w description fqbn attempts code gr evs res ->
  forall pre q r post,
    evs = pre ++ EGemini q r :: post ->
    exists pre' c p,
      pre = pre' ++ [ECompile "temp_sketch" c fqbn p]
      /\ returncode p <> 0%Z
      /\ q = FixPrompt description
               (artifact_after w gr pre !! "wiring_instructions")
               (JStr c) (stderr p).
Proof.
  induction 1; intros pre q0 r0 post Hev.
  - by destruct pre.
  - by destruct pre.
  - by destruct pre.
  - destruct pre as [|? [|? ?]]; discriminate.
  - destruct pre as [|? [|? ?]]; discriminate.
  - destruct pre as [|? [|? ?]]; discriminate.
  - apply cons_split in Hev as [(_ & [=] & _)|(pre' & -> & Hev)].
    apply cons_split in Hev as [(-> & [= <- <-] & <-)|(pre'' & -> & Hev)].
    + exists [], c, p. by repeat split.
    + by destruct pre''.
  - apply cons_split in Hev as [(_ & [=] & _)|(pre' & -> & Hev)].
    apply cons_split in Hev as [(-> & [= <- <-] & <-)|(pre'' & -> & Hev)].
    + exists [], c, p. by repeat split.
    + destruct (IHloop_run _ _ _ _ Hev) as (pre3 & c0 & p0 & -> & Hp & ->).
      exists (ECompile "temp_sketch" c fqbn p
              :: EGemini (FixPrompt description (gr !! "wiring_instructions")
                            (JStr c) (stderr p)) r :: pre3), c0, p0.
      split; [done|]. split; [done|].
      unfold artifact_after. cbn [app accepted_fixes]. rewrite H1, last_cons.
      by destruct (last (accepted_fixes w (pre3 ++ _))) as [[? ?]|].
Qed.

End MoreLoopFacts.

Section ValidateFacts.

Context (w : World).

Lemma setup_events_cli st code fqbn :
  Forall (fun e => is_cli e = true) (setup_events st code fqbn).
Proof.
  unfold setup_events. destruct (_ || _); [constructor|].
  apply Forall_app. split; [apply issued_cli|].
  destruct (forallb _ _); [|constructor].
  destruct code; try constructor. apply issued_cli.
Qed.

Lemma filter_cli_all pre :
  Forall (fun e => is_cli e = true) pre -> List.filter is_cli pre = pre.
Proof. induction 1 as [|e pre He _ IH]; simpl; [done|]. by rewrite He, IH. Qed.

(** what a provisioning does to the state, with the exact commands *)
Lemma setup_exact code fqbn st :
  toolchain_available st = true ->
  exists r st',
    setup_cli_environment code fqbn st = (r, st')
    /\ trace st' = trace st ++ setup_events st code fqbn
    /\ user_description st' = user_description st
    /\ arduino_cli_path st' = arduino_cli_path st
    /\ (r = Ret tt
        \/ (r = Raise TypeError /\ forall s, code <> JStr s)
        \/ r = Raise embedded_null_byte).
Proof.
  intros Hcli. unfold setup_events. rewrite Hcli. cbn [negb].
  destruct (_cli_env_setup_done st) eqn:Hflag; cbn [orb].
  { exists (Ret tt), st. rewrite setup_done, app_nil_r by done. auto 10. }
  rewrite setup_spec by done.
  destruct (forallb _ (core_commands fqbn)) eqn:Hcore.
  2:{ do 2 eexists. split; [reflexivity|]. rewrite app_nil_r. auto 10. }
  rewrite issued_all by done.
  destruct code;
    try (do 2 eexists; split; [reflexivity|]; rewrite app_nil_r;
         repeat split; try done; right; left; split; [done|];
         intros ?; discriminate).
  destruct (forallb _ (lib_commands s)) eqn:Hlibs.
  - do 2 eexists. split; [reflexivity|]. rewrite issued_all by done.
    rewrite provisioning_events_commands. auto 10.
  - do 2 eexists. split; [reflexivity|]. auto 10.
Qed.

Lemma setup_run_events code fqbn st :
  run_events (setup_cli_environment code fqbn) st = setup_events st code fqbn.
Proof.
  unfold run_events.
  destruct (toolchain_available st) eqn:Hcli.
  2:{ rewrite setup_unavailable by done. unfold setup_events.
      rewrite Hcli, orb_true_r. cbn [snd]. apply drop_all. }
  destruct (setup_exact code fqbn st Hcli) as (r & st' & -> & Htr & _).
  cbn [snd]. by rewrite Htr, drop_app_length.
Qed.

Lemma validate_run_exact gr fqbn st :
  toolchain_available st = true ->
  exists evs,
    run_events (validate_and_fix_code w gr fqbn) st
    = setup_events st (Py.get gr "arduino_code" (JStr EmptyString)) fqbn ++ evs
    /\ loop_run w (user_description st) fqbn (seq 0 3)
         (Py.get gr "arduino_code" (JStr EmptyString)) gr evs
         (outcome (validate_and_fix_code w gr fqbn) st).
Proof.
  intros Hcli. unfold run_events, outcome, validate_and_fix_code.
  pose proof Hcli as Hcli'. unfold toolchain_available in Hcli'.
  rewrite Hcli'. cbn [negb]. rewrite bind_unfold.
  set (code := Py.get gr "arduino_code" (JStr EmptyString)).
  destruct (setup_exact code fqbn st Hcli)
    as (r & st' & -> & Htr & Hud & Hpath & Hr).
  destruct Hr as [->|[[-> Hns]| ->]].
  - destruct (repair_loop_run w (seq 0 3) code gr fqbn st')
      as (evs & res & -> & Hrun).
    { unfold toolchain_available. by rewrite Hpath. }
    exists evs. cbn [fst snd append_events trace].
    rewrite Htr, <- app_assoc, drop_app_length. rewrite <- Hud. auto.
  - exists []. cbn [fst snd].
    rewrite Htr, drop_app_length, app_nil_r. split; [done|]. by constructor.
  - exists []. cbn [fst snd].
    rewrite Htr, drop_app_length, app_nil_r. split; [done|]. by constructor.
Qed.

Lemma cli_prefix_split cli evs pre q r post :
  Forall (fun e => is_cli e = true) cli ->
  cli ++ evs = pre ++ EGemini q r :: post ->
  exists pre', pre = cli ++ pre' /\ evs = pre' ++ EGemini q r :: post.
Proof.
  intros Hcli. revert pre. induction Hcli as [|e cli He _ IH]; intros pre H.
  - eauto.
  - simpl in H. apply cons_split in H as [(_ & -> & _)|(pre' & -> & H)];
      [discriminate|].
    destruct (IH _ H) as (pre'' & -> & ->). eauto.
Qed.

End ValidateFacts.

(** X1. When the first build of a validation passes, the run is over: one
    build, no round trip to the generation service, and success is returned
    with the artifact that was passed in, its source written back under
    "arduino_code" (so the artifact itself when it held that source). *)
Theorem first_build_passes w st gr fqbn e rest :
  builds (run_events (validate_and_fix_code w gr fqbn) st) = e :: rest ->
  build_passed e = true ->
  rest = []
  /\ round_trips (run_events (validate_and_fix_code w gr fqbn) st) = []
  /\ exists c,
       Py.get gr "arduino_code" (JStr EmptyString) = JStr c
       /\ outcome (validate_and_fix_code w gr fqbn) st
          = Ret (true, <["arduino_code" := JStr c]> gr)
       /\ (gr !! "arduino_code" = Some (JStr c) ->
           outcome (validate_and_fix_code w gr fqbn) st = Ret (true, gr)).
Proof.
  destruct (toolchain_available st) eqn:Hcli.
  2:{ by rewrite run_events_unavailable. }
  destruct (validate_run w gr fqbn st Hcli) as (pre & evs & -> & Hpre & Hrun).
  rewrite cli_is_no_build, cli_is_no_round_trip by done. intros Hb Hp.
  inversion Hrun; subst; simpl in Hb; try discriminate;
    injection Hb as <- <-; simpl in Hp; apply Z.eqb_eq in Hp; try done.
  split; [done|]. split; [done|]. exists c. split; [done|]. split; [done|].
  intros Hc. by rewrite insert_id.
Qed.

Lemma first_build_passes_witness :
  builds (run_events (validate_and_fix_code builds_at_once (artifact "v1" "doc")
                        default_fqbn) with_cli)
  = [ECompile "temp_sketch" "v1" default_fqbn passed]
  /\ round_trips (run_events (validate_and_fix_code builds_at_once
                                (artifact "v1" "doc") default_fqbn) with_cli) = [].
Proof.
  assert (H : builds (run_events (validate_and_fix_code builds_at_once
                                    (artifact "v1" "doc") default_fqbn) with_cli)
              = [ECompile "temp_sketch" "v1" default_fqbn passed])
    by (vm_compute; reflexivity).
  split; [exact H|].
  apply (first_build_passes builds_at_once with_cli (artifact "v1" "doc")
           default_fqbn _ _ H).
  reflexivity.
Defined.

(** X2. A repair round trip whose response is not well formed (no answer, an
    empty text, a text that does not parse, or a value without
    "arduino_code") is the last thing a validation does: no further build,
    no further round trip, and the run does not return success. *)
Theorem malformed_repair_ends_the_run w st gr fqbn pre q r post :
  run_events (validate_and_fix_code w gr fqbn) st = pre ++ EGemini q r :: post ->
  accepted w r = None ->
  post = []
  /\ forall gr', outcome (validate_and_fix_code w gr fqbn) st <> Ret (true, gr').
Proof.
  destruct (toolchain_available st) eqn:Hcli.
  2:{ rewrite run_events_unavailable by done. intros H. destruct pre; discriminate. }
  destruct (validate_run w gr fqbn st Hcli) as (cli & evs & -> & Hpre & Hrun).
  intros Hev Hacc.
  destruct (cli_prefix_split _ _ _ _ _ _ Hpre Hev) as (pre' & -> & ->).
  eapply loop_run_abort; eauto.
Qed.

Lemma malformed_repair_ends_the_run_witness :
  ([] : list event) = []
  /\ forall gr',
       outcome (validate_and_fix_code no_answer (artifact "v1" "doc") default_fqbn)
         with_cli <> Ret (true, gr').
Proof.
  apply (malformed_repair_ends_the_run no_answer with_cli (artifact "v1" "doc")
           default_fqbn
           [ECli ["core"; "update-index"];
            ECli ["core"; "install"; "Seeeduino:samd"];
            ECompile "temp_sketch" "v1" default_fqbn (failed "e1")]
           (FixPrompt (Some "blink an LED on pin D5 every 500ms")
              (Some (JStr "doc")) (JStr "v1") "e1")
           ReplyNone []).
  - vm_compute. reflexivity.
  - reflexivity.
Defined.

(** X3. Every repair request of a validation comes right after a build that
    failed, and its prompt holds the source given to that build, the stderr
    of that build, the description stored in the system and the wiring
    document of the artifact of that moment. *)
Theorem repair_prompt_carries_the_diagnostics w st gr fqbn pre q r post :
  run_events (validate_and_fix_code w gr fqbn) st = pre ++ EGemini q r :: post ->
  exists pre' c p,
    pre = pre' ++ [ECompile "temp_sketch" c fqbn p]
    /\ returncode p <> 0%Z
    /\ q = FixPrompt (user_description st)
             (artifact_after w gr pre !! "wiring_instructions")
             (JStr c) (stderr p).
Proof.
  destruct (toolchain_available st) eqn:Hcli.
  2:{ rewrite run_events_unavailable by done. intros H. destruct pre; discriminate. }
  destruct (validate_run w gr fqbn st Hcli) as (cli & evs & -> & Hpre & Hrun).
  intros Hev.
  destruct (cli_prefix_split _ _ _ _ _ _ Hpre Hev) as (pre' & -> & ->).
  destruct (loop_run_prompt _ _ _ _ _ _ _ _ Hrun _ _ _ _ eq_refl)
    as (pre3 & c & p & -> & Hp & ->).
  exists (cli ++ pre3), c, p. split; [by rewrite app_assoc|]. split; [done|].
  unfold artifact_after. by rewrite (cli_is_no_fix w cli) by done.
Qed.

Lemma repair_prompt_carries_the_diagnostics_witness :
  exists pre' c p,
    [ECli ["core"; "update-index"]; ECli ["core"; "install"; "Seeeduino:samd"];
     ECompile "temp_sketch" "v1" default_fqbn (failed "e1")]
    = pre' ++ [ECompile "temp_sketch" c default_fqbn p]
    /\ returncode p <> 0%Z
    /\ FixPrompt (Some "blink an LED on pin D5 every 500ms") (Some (JStr "doc"))
         (JStr "v1") "e1"
       = FixPrompt (user_description with_cli)
           (artifact_after rewrites_doc (artifact "v1" "doc")
              [ECli ["core"; "update-index"];
               ECli ["core"; "install"; "Seeeduino:samd"];
               ECompile "temp_sketch" "v1" default_fqbn (failed "e1")]
            !! "wiring_instructions")
           (JStr c) (stderr p).
Proof.
  apply (repair_prompt_carries_the_diagnostics rewrites_doc with_cli
           (artifact "v1" "doc") default_fqbn _ _
           (ReplyText (json_text "v2" "other doc"))
           [ECompile "temp_sketch" "v2" default_fqbn passed]).
  vm_compute. reflexivity.
Defined.

(** X4. The toolchain commands of a validation other than its builds are
    those of the provisioning for the source it was called with, and only
    when the environment was not set up yet; whatever the repairs return,
    nothing is installed for them. *)
Theorem validation_provisions_for_the_first_source w st gr fqbn :
  List.filter is_cli (run_events (validate_and_fix_code w gr fqbn) st)
  = setup_events st (Py.get gr "arduino_code" (JStr EmptyString)) fqbn.
Proof.
  destruct (toolchain_available st) eqn:Hcli.
  2:{ rewrite run_events_unavailable by done. unfold setup_events.
      by rewrite Hcli, orb_true_r. }
  destruct (validate_run_exact w gr fqbn st Hcli) as (evs & -> & Hrun).
  rewrite List.filter_app, filter_cli_all by apply setup_events_cli.
  by rewrite (loop_run_no_cli _ _ _ _ _ _ _ _ Hrun), app_nil_r.
Qed.

(** X5. When the value under "arduino_code" is not a string, a validation
    with a toolchain raises without any build and without any request to the
    generation service: [TypeError], unless the environment is not set up
    yet and one of the two core commands cannot be started, in which case
    the [ValueError] of that command comes first. *)
Theorem non_string_source_raises w st gr fqbn :
  toolchain_available st = true ->
  (forall s, Py.get gr "arduino_code" (JStr EmptyString) <> JStr s) ->
  let started :=
    forallb (can_start (arduino_cli_path st)) (core_commands fqbn) in
  (_cli_env_setup_done st = true \/ started = true ->
   outcome (validate_and_fix_code w gr fqbn) st = Raise TypeError)
  /\ (_cli_env_setup_done st = false -> started = false ->
      outcome (validate_and_fix_code w gr fqbn) st = Raise embedded_null_byte)
  /\ builds (run_events (validate_and_fix_code w gr fqbn) st) = []
  /\ round_trips (run_events (validate_and_fix_code w gr fqbn) st) = [].
Proof.
  intros Hcli Hns started. subst started.
  assert (Hev : builds (run_events (validate_and_fix_code w gr fqbn) st) = []
                /\ round_trips (run_events (validate_and_fix_code w gr fqbn) st) = []).
  { destruct (validate_run w gr fqbn st Hcli) as (pre & evs & -> & Hpre & Hrun).
    rewrite cli_is_no_build, cli_is_no_round_trip by done.
    inversion Hrun; subst; try (by repeat split);
      exfalso; match goal with H : JStr ?c = _ |- _ => by apply (Hns c) end. }
  assert (Hloop : forall st',
            repair_loop w (seq 0 3) (Py.get gr "arduino_code" (JStr EmptyString))
              gr fqbn st' = (Raise TypeError, st')).
  { intros st'. cbn [seq repair_loop].
    by rewrite bind_unfold, compile_code_not_str. }
  unfold outcome, validate_and_fix_code.
  pose proof Hcli as Hcli'. unfold toolchain_available in Hcli'.
  rewrite Hcli'. cbn [negb]. rewrite bind_unfold.
  destruct (_cli_env_setup_done st) eqn:Hflag.
  { rewrite setup_done, Hloop by done. cbn [fst].
    split; [done|]. split; [discriminate|done]. }
  rewrite setup_spec by done.
  destruct (forallb _ (core_commands fqbn)) eqn:Hcore.
  - split; [|split; [discriminate|done]]. intros _.
    destruct (Py.get gr "arduino_code" (JStr EmptyString)) eqn:Hc; try done.
    by destruct (Hns s).
  - split; [by intros [|]|]. by split.
Qed.

Lemma non_string_source_raises_witness :
  toolchain_available with_cli = true
  /\ outcome (validate_and_fix_code builds_at_once
                {[ "arduino_code" := JInt 5 ]} default_fqbn) with_cli
     = Raise TypeError.
Proof.
  split; [reflexivity|].
  destruct (non_string_source_raises builds_at_once with_cli
              {[ "arduino_code" := JInt 5 ]} default_fqbn) as [H _].
  - reflexivity.
  - intros s. vm_compute. discriminate.
  - apply H. right. reflexivity.
Defined.

(** X6. A validation makes at most two requests to the generation service,
    and never more requests than builds. *)
Theorem at_most_two_repairs w st gr fqbn :
  length (round_trips (run_events (validate_and_fix_code w gr fqbn) st)) <= 2
  /\ length (round_trips (run_events (validate_and_fix_code w gr fqbn) st))
     <= length (builds (run_events (validate_and_fix_code w gr fqbn) st)).
Proof.
  destruct (toolchain_available st) eqn:Hcli.
  2:{ rewrite run_events_unavailable by done. simpl. lia. }
  destruct (validate_run w gr fqbn st Hcli) as (pre & evs & -> & Hpre & Hrun).
  rewrite cli_is_no_build, cli_is_no_round_trip by done.
  pose proof (loop_run_round_trips_lt _ _ _ _ _ _ _ _ Hrun eq_refl) as H1.
  pose proof (loop_run_round_trips_le _ _ _ _ _ _ _ _ Hrun) as [H2 _].
  simpl in H1. lia.
Qed.

(** X7. The loop accepts a repair response exactly when it is a non-empty
    text that parses to a JSON object with the key "arduino_code"; then the
    new source is the value under that key and the new artifact is the
    object. *)
Theorem accepted_is_an_object_with_code w r c m :
  accepted w r = Some (c, m)
  <-> exists text,
        r = ReplyText text
        /\ text <> EmptyString
        /\ _extract_code_from_json w text = Some (JObj m)
        /\ m !! "arduino_code" = Some c.
Proof.
  split.
  - destruct r as [e| |text]; try discriminate. unfold accepted.
    destruct (Py.truthy_str (Some text)) eqn:Ht; [|discriminate].
    destruct (_extract_code_from_json w text) as [v|] eqn:Hv; [|discriminate].
    unfold accept_fix. destruct (Py.truthy v); [|discriminate].
    destruct (Py.contains "arduino_code" v) as [[|]|]; try discriminate.
    destruct v; try discriminate. cbn [Py.getitem].
    destruct (m0 !! "arduino_code") eqn:E; try discriminate.
    intros [= <- <-]. exists text. repeat split; try done.
    intros ->. discriminate.
  - intros (text & -> & Hne & Hv & Hc). unfold accepted.
    assert (Ht : Py.truthy_str (Some text) = true).
    { cbn. destruct (String.eqb_spec text EmptyString); [done|reflexivity]. }
    rewrite Ht, Hv. unfold accept_fix.
    assert (Hm : Py.truthy (JObj m) = true).
    { cbn. apply negb_true_iff, bool_decide_eq_false. intros ->.
      by rewrite lookup_empty in Hc. }
    rewrite Hm. cbn [Py.contains Py.getitem]. rewrite Hc.
    rewrite bool_decide_eq_true_2 by eauto. done.
Qed.

(** ** The routes *)

(** X8. The route [/api/generate-direct-code] never raises: whatever the
    request, the collaborators and the state, it returns a response, and its
    status is 200, 400 or 500. *)
Theorem generation_route_always_answers w request st :
  exists resp,
    outcome (api_generate_direct_code w request) st = Ret resp
    /\ (status_code resp = 200 \/ status_code resp = 400 \/ status_code resp = 500).
Proof.
  unfold outcome, api_generate_direct_code.
  destruct (String.eqb (Py.get request "description" EmptyString) EmptyString).
  { eexists. split; [reflexivity|]. auto. }
  rewrite bind_unfold. cbn [set_user_description]. unfold try_except.
  match goal with |- context [match ?m ?s with _ => _ end] =>
    destruct (m s) as [[resp|e] st'] eqn:Hin end.
  2:{ destruct e; eexists; (split; [reflexivity|]); cbn; auto. }
  exists resp. split; [done|].
  rewrite bind_unfold in Hin.
  match type of Hin with context [generate_code_and_instructions ?w ?d ?s] =>
    destruct (generate_code_and_instructions w d s) as [[g|e] st1] end;
    [|discriminate].
  rewrite bind_unfold in Hin. unfold lift at 1 in Hin.
  match type of Hin with context [match ?x with Ret _ => _ | Raise _ => _ end] =>
    destruct x as [[|]|] end; try discriminate.
  { injection Hin as <- _. cbn. auto. }
  destruct g as [[]|]; try discriminate.
  rewrite bind_unfold in Hin.
  destruct (validate_and_fix_code w m default_fqbn st1) as [[[[|] f]|e] st2];
    try discriminate; injection Hin as <- _; cbn; auto.
Qed.

(** X9. Without a description (the key is missing or its value is empty) the
    route answers 400 and does nothing else: the state, the stored
    description included, is as before. *)
Theorem generation_route_needs_a_description w request st :
  Py.get request "description" EmptyString = EmptyString ->
  api_generate_direct_code w request st
  = (Ret {| status_code := 400;
            content := {[ "error" := JStr "請提供專案描述" ]} |}, st).
Proof.
  intros H. unfold api_generate_direct_code. by rewrite H.
Qed.

Lemma generation_route_needs_a_description_witness :
  api_generate_direct_code builds_at_once ∅ with_cli
  = (Ret {| status_code := 400;
            content := {[ "error" := JStr "請提供專案描述" ]} |}, with_cli).
Proof.
  apply (generation_route_needs_a_description builds_at_once ∅ with_cli).
  reflexivity.
Defined.

(** X10. With a description but without the key of the generation service,
    the route answers 400 with the message of the [ValueError]; it stores
    the description and does nothing else: no request, no provisioning, no
    build. *)
Theorem generation_route_without_key w request st description :
  request !! "description" = Some description ->
  description <> EmptyString ->
  Py.truthy_str (google_api_key st) = false ->
  api_generate_direct_code w request st
  = (Ret {| status_code := 400; content := {[ "error" := JStr key_message ]} |},
     with_description st description).
Proof.
  intros Hd Hne Hkey. unfold api_generate_direct_code, Py.get. rewrite Hd.
  destruct (String.eqb_spec description EmptyString) as [|_]; [done|].
  rewrite bind_unfold. cbn [set_user_description]. unfold try_except.
  rewrite bind_unfold. unfold generate_code_and_instructions.
  rewrite bind_unfold. unfold _call_gemini_api at 1.
  cbn [google_api_key]. rewrite Hkey. reflexivity.
Qed.

Lemma generation_route_without_key_witness :
  api_generate_direct_code builds_at_once request without_key
  = (Ret {| status_code := 400; content := {[ "error" := JStr key_message ]} |},
     with_description without_key "blink an LED on pin D5 every 500ms").
Proof.
  apply (generation_route_without_key builds_at_once request without_key
           "blink an LED on pin D5 every 500ms").
  - reflexivity.
  - discriminate.
  - reflexivity.
Defined.

(** X11. When the generation service does not answer, answers with a text
    that does not parse, or with an object that has no "arduino_code", the
    route answers 500 with the generation error, and the request to the
    service is all that happened: nothing was provisioned or built. *)
Theorem generation_route_without_artifact w request st description :
  request !! "description" = Some description ->
  description <> EmptyString ->
  Py.truthy_str (google_api_key st) = true ->
  let r := gemini w (trace st) (GeneratePrompt description) in
  (r = ReplyNone
   \/ (exists text, r = ReplyText text
                    /\ _extract_code_from_json w text = None)
   \/ (exists text m, r = ReplyText text
                      /\ _extract_code_from_json w text = Some (JObj m)
                      /\ m !! "arduino_code" = None)) ->
  outcome (api_generate_direct_code w request) st = Ret generation_failed_response
  /\ run_events (api_generate_direct_code w request) st
     = [EGemini (GeneratePrompt description) r].
Proof.
  intros Hd Hne Hkey r Hr.
  assert (Hrun : api_generate_direct_code w request st
                 = (Ret generation_failed_response,
                    append_events (with_description st description)
                      [EGemini (GeneratePrompt description) r])).
  { unfold api_generate_direct_code, Py.get. rewrite Hd.
    destruct (String.eqb_spec description EmptyString) as [|_]; [done|].
    rewrite bind_unfold. cbn [set_user_description]. unfold try_except.
    rewrite bind_unfold. unfold generate_code_and_instructions.
    rewrite bind_unfold. unfold _call_gemini_api at 1.
    cbn [google_api_key trace]. rewrite Hkey. cbn [negb].
    rewrite bind_unfold, log_append. fold (with_description st description).
    fold r.
    destruct Hr as [Hr|[(text & Hr & Hv)|(text & m & Hr & Hv & Hm)]]; rewrite Hr.
    - reflexivity.
    - cbn [ret]. rewrite bind_unfold. unfold lift at 1.
      destruct (Py.truthy_str (Some text)); rewrite ?Hv; reflexivity.
    - cbn [ret]. rewrite bind_unfold. unfold lift at 1.
      destruct (Py.truthy_str (Some text)); rewrite ?Hv; [|reflexivity].
      destruct (Py.truthy (JObj m)); [|reflexivity].
      cbn [Py.contains]. rewrite Hm.
      rewrite bool_decide_eq_false_2 by (by intros [? ?]).
      reflexivity. }
  unfold outcome, run_events. rewrite Hrun.
  cbn [fst snd append_events with_description trace].
  by rewrite drop_app_length.
Qed.

Lemma generation_route_without_artifact_witness :
  outcome (api_generate_direct_code no_answer request) with_cli
  = Ret generation_failed_response
  /\ run_events (api_generate_direct_code no_answer request) with_cli
     = [EGemini (GeneratePrompt "blink an LED on pin D5 every 500ms") ReplyNone].
Proof.
  apply (generation_route_without_artifact no_answer request with_cli
           "blink an LED on pin D5 every 500ms").
  - reflexivity.
  - discriminate.
  - reflexivity.
  - left. reflexivity.
Defined.

Lemma extends_run_events {A} (m : M A) st evs :
  trace (snd (m st)) = trace st ++ evs ->
  trace (snd (m st)) = trace st ++ run_events m st.
Proof.
  intros H. unfold run_events. by rewrite H, drop_app_length.
Qed.

Lemma validate_trace w gr fqbn st :
  trace (snd (validate_and_fix_code w gr fqbn st))
  = trace st ++ run_events (validate_and_fix_code w gr fqbn) st.
Proof.
  destruct (toolchain_available st) eqn:Hcli.
  2:{ rewrite run_events_unavailable, validate_unavailable by done.
      by rewrite app_nil_r. }
  assert (H : exists evs,
            trace (snd (validate_and_fix_code w gr fqbn st)) = trace st ++ evs).
  { unfold validate_and_fix_code.
    pose proof Hcli as Hcli'. unfold toolchain_available in Hcli'.
    rewrite Hcli'. cbn [negb]. rewrite bind_unfold.
    set (code := Py.get gr "arduino_code" (JStr EmptyString)).
    destruct (setup_cases code fqbn st Hcli)
      as (pre & r & st' & -> & Htr & _ & _ & Hpath & _ & Hr).
    destruct Hr as [->|[[-> _]| ->]]; [|eauto..].
    destruct (repair_loop_run w (seq 0 3) code gr fqbn st')
      as (evs & res & -> & _).
    { unfold toolchain_available. by rewrite Hpath. }
    exists (pre ++ evs). cbn [snd append_events trace].
    by rewrite Htr, app_assoc. }
  destruct H as [evs H]. by eapply extends_run_events.
Qed.

(** what the route does once a description is there and the key is set, up
    to the validation *)
Lemma generation_route_ok w request st resp st' :
  api_generate_direct_code w request st = (Ret resp, st') ->
  status_code resp = 200 ->
  exists description r m g,
    let st1 := append_events (with_description st description)
                 [EGemini (GeneratePrompt description) r] in
    validate_and_fix_code w m default_fqbn st1 = (Ret (true, g), st')
    /\ content resp !! "arduino_code" = Some (Py.get_or_null g "arduino_code")
    /\ content resp !! "wiring_instructions"
       = Some (Py.get_or_null g "wiring_instructions").
Proof.
  unfold api_generate_direct_code.
  set (description := Py.get request "description" EmptyString).
  destruct (String.eqb description EmptyString).
  { intros [= <- _]. discriminate. }
  rewrite bind_unfold. cbn [set_user_description].
  fold (with_description st description). unfold try_except.
  rewrite bind_unfold. unfold generate_code_and_instructions.
  rewrite bind_unfold.
  destruct (call_gemini_cases w (GeneratePrompt description)
              (with_description st description)) as [[msg ->]|[r ->]].
  { intros [= <- _]. discriminate. }
  destruct r as [e| |text].
  - destruct e; intros [= <- _]; discriminate.
  - intros [= <- _]. discriminate.
  - cbn [ret]. rewrite bind_unfold. unfold lift at 1.
    match goal with |- context [match ?x with Ret _ => _ | Raise _ => _ end] =>
      destruct x as [[|]|e] end.
    + intros [= <- _]. discriminate.
    + match goal with |- context [match ?g with Some _ => _ | None => _ end] =>
        destruct g as [[]|] end;
        try (intros [= <- _]; discriminate).
      rewrite bind_unfold.
      destruct (validate_and_fix_code w m default_fqbn _) as [[[[|] f]|e] st2] eqn:Hv.
      * intros [= <- <-] _. exists description, (ReplyText text), m, f.
        cbn zeta. split; [exact Hv|]. cbn [content]. by simplify_map_eq.
      * intros [= <- _]. discriminate.
      * destruct e; intros [= <- _]; discriminate.
    + destruct e; intros [= <- _]; discriminate.
Qed.

(** X12. When the route answers 200 and a toolchain is available, the last
    thing the run did is a build that passed, and the "arduino_code" of the
    response is the source text given to that build. *)
Theorem generation_route_ok_was_built w request st resp :
  outcome (api_generate_direct_code w request) st = Ret resp ->
  status_code resp = 200 ->
  toolchain_available st = true ->
  exists pre c p,
    run_events (api_generate_direct_code w request) st
    = pre ++ [ECompile "temp_sketch" c default_fqbn p]
    /\ returncode p = 0%Z
    /\ content resp !! "arduino_code" = Some (JStr c).
Proof.
  unfold outcome, run_events.
  destruct (api_generate_direct_code w request st) as [res st'] eqn:Hrun.
  cbn [fst snd]. intros -> Hstatus Hcli.
  destruct (generation_route_ok w request st resp st' Hrun Hstatus)
    as (description & r & m & g & Hv & Hcode & _).
  cbn zeta in Hv.
  set (st1 := append_events (with_description st description) _) in Hv.
  assert (Hcli1 : toolchain_available st1 = true) by exact Hcli.
  destruct (validate_run w m default_fqbn st1 Hcli1) as (pre & evs & Hev & _ & Hloop).
  pose proof (validate_trace w m default_fqbn st1) as Htr.
  unfold outcome in Hloop. rewrite Hv in Hloop, Htr. cbn [fst snd] in Hloop, Htr.
  destruct (loop_run_success _ _ _ _ _ _ _ _ Hloop)
    as (pre' & c & p & -> & Hrc & Hc & _ & _).
  rewrite Htr, Hev. subst st1. cbn [append_events with_description trace].
  rewrite <- !app_assoc, drop_app_length.
  exists ([EGemini (GeneratePrompt description) r] ++ pre ++ pre'), c, p.
  split; [by rewrite <- !app_assoc|]. split; [done|].
  rewrite Hcode. unfold Py.get_or_null, Py.get. by rewrite Hc.
Qed.

Lemma generation_route_ok_was_built_witness :
  exists pre c p,
    run_events (api_generate_direct_code generated_builds_at_once request) with_cli
    = pre ++ [ECompile "temp_sketch" c default_fqbn p]
    /\ returncode p = 0%Z
    /\ content
         {| status_code := 200;
            content := {[ "arduino_code" := JStr "v1";
                          "wiring_instructions" := JStr "doc";
                          "message" := JStr "AI成功生成程式碼與接線指南" ]} |}
       !! "arduino_code" = Some (JStr c).
Proof.
  apply (generation_route_ok_was_built generated_builds_at_once request with_cli
           {| status_code := 200;
              content := {[ "arduino_code" := JStr "v1";
                            "wiring_instructions" := JStr "doc";
                            "message" := JStr "AI成功生成程式碼與接線指南" ]} |}).
  - vm_compute. reflexivity.
  - reflexivity.
  - reflexivity.
Defined.

(** X13. The route [/api/deploy]. Without source text (the key "code" is
    missing or its value is empty) it answers 400 and does nothing.
    Otherwise it deploys to the port of the request, "auto" when none is
    given, with the default board, and adds nothing of its own: it answers
    200 with what the deploy returned, also when the deploy failed, and an
    exception of the deploy (the [ValueError] of a port that holds a NUL
    character, for one) leaves the route as it is, for the route has no
    handler. *)
Theorem deploy_route_passes_on_the_deploy w request st :
  (Py.truthy_str (request !! "code") = false ->
   api_deploy_code w request st
   = (Ret {| status_code := 400;
             content := {[ "error" := JStr "請求中未包含程式碼" ]} |}, st))
  /\ (forall code,
        request !! "code" = Some code -> code <> EmptyString ->
        api_deploy_code w request st
        = (match outcome (deploy_to_arduino w code (Py.get request "port" "auto")
                            default_fqbn) st with
           | Ret response => Ret {| status_code := 200; content := response |}
           | Raise e => Raise e
           end,
           snd (deploy_to_arduino w code (Py.get request "port" "auto")
                  default_fqbn st))).
Proof.
  split.
  - intros H. unfold api_deploy_code.
    destruct (request !! "code") as [code|]; [|done]. by rewrite H.
  - intros code Hcode Hne. unfold api_deploy_code. rewrite Hcode.
    assert (Ht : Py.truthy_str (Some code) = true).
    { cbn. destruct (String.eqb_spec code EmptyString); [done|reflexivity]. }
    rewrite Ht, bind_unfold. unfold outcome.
    by destruct (deploy_to_arduino w code (Py.get request "port" "auto")
                   default_fqbn st) as [[response|e] st'].
Qed.

(** X13 on a request whose port holds a NUL character: the build passes,
    the upload cannot be started, and the route raises. *)
Lemma deploy_route_passes_on_the_deploy_witness :
  outcome (api_deploy_code board_attached nul_port) with_cli
  = Raise embedded_null_byte.
Proof.
  unfold outcome.
  rewrite (proj2 (deploy_route_passes_on_the_deploy board_attached nul_port
                    with_cli) sketch eq_refl ltac:(discriminate)).
  vm_compute. reflexivity.
Defined.

Lemma deploy_run_counts cli flag code port fqbn evs res :
  deploy_run cli flag code port fqbn evs res ->
  round_trips evs = []
  /\ length (builds evs) <= 1
  /\ length (List.filter is_upload evs) <= length (builds evs).
Proof.
  assert (Ht : forall target evs' res',
            transfer_run cli code target fqbn evs' res' ->
            round_trips evs' = []
            /\ length (builds evs') <= 1
            /\ length (List.filter is_upload evs') <= length (builds evs')).
  { intros target evs' res' H. destruct H; simpl; auto. }
  destruct 1; simpl; eauto.
Qed.

Lemma cli_is_no_upload pre evs :
  Forall (fun e => is_cli e = true) pre ->
  List.filter is_upload (pre ++ evs) = List.filter is_upload evs.
Proof.
  induction 1 as [|e pre He _ IH]; [done|]. destruct e; try discriminate. exact IH.
Qed.

(** X14. A deploy never asks the generation service for anything; it builds
    at most once and uploads at most once, and only when it has built. *)
Theorem deploy_never_repairs w st code port fqbn :
  let evs := run_events (deploy_to_arduino w code port fqbn) st in
  round_trips evs = []
  /\ length (builds evs) <= 1
  /\ length (List.filter is_upload evs) <= length (builds evs).
Proof.
  intros evs. subst evs.
  destruct (toolchain_available st) eqn:Hcli.
  2:{ rewrite deploy_unavailable by done. simpl. auto. }
  destruct (deploy_steps w code port fqbn st Hcli)
    as (pre & evs & -> & Hpre & Hrun).
  rewrite cli_is_no_build, cli_is_no_round_trip, cli_is_no_upload by done.
  by eapply deploy_run_counts.
Qed.

(** X15. A deploy reports success only when both the build and the upload
    exited with status zero; the response then names the port the upload
    was given and carries the standard output of the upload. *)
Theorem deploy_success_means_uploaded w st code port fqbn response :
  outcome (deploy_to_arduino w code port fqbn) st = Ret response ->
  response !! "success" = Some (JBool true) ->
  exists pre p target u,
    run_events (deploy_to_arduino w code port fqbn) st
    = pre ++ [ECompile "deploy_sketch" code fqbn p; EUpload target fqbn u]
    /\ returncode p = 0%Z
    /\ returncode u = 0%Z
    /\ response !! "port" = Some (JStr target)
    /\ response !! "output" = Some (JStr (stdout u)).
Proof.
  destruct (toolchain_available st) eqn:Hcli.
  2:{ unfold outcome. rewrite deploy_to_arduino_unfold.
      unfold toolchain_available in Hcli. rewrite Hcli. cbn [negb fst].
      intros [= <-] H. by simplify_map_eq. }
  destruct (deploy_steps w code port fqbn st Hcli)
    as (pre & evs & -> & Hpre & Hrun).
  intros Hres Hs. rewrite Hres in Hrun.
  assert (Ht : forall target evs',
            transfer_run (arduino_cli_path st) code target fqbn evs'
              (Ret response) ->
            exists p u,
              evs' = [ECompile "deploy_sketch" code fqbn p; EUpload target fqbn u]
              /\ returncode p = 0%Z /\ returncode u = 0%Z
              /\ response !! "port" = Some (JStr target)
              /\ response !! "output" = Some (JStr (stdout u))).
  { intros target evs' H. inversion H; subst.
    - unfold build_failed_response in Hs. by simplify_map_eq.
    - unfold upload_failed_response in Hs. by simplify_map_eq.
    - exists p, u. unfold deployed_response. by simplify_map_eq. }
  inversion Hrun as [Hflag Hstop|evs' res Hport H|r Hport Hnone
                    |r target others evs' res Hport Hsome H]; subst.
  - destruct (Ht _ _ H) as (p & u & -> & ?). exists pre, p, port, u. auto.
  - unfold not_found_response in Hs. by simplify_map_eq.
  - destruct (Ht _ _ H) as (p & u & -> & ?).
    exists (pre ++ [EComports r]), p, target, u. by rewrite <- app_assoc.
Qed.

Lemma deploy_success_means_uploaded_witness :
  exists pre p target u,
    run_events (deploy_to_arduino board_attached sketch "auto" default_fqbn) with_cli
    = pre ++ [ECompile "deploy_sketch" sketch default_fqbn p;
              EUpload target default_fqbn u]
    /\ returncode p = 0%Z
    /\ returncode u = 0%Z
    /\ deployed_response "/dev/ttyACM0" passed !! "port" = Some (JStr target)
    /\ deployed_response "/dev/ttyACM0" passed !! "output" = Some (JStr (stdout u)).
Proof.
  apply (deploy_success_means_uploaded board_attached with_cli sketch "auto"
           default_fqbn (deployed_response "/dev/ttyACM0" passed)).
  - vm_compute. reflexivity.
  - reflexivity.
Defined.

(** the states in which the route [/api/generate-direct-code] can end *)
Lemma generation_route_states w request st :
  let st' := snd (api_generate_direct_code w request st) in
  st' = st
  \/ exists description,
       st' = with_description st description
       \/ exists r,
            st' = append_events (with_description st description)
                    [EGemini (GeneratePrompt description) r]
            \/ exists m,
                 st' = snd (validate_and_fix_code w m default_fqbn
                              (append_events (with_description st description)
                                 [EGemini (GeneratePrompt description) r])).
Proof.
  cbn zeta. unfold api_generate_direct_code.
  set (description := Py.get request "description" EmptyString).
  destruct (String.eqb description EmptyString); [by left|].
  right. exists description.
  rewrite bind_unfold. cbn [set_user_description].
  fold (with_description st description). unfold try_except.
  rewrite bind_unfold. unfold generate_code_and_instructions.
  rewrite bind_unfold.
  destruct (call_gemini_cases w (GeneratePrompt description)
              (with_description st description)) as [[msg ->]|[r ->]].
  { by left. }
  right. exists r.
  destruct r as [e| |text].
  - left. by destruct e.
  - by left.
  - cbn [ret]. rewrite bind_unfold. unfold lift at 1.
    match goal with |- context [match ?x with Ret _ => _ | Raise _ => _ end] =>
      destruct x as [[|]|e] end.
    + by left.
    + match goal with |- context [match ?g with Some _ => _ | None => _ end] =>
        destruct g as [[]|] end; try (by left).
      right. exists m. cbn [lift]. rewrite bind_unfold.
      destruct (validate_and_fix_code w m default_fqbn _) as [[[[|] f]|e] st2];
        try done. by destruct e.
    + left. by destruct e.
Qed.

(** X16. Once the environment is set up, no request resets the flag, and no
    request issues a provisioning command again: after either route the
    flag is still set, and the run held no toolchain command other than
    builds and uploads. *)
Theorem requests_keep_the_environment w request st :
  _cli_env_setup_done st = true ->
  (_cli_env_setup_done (snd (api_generate_direct_code w request st)) = true
   /\ List.filter is_cli (run_events (api_generate_direct_code w request) st) = [])
  /\ (_cli_env_setup_done (snd (api_deploy_code w request st)) = true
      /\ List.filter is_cli (run_events (api_deploy_code w request) st) = []).
Proof.
  intros Hflag. split.
  - unfold run_events.
    destruct (generation_route_states w request st)
      as [->|(d & [->|(r & [->|(m & ->)])])].
    + split; [done|]. by rewrite drop_all.
    + split; [done|]. cbn [with_description trace]. by rewrite drop_all.
    + split; [done|]. cbn [append_events with_description trace].
      by rewrite drop_app_length.
    + set (st1 := append_events (with_description st d) _).
      destruct (validate_keeps_the_flag w m default_fqbn st1 Hflag) as [Hf Hc].
      split; [done|]. rewrite validate_trace. subst st1.
      cbn [append_events with_description trace].
      rewrite <- app_assoc, drop_app_length. cbn [app List.filter is_cli].
      exact Hc.
  - unfold run_events, api_deploy_code.
    destruct (request !! "code") as [code|] eqn:Hcode.
    2:{ cbn [ret snd]. split; [done|]. by rewrite drop_all. }
    destruct (Py.truthy_str (Some code)).
    2:{ cbn [ret snd]. split; [done|]. by rewrite drop_all. }
    rewrite bind_unfold.
    destruct (deploy_keeps_the_flag w code (Py.get request "port" "auto")
                default_fqbn st Hflag) as [Hf Hc].
    unfold run_events in Hc.
    destruct (deploy_to_arduino w code (Py.get request "port" "auto")
                default_fqbn st) as [[response|e] st']; cbn [ret snd] in *; auto.
Qed.

Lemma requests_keep_the_environment_witness :
  _cli_env_setup_done
    (snd (api_generate_direct_code generated_builds_at_once request
            (snd (api_generate_direct_code generated_builds_at_once request with_cli))))
  = true.
Proof.
  apply (requests_keep_the_environment generated_builds_at_once request
           (snd (api_generate_direct_code generated_builds_at_once request with_cli))).
  vm_compute. reflexivity.
Defined.

Section IncludeFacts.

Lemma app_assoc_string a b c : (a +:+ b) +:+ c = a +:+ b +:+ c.
Proof. induction a as [|x a IH]; [done|]. by rewrite !app_cons, IH. Qed.

Lemma app_nil_r_string a : a +:+ EmptyString = a.
Proof. induction a as [|x a IH]; [done|]. by rewrite app_cons, IH. Qed.

Lemma drop_prefix_spec p : forall s r,
  PyStr.drop_prefix p s = Some r -> s = p +:+ r.
Proof.
  induction p as [|a p IH]; intros s r; simpl.
  - by intros [= ->].
  - destruct s as [|b s]; [discriminate|].
    destruct (Ascii.eqb_spec a b) as [->|]; [|discriminate].
    intros H. rewrite app_cons. by rewrite (IH _ _ H).
Qed.

Lemma span_spec p : forall s a b,
  PyStr.span p s = (a, b) ->
  s = a +:+ b /\ all_chars p a = true.
Proof.
  induction s as [|c s IH]; intros a b; simpl.
  - by intros [= <- <-].
  - destruct (p c) eqn:Hc.
    + destruct (PyStr.span p s) as [a' b'] eqn:Hs. intros [= <- <-].
      destruct (IH _ _ eq_refl) as [-> Ha]. split; [done|].
      simpl. by rewrite Hc, Ha.
    + by intros [= <- <-].
Qed.

Lemma substring_all s : String.substring 0 (String.length s) s = s.
Proof. induction s as [|c s IH]; simpl; [done|]. by rewrite IH. Qed.

Lemma substring_split : forall s n,
  n <= String.length s ->
  String.substring 0 n s +:+ String.substring n (String.length s - n) s = s.
Proof.
  induction s as [|c s IH]; intros n Hn; simpl in Hn.
  - by replace n with 0 by lia.
  - destruct n as [|n].
    + cbn [String.substring]. simpl. by rewrite substring_all.
    + cbn [String.substring String.length]. rewrite app_cons.
      replace (S (String.length s) - S n) with (String.length s - n) by lia.
      rewrite IH by lia. done.
Qed.

Lemma ends_with_spec suffix s :
  PyStr.ends_with suffix s = true ->
  s = String.substring 0 (String.length s - String.length suffix) s +:+ suffix.
Proof.
  unfold PyStr.ends_with. cbn zeta.
  intros [Hk Heq]%andb_true_iff. apply Nat.leb_le in Hk.
  apply String.eqb_eq in Heq.
  pose proof (substring_split s (String.length s - String.length suffix)) as H.
  replace (String.length s - (String.length s - String.length suffix))
    with (String.length suffix) in H by lia.
  rewrite Heq in H. symmetry. apply H. lia.
Qed.

Lemma all_chars_app p a b :
  all_chars p (a +:+ b) = all_chars p a && all_chars p b.
Proof.
  induction a as [|c a IH]; [done|]. rewrite app_cons. simpl.
  by rewrite IH, andb_assoc.
Qed.

Lemma no_bracket_contains s :
  all_chars (fun c => negb (Ascii.eqb c ">")) s = true ->
  PyStr.contains ">" s = false.
Proof.
  induction s as [|c s IH]; [done|]. cbn [PyStr.contains all_chars].
  intros [Hc Hs]%andb_true_iff. rewrite (IH Hs), orb_false_r.
  destruct (String.prefix ">" (String c s)) eqn:Hp; [|done].
  apply prefix_spec in Hp as [post Hp]. rewrite app_cons in Hp.
  injection Hp as -> _. rewrite Ascii.eqb_refl in Hc. discriminate.
Qed.

(** what a match of the pattern at the start of [s] tells about [s] *)
Lemma match_include_spec s lib n :
  Re.match_include s = Some (lib, n) ->
  (exists blank rest,
     s = "#include" +:+ blank +:+ "<" +:+ lib +:+ ".h>" +:+ rest
     /\ all_chars PyStr.is_space blank = true)
  /\ lib <> EmptyString
  /\ PyStr.contains ">" lib = false.
Proof.
  unfold Re.match_include.
  destruct (PyStr.drop_prefix "#include" s) as [s1|] eqn:H1; [|discriminate].
  destruct (PyStr.span PyStr.is_space s1) as [blank s2] eqn:H2.
  destruct s2 as [|c2 s3]; [discriminate|].
  destruct (Ascii.eqb_spec c2 "<") as [->|Hne].
  2:{ destruct c2 as [[] [] [] [] [] [] [] []]; try discriminate. by destruct Hne. }
  destruct (PyStr.span (fun c => negb (Ascii.eqb c ">")) s3) as [run s4] eqn:H3.
  destruct s4 as [|c4 s5]; [discriminate|].
  destruct (Ascii.eqb_spec c4 ">") as [->|Hne].
  2:{ destruct c4 as [[] [] [] [] [] [] [] []]; try discriminate. by destruct Hne. }
  destruct (3 <=? String.length run)%nat eqn:Hlen; [|discriminate].
  destruct (PyStr.ends_with ".h" run) eqn:Hend; [|discriminate].
  cbn [andb]. intros [= <- _].
  apply Nat.leb_le in Hlen.
  apply drop_prefix_spec in H1. apply span_spec in H2 as [-> Hblank].
  apply span_spec in H3 as [-> Hrun]. apply ends_with_spec in Hend.
  cbn [String.length] in Hend.
  set (lib := String.substring 0 (String.length run - 2) run) in *.
  split; [|split].
  - exists blank, s5. split; [|done]. rewrite H1. f_equal. f_equal.
    rewrite app_cons. cbn [String.append]. f_equal.
    rewrite Hend at 1. rewrite !app_assoc_string. f_equal.
  - intros Hlib. rewrite Hlib in Hend. rewrite Hend in Hlen. simpl in Hlen. lia.
  - apply no_bracket_contains. rewrite Hend, all_chars_app in Hrun.
    by apply andb_true_iff in Hrun as [? _].
Qed.

Lemma findall_include_spec lib : forall s skip,
  lib ∈ Re.findall_include skip s ->
  exists pre rest n, s = pre +:+ rest /\ Re.match_include rest = Some (lib, n).
Proof.
  induction s as [|c s IH]; intros skip; cbn [Re.findall_include].
  - by intros ?%elem_of_nil.
  - destruct skip as [|k].
    + destruct (Re.match_include (String c s)) as [[l n]|] eqn:Hm.
      * intros [->|Hin]%elem_of_cons.
        -- by exists EmptyString, (String c s), n.
        -- destruct (IH _ Hin) as (pre & rest & n' & -> & H).
           by exists (String c pre), rest, n'.
      * intros Hin. destruct (IH _ Hin) as (pre & rest & n' & -> & H).
        by exists (String c pre), rest, n'.
    + intros Hin. destruct (IH _ Hin) as (pre & rest & n' & -> & H).
      by exists (String c pre), rest, n'.
Qed.

Lemma required_libs_spec lib code :
  lib ∈ required_libs_of code ->
  (includes lib code /\ lib <> EmptyString /\ PyStr.contains ">" lib = false)
  \/ (lib = "Servo"
      /\ PyStr.contains "myServo" code = true
      /\ PyStr.contains "Servo.h" code = false).
Proof.
  unfold required_libs_of.
  assert (Hfound : lib ∈ Re.findall_include 0 code ->
            includes lib code /\ lib <> EmptyString
            /\ PyStr.contains ">" lib = false).
  { intros Hin. destruct (findall_include_spec _ _ _ Hin) as (pre & rest & n & -> & Hm).
    destruct (match_include_spec _ _ _ Hm) as ((blank & post & -> & Hb) & Hne & Hgt).
    split; [|done]. by exists pre, blank, post. }
  destruct (negb (PyStr.mem "Servo" (Re.findall_include 0 code))); cbn [andb];
    [|by left; apply Hfound].
  destruct (PyStr.contains "Servo.h" code) eqn:Hh; cbn [negb andb];
    [by left; apply Hfound|].
  destruct (PyStr.contains "myServo" code) eqn:Hs; [|by left; apply Hfound].
  intros [Hin|Hin%list_elem_of_singleton]%elem_of_app; [left; by apply Hfound|].
  by right.
Qed.

End IncludeFacts.

Section ProvisioningFacts.

Lemma issued_sub cli cmds e :
  e ∈ issued cli cmds -> exists args, args ∈ cmds /\ e = ECli args.
Proof.
  unfold issued. intros (args & -> & Hin)%list_elem_of_fmap.
  exists args. split; [|done].
  apply list_elem_of_In in Hin. apply filter_In in Hin as [Hin _].
  by apply list_elem_of_In.
Qed.

Lemma issued_sublist cli cmds : sublist (issued cli cmds) (map ECli cmds).
Proof.
  unfold issued. induction cmds as [|args rest IH]; [constructor|].
  cbn [List.filter map]. destruct (can_start cli args); cbn [map].
  - by apply sublist_skip.
  - by apply sublist_cons.
Qed.

(** the commands of a provisioning are among the core commands, and for a
    source that is a string among its library installs *)
Lemma setup_events_sub st code fqbn e :
  e ∈ setup_events st code fqbn ->
  (exists args, args ∈ core_commands fqbn /\ e = ECli args)
  \/ exists source args,
       code = JStr source /\ args ∈ lib_commands source /\ e = ECli args.
Proof.
  unfold setup_events. destruct (_ || _); [by intros ?%elem_of_nil|].
  intros [Hin|Hin]%elem_of_app.
  - left. by apply issued_sub in Hin.
  - destruct (forallb _ _); [|by apply elem_of_nil in Hin].
    destruct code; try (by apply elem_of_nil in Hin).
    right. apply issued_sub in Hin as (args & Hin & ->). eauto.
Qed.

Lemma setup_events_sublist st code fqbn :
  exists source,
    sublist (setup_events st code fqbn) (provisioning_events source fqbn).
Proof.
  unfold setup_events.
  destruct (_ || _); [exists EmptyString; apply sublist_nil_l|].
  assert (Hcore : forall source,
            sublist (issued (arduino_cli_path st) (core_commands fqbn) ++ [])
              (provisioning_events source fqbn)).
  { intros source. rewrite provisioning_events_commands.
    apply sublist_app; [apply issued_sublist|apply sublist_nil_l]. }
  destruct (forallb _ _); [|by exists EmptyString].
  destruct code; try (by exists EmptyString).
  exists s. rewrite provisioning_events_commands.
  apply sublist_app; apply issued_sublist.
Qed.

Lemma program_can_start cli args :
  can_start cli ("core" :: "install" :: args) = true ->
  can_start cli ["core"; "update-index"] = true.
Proof.
  unfold can_start, create_subprocess_exec. destruct cli as [program|]; [|done].
  cbn [existsb has_nul]. by destruct (has_nul program).
Qed.

End ProvisioningFacts.

(** X17. Every library that [setup_cli_environment] installs is named in
    the source: the source is a string that holds the directive
    [#include <lib.h>] for it (the name is not empty and holds no ">"), or the
    library is "Servo" and the source holds the text "myServo" and not the
    text "Servo.h". *)
Theorem installed_libraries_come_from_the_source code fqbn st name :
  ECli ["lib"; "install"; name]
  ∈ run_events (setup_cli_environment code fqbn) st ->
  exists source lib,
    code = JStr source
    /\ name = lib_name_for_install lib
    /\ ((includes lib source /\ lib <> EmptyString
         /\ PyStr.contains ">" lib = false)
        \/ (lib = "Servo"
            /\ PyStr.contains "myServo" source = true
            /\ PyStr.contains "Servo.h" source = false)).
Proof.
  rewrite setup_run_events.
  intros [(args & Hin & [= <-])|(source & args & -> & Hin & [= <-])]%setup_events_sub.
  { unfold core_commands in Hin.
    repeat (apply elem_of_cons in Hin as [[=]|Hin]). by apply elem_of_nil in Hin. }
  unfold lib_commands in Hin.
  apply list_elem_of_fmap in Hin as (lib & [= ->] & Hin).
  rewrite elem_of_remove_dups in Hin. exists source, lib.
  split; [done|]. split; [done|]. by apply required_libs_spec.
Qed.

Lemma installed_libraries_come_from_the_source_witness :
  exists source lib,
    JStr "Servo myServo;" = JStr source
    /\ "Servo" = lib_name_for_install lib
    /\ ((includes lib source /\ lib <> EmptyString
         /\ PyStr.contains ">" lib = false)
        \/ (lib = "Servo"
            /\ PyStr.contains "myServo" source = true
            /\ PyStr.contains "Servo.h" source = false)).
Proof.
  apply (installed_libraries_come_from_the_source (JStr "Servo myServo;")
           default_fqbn with_cli "Servo").
  vm_compute. apply list_elem_of_In. simpl. auto.
Defined.

Section CommandFacts.

Lemma app_inv_tail_string c : forall a b, a +:+ c = b +:+ c -> a = b.
Proof.
  induction a as [|x a IH]; intros b H.
  - destruct b as [|y b]; [done|]. apply (f_equal String.length) in H.
    rewrite !length_app_string in H. cbn [String.length] in H. lia.
  - destruct b as [|y b].
    + apply (f_equal String.length) in H.
      rewrite !length_app_string in H. cbn [String.length] in H. lia.
    + rewrite !app_cons in H. injection H as -> H. by rewrite (IH _ H).
Qed.

Lemma quoted_contains needle lib :
  PyStr.contains needle lib = true ->
  PyStr.contains needle (dquote +:+ lib +:+ dquote) = true.
Proof.
  rewrite !contains_spec. intros (pre & post & ->).
  exists (dquote +:+ pre), (post +:+ dquote). by rewrite !app_assoc_string.
Qed.

Lemma lib_name_for_install_inj a b :
  lib_name_for_install a = lib_name_for_install b -> a = b.
Proof.
  unfold lib_name_for_install.
  destruct (PyStr.contains "Adafruit" a) eqn:Ha,
           (PyStr.contains "Adafruit" b) eqn:Hb; intros H.
  - unfold dquote in H. rewrite !app_cons in H. injection H as H.
    change (EmptyString +:+ ?x) with x in H.
    by apply app_inv_tail_string in H.
  - apply quoted_contains in Ha. rewrite H in Ha. congruence.
  - apply quoted_contains in Hb. rewrite <- H in Hb. congruence.
  - done.
Qed.

End CommandFacts.

Lemma provisioning_events_distinct code fqbn :
  NoDup (provisioning_events code fqbn).
Proof.
  unfold provisioning_events, install_events.
  assert (Hlibs : NoDup (map (fun lib => ECli ["lib"; "install"; lib_name_for_install lib])
                           (remove_dups (required_libs_of code)))).
  { apply (NoDup_fmap_2_strong _).
    - intros a b _ _ [= H]. by apply lib_name_for_install_inj.
    - apply NoDup_remove_dups. }
  constructor; [|constructor; [|done]].
  - intros [[=]|Hin]%elem_of_cons.
    apply list_elem_of_fmap in Hin as (lib & [=] & _).
  - intros Hin. apply list_elem_of_fmap in Hin as (lib & [=] & _).
Qed.

(** X18. [setup_cli_environment] issues no command twice: the index refresh,
    the core install and one install per library, however often the source
    names a library. *)
Theorem provisioning_commands_are_distinct code fqbn st :
  NoDup (run_events (setup_cli_environment code fqbn) st).
Proof.
  rewrite setup_run_events.
  destruct (setup_events_sublist st code fqbn) as [source Hsub].
  eapply sublist_NoDup; [apply (provisioning_events_distinct source fqbn)|].
  exact Hsub.
Qed.

Section CoreFacts.

Lemma split_not_nil sep s : PyStr.split sep s <> [].
Proof.
  destruct s as [|c s]; simpl; [done|].
  destruct (Ascii.eqb c sep); [done|]. by destruct (PyStr.split sep s).
Qed.

Lemma no_colon_cons c s :
  PyStr.contains ":" (String c s) = false ->
  Ascii.eqb c ":" = false /\ PyStr.contains ":" s = false.
Proof.
  cbn [PyStr.contains]. intros [Hp Hs]%orb_false_iff. split; [|done].
  destruct (Ascii.eqb_spec c ":") as [->|]; [|done].
  assert (String.prefix ":" (String ":" s) = true)
    by (apply prefix_spec; by exists s). congruence.
Qed.

Lemma split_segment a : forall t,
  PyStr.contains ":" a = false ->
  PyStr.split ":" (a +:+ String ":" t) = a :: PyStr.split ":" t.
Proof.
  induction a as [|c a IH]; intros t Ha.
  - reflexivity.
  - apply no_colon_cons in Ha as [Hc Ha]. rewrite app_cons.
    cbn [PyStr.split]. rewrite Hc, IH by done. done.
Qed.

Lemma split_last a :
  PyStr.contains ":" a = false -> PyStr.split ":" a = [a].
Proof.
  induction a as [|c a IH]; intros Ha; [done|].
  apply no_colon_cons in Ha as [Hc Ha]. cbn [PyStr.split].
  by rewrite Hc, IH.
Qed.

End CoreFacts.

(** X19. For a board identifier made of a platform, an architecture and a
    board separated by colons, the core that [setup_cli_environment] installs
    is the platform and the architecture, joined by a colon; further segments
    are left out, whatever they hold. No other core is ever installed, and
    in a first provisioning this install is the second command, whenever it
    can be started. *)
Theorem installed_core_is_the_first_two_segments platform arch board code st :
  PyStr.contains ":" platform = false ->
  PyStr.contains ":" arch = false ->
  let fqbn := platform +:+ ":" +:+ arch +:+ ":" +:+ board in
  (forall core,
     ECli ["core"; "install"; core]
     ∈ run_events (setup_cli_environment code fqbn) st ->
     core = platform +:+ ":" +:+ arch)
  /\ (_cli_env_setup_done st = false ->
      toolchain_available st = true ->
      can_start (arduino_cli_path st)
        ["core"; "install"; platform +:+ ":" +:+ arch] = true ->
      run_events (setup_cli_environment code fqbn) st !! 1
      = Some (ECli ["core"; "install"; platform +:+ ":" +:+ arch])).
Proof.
  intros Hp Ha fqbn.
  assert (Hcore : core_commands fqbn
                  = [["core"; "update-index"];
                     ["core"; "install"; platform +:+ ":" +:+ arch]]).
  { unfold core_commands, fqbn. do 3 f_equal. f_equal.
    change (platform +:+ ":" +:+ arch +:+ ":" +:+ board)
      with (platform +:+ String ":" (arch +:+ String ":" board)).
    rewrite !split_segment by done.
    pose proof (split_not_nil ":" board).
    destruct (PyStr.split ":" board); [done|]. reflexivity. }
  rewrite setup_run_events. split.
  - intros core
      [(args & Hin & [= <-])|(source & args & -> & Hin & [= <-])]%setup_events_sub.
    + rewrite Hcore in Hin.
      apply elem_of_cons in Hin as [[=]|Hin].
      apply elem_of_cons in Hin as [[= ->]|Hin]; [done|].
      by apply elem_of_nil in Hin.
    + unfold lib_commands in Hin.
      by apply list_elem_of_fmap in Hin as (lib & [=] & _).
  - intros Hflag Hcli Hstart. unfold setup_events.
    rewrite Hflag, Hcli, Hcore. cbn [orb negb]. unfold issued.
    cbn [List.filter]. by rewrite (program_can_start _ _ Hstart), Hstart.
Qed.

Lemma installed_core_is_the_first_two_segments_witness :
  run_events
    (setup_cli_environment (JStr sketch)
       ("Seeeduino" +:+ ":" +:+ "samd" +:+ ":" +:+ "seeed_XIAO_m0"))
    with_cli !! 1
  = Some (ECli ["core"; "install"; "Seeeduino" +:+ ":" +:+ "samd"]).
Proof.
  apply (installed_core_is_the_first_two_segments "Seeeduino" "samd"
           "seeed_XIAO_m0" (JStr sketch) with_cli); reflexivity.
Defined.

Section HexFacts.

Lemma hex_read_upper d : hex_read (PyStr.hex_upper d) = Some d.
Proof. induction d; simpl; rewrite ?IHd; reflexivity. Qed.

Lemma hex_read_zeros k s :
  hex_read (PyStr.zeros k +:+ s) = Nat.iter k Hexadecimal.D0 <$> hex_read s.
Proof.
  induction k as [|k IH].
  - change (PyStr.zeros 0 +:+ s) with s. by destruct (hex_read s).
  - cbn [PyStr.zeros]. rewrite app_cons. cbn [hex_read]. rewrite IH.
    by destruct (hex_read s).
Qed.

Lemma of_hex_uint_zeros k d :
  N.of_hex_uint (Nat.iter k Hexadecimal.D0 d) = N.of_hex_uint d.
Proof. induction k as [|k IH]; [done|]. simpl. exact IH. Qed.

Lemma format_04X_inj a b : PyStr.format_04X a = PyStr.format_04X b -> a = b.
Proof.
  unfold PyStr.format_04X. cbn zeta. intros H.
  apply (f_equal hex_read) in H. rewrite !hex_read_zeros, !hex_read_upper in H.
  cbn in H. injection H as H. apply (f_equal N.of_hex_uint) in H.
  rewrite !of_hex_uint_zeros, !HexadecimalN.Unsigned.of_to in H. done.
Qed.

Lemma upper_app a b : PyStr.upper (a +:+ b) = PyStr.upper a +:+ PyStr.upper b.
Proof. induction a as [|c a IH]; [done|]. rewrite app_cons. simpl. by rewrite IH. Qed.

Lemma upper_hex d : PyStr.upper (PyStr.hex_upper d) = PyStr.hex_upper d.
Proof. induction d; simpl; rewrite ?IHd; reflexivity. Qed.

Lemma upper_zeros k : PyStr.upper (PyStr.zeros k) = PyStr.zeros k.
Proof. induction k as [|k IH]; simpl; rewrite ?IH; reflexivity. Qed.

Lemma upper_format n : PyStr.upper (PyStr.format_04X n) = PyStr.format_04X n.
Proof.
  unfold PyStr.format_04X. cbn zeta. by rewrite upper_app, upper_zeros, upper_hex.
Qed.

End HexFacts.

(** X20. The vendor rule flags a port exactly when its vendor id is one of
    the six numbers 0x2341, 0x1A86, 0x10C4, 0x0403, 0x2886 and 0x303A. *)
Theorem vendor_rule_is_a_set_of_numbers port :
  Classifier.vid_rule port = true
  <-> exists v, ListPortInfo.vid port = Some v /\ v ∈ arduino_vids.
Proof.
  unfold Classifier.vid_rule.
  destruct (ListPortInfo.vid port) as [v|].
  2:{ split; [discriminate|]. by intros (v & [=] & _). }
  rewrite andb_true_iff, negb_true_iff, N.eqb_neq, mem_spec, upper_format.
  change Classifier.arduino_vid_pids with (map PyStr.format_04X arduino_vids).
  split.
  - intros [_ Hin]. exists v. split; [done|].
    apply list_elem_of_fmap in Hin as (n & Hn & Hin).
    by apply format_04X_inj in Hn as ->.
  - intros (v' & [= <-] & Hin). split.
    + intros ->. unfold arduino_vids in Hin.
      repeat (apply elem_of_cons in Hin as [Hin|Hin]; [discriminate|]).
      by apply elem_of_nil in Hin.
    + apply list_elem_of_fmap. eauto.
Qed.

Section LocatorFacts.

Context (which : string -> option string) (runs : string -> string -> bool).

Lemma usable_dec name :
  (exists p, usable which runs name p
             /\ forall rest, find_among which runs (name :: rest) = Some p)
  \/ ((forall p, ~ usable which runs name p)
      /\ forall rest,
           find_among which runs (name :: rest) = find_among which runs rest).
Proof.
  unfold usable. cbn [find_among].
  destruct (which name) as [p|] eqn:Hw.
  - destruct (String.eqb_spec p EmptyString) as [->|Hne].
    + right. split; [|done]. intros p (H & Hp & _). congruence.
    + assert (Ht : Py.truthy_str (Some p) = true).
      { cbn. by destruct (String.eqb_spec p EmptyString). }
      rewrite Ht. cbn [andb]. destruct (runs name p) eqn:Hr.
      * left. exists p. by repeat split.
      * right. split; [|done]. intros p' ([= <-] & _ & H). congruence.
  - right. split; [|done]. intros p (H & _). discriminate.
Qed.

End LocatorFacts.

(** X21. [find_arduino_cli] returns the path that [shutil.which] gives for
    "arduino-cli" when that path is not empty and passes the version check,
    else the one for "arduino-cli.exe" under the same conditions, else
    nothing; the system built at start-up has a toolchain exactly when one of
    the two is usable. *)
Theorem find_arduino_cli_picks_the_first_usable which runs api_key :
  (forall p,
     find_arduino_cli which runs = Some p
     <-> usable which runs "arduino-cli" p
         \/ ((forall q, ~ usable which runs "arduino-cli" q)
             /\ usable which runs "arduino-cli.exe" p))
  /\ (toolchain_available (init which runs api_key) = true
      <-> exists p, usable which runs "arduino-cli" p
                    \/ usable which runs "arduino-cli.exe" p).
Proof.
  unfold find_arduino_cli.
  assert (Hfun : forall name p q,
            usable which runs name p -> usable which runs name q -> p = q).
  { intros name p q (Hp & _) (Hq & _). congruence. }
  assert (Htr : forall p, p <> EmptyString -> Py.truthy_str (Some p) = true).
  { intros p Hne. cbn. by destruct (String.eqb_spec p EmptyString). }
  unfold toolchain_available, init. cbn [arduino_cli_path].
  unfold find_arduino_cli.
  destruct (usable_dec which runs "arduino-cli") as [(p1 & H1 & E1)|(N1 & E1)];
    rewrite !E1.
  - split.
    + intros p. split.
      * intros [= <-]. by left.
      * intros [H|[Hn _]]; [f_equal; by eapply Hfun|]. by destruct (Hn p1).
    + split; [eauto|]. intros _. apply Htr, H1.
  - destruct (usable_dec which runs "arduino-cli.exe") as [(p2 & H2 & E2)|(N2 & E2)];
      rewrite !E2.
    + split.
      * intros p. split.
        -- intros [= <-]. by right.
        -- intros [H|[_ H]]; [by destruct (N1 p)|]. f_equal. by eapply Hfun.
      * split; [eauto|]. intros _. apply Htr, H2.
    + split.
      * intros p. cbn [find_among]. split; [discriminate|].
        intros [H|[_ H]]; [by destruct (N1 p)|by destruct (N2 p)].
      * cbn. split; [discriminate|].
        intros (p & [H|H]); [by destruct (N1 p)|by destruct (N2 p)].
Qed.

Section FenceFacts.

Lemma drop_prefix_app p r : PyStr.drop_prefix p (p +:+ r) = Some r.
Proof.
  induction p as [|a p IH]; [by destruct r|].
  rewrite app_cons. cbn [PyStr.drop_prefix]. by rewrite Ascii.eqb_refl.
Qed.

Lemma drop_prefix_tick p c t :
  Ascii.eqb c "`" = false -> PyStr.drop_prefix (String "`" p) (String c t) = None.
Proof.
  intros Hc. cbn [PyStr.drop_prefix].
  destruct (Ascii.eqb_spec "`" c) as [<-|]; [discriminate|done].
Qed.

Lemma space_is_no_tick c : PyStr.is_space c = true -> Ascii.eqb c "`" = false.
Proof. destruct (Ascii.eqb_spec c "`") as [->|]; [discriminate|done]. Qed.

Lemma span_stop p ws rest :
  all_chars p ws = true ->
  (forall c t, rest = String c t -> p c = false) ->
  PyStr.span p (ws +:+ rest) = (ws, rest).
Proof.
  intros Hws Hrest. induction ws as [|c ws IH].
  - change (EmptyString +:+ rest) with rest. destruct rest as [|c t]; [done|].
    cbn [PyStr.span]. by rewrite (Hrest c t eq_refl).
  - cbn [all_chars] in Hws. apply andb_true_iff in Hws as [Hc Hws].
    rewrite app_cons. cbn [PyStr.span]. by rewrite Hc, (IH Hws).
Qed.

Lemma rstrip_tail c t : Re.rstrip (String c t) = String c t -> Re.rstrip t = t.
Proof.
  cbn [Re.rstrip]. destruct (Re.rstrip t) as [|c' t'] eqn:E.
  - destruct (PyStr.is_space c); [discriminate|]. by intros [= <-].
  - by intros [= <-].
Qed.

Lemma rstrip_solid s :
  Re.rstrip s = s -> s <> EmptyString ->
  exists ws c t,
    s = ws +:+ String c t /\ blank ws = true /\ PyStr.is_space c = false.
Proof.
  induction s as [|c s IH]; [done|]. intros H _.
  destruct (PyStr.is_space c) eqn:Hc.
  - assert (Hs : s <> EmptyString).
    { intros ->. cbn [Re.rstrip] in H. rewrite Hc in H. discriminate. }
    destruct (IH (rstrip_tail _ _ H) Hs) as (ws & c' & t & -> & Hws & Hc').
    exists (String c ws), c', t. repeat split; [|done].
    unfold blank in *. cbn [all_chars]. by rewrite Hc, Hws.
  - by exists EmptyString, c, s.
Qed.

Lemma match_fence_none ws c t :
  blank ws = true -> PyStr.is_space c = false -> Ascii.eqb c "`" = false ->
  Re.match_fence (ws +:+ String c t) = None.
Proof.
  intros Hws Hc Hb. unfold Re.match_fence.
  change (Re.fence +:+ "json") with (String "`" "``json").
  change Re.fence with (String "`" "``").
  assert (H1 : PyStr.drop_prefix (String "`" "``json") (ws +:+ String c t) = None).
  { destruct ws as [|x ws].
    - by apply drop_prefix_tick.
    - rewrite app_cons. apply drop_prefix_tick, space_is_no_tick.
      unfold blank in Hws. cbn [all_chars] in Hws.
      by apply andb_true_iff in Hws as [? _]. }
  rewrite H1, (span_stop _ ws (String c t)); [|done|by intros ? ? [= <- <-]].
  by rewrite drop_prefix_tick.
Qed.

Lemma match_fence_plain s : no_backtick s = true -> Re.match_fence s = None.
Proof.
  intros Hs. unfold Re.match_fence.
  change (Re.fence +:+ "json") with (String "`" "``json").
  change Re.fence with (String "`" "``").
  assert (Htick : forall p r,
            no_backtick r = true -> PyStr.drop_prefix (String "`" p) r = None).
  { intros p [|c r] Hr; [done|]. apply drop_prefix_tick.
    unfold no_backtick in Hr. cbn [all_chars] in Hr.
    apply andb_true_iff in Hr as [Hc _]. by apply negb_true_iff in Hc. }
  rewrite (Htick _ _ Hs).
  destruct (PyStr.span PyStr.is_space s) as [a b] eqn:E.
  apply span_spec in E as [-> _].
  unfold no_backtick in Hs. rewrite all_chars_app in Hs.
  apply andb_true_iff in Hs as [_ Hb]. by rewrite (Htick _ _ Hb).
Qed.

Lemma sub_fence_plain s : no_backtick s = true -> Re.sub_fence 0 s = s.
Proof.
  induction s as [|c s IH]; [done|]. intros Hs.
  cbn [Re.sub_fence]. rewrite (match_fence_plain _ Hs).
  unfold no_backtick in Hs. cbn [all_chars] in Hs.
  apply andb_true_iff in Hs as [_ Hs]. by rewrite (IH Hs).
Qed.

Lemma sub_fence_body body rest :
  no_backtick body = true -> Re.rstrip body = body ->
  Re.sub_fence 0 (body +:+ rest) = body +:+ Re.sub_fence 0 rest.
Proof.
  induction body as [|c body IH]; [done|]. intros Hb Hr.
  pose proof Hb as Hb'. unfold no_backtick in Hb'. cbn [all_chars] in Hb'.
  apply andb_true_iff in Hb' as [Hc Hb'].
  destruct (rstrip_solid _ Hr) as (ws & x & t & E & Hws & Hx); [done|].
  assert (Hxt : Ascii.eqb x "`" = false).
  { unfold no_backtick in Hb. rewrite E, all_chars_app in Hb.
    apply andb_true_iff in Hb as [_ Hb]. cbn [all_chars] in Hb.
    apply andb_true_iff in Hb as [Hb _]. by apply negb_true_iff in Hb. }
  assert (Hm : Re.match_fence (String c body +:+ rest) = None).
  { rewrite E, app_assoc_string, app_cons. by apply match_fence_none. }
  rewrite !app_cons. rewrite app_cons in Hm. cbn [Re.sub_fence]. rewrite Hm.
  by rewrite (IH Hb' (rstrip_tail _ _ Hr)).
Qed.

Lemma sub_fence_skip a r :
  Re.sub_fence (String.length a) (a +:+ r) = Re.sub_fence 0 r.
Proof.
  induction a as [|c a IH]; [done|]. rewrite app_cons.
  cbn [String.length Re.sub_fence]. exact IH.
Qed.

Lemma sub_fence_hit a r :
  a <> EmptyString -> Re.match_fence (a +:+ r) = Some (String.length a) ->
  Re.sub_fence 0 (a +:+ r) = Re.sub_fence 0 r.
Proof.
  destruct a as [|c a]; [done|]. intros _ H. rewrite app_cons in *.
  cbn [Re.sub_fence]. rewrite H. cbn [String.length].
  replace (S (String.length a) - 1) with (String.length a) by lia.
  apply sub_fence_skip.
Qed.

Lemma blank_no_backtick ws : blank ws = true -> no_backtick ws = true.
Proof.
  unfold blank, no_backtick. induction ws as [|c ws IH]; [done|].
  cbn [all_chars]. intros [Hc Hws]%andb_true_iff.
  by rewrite (space_is_no_tick _ Hc), (IH Hws).
Qed.

Lemma closing_fence ws2 ws3 :
  blank ws2 = true -> blank ws3 = true ->
  Re.sub_fence 0 (ws2 +:+ Re.fence +:+ ws3) = ws3.
Proof.
  intros H2 H3.
  rewrite <- (sub_fence_plain ws3) at 2 by by apply blank_no_backtick.
  rewrite <- app_assoc_string. apply sub_fence_hit.
  { destruct ws2; discriminate. }
  rewrite app_assoc_string. unfold Re.match_fence.
  assert (H1 : PyStr.drop_prefix (Re.fence +:+ "json") (ws2 +:+ Re.fence +:+ ws3)
               = None).
  { change (Re.fence +:+ "json") with (String "`" "``json").
    destruct ws2 as [|x ws2].
    - destruct ws3 as [|y ws3]; [done|].
      change (EmptyString +:+ Re.fence +:+ String y ws3)
        with (String "`" (String "`" (String "`" (String y ws3)))).
      cbn [PyStr.drop_prefix]. rewrite !Ascii.eqb_refl.
      unfold blank in H3. cbn [all_chars] in H3.
      apply andb_true_iff in H3 as [Hy _].
      destruct (Ascii.eqb_spec "j" y) as [<-|]; [discriminate|done].
    - rewrite app_cons. apply drop_prefix_tick, space_is_no_tick.
      unfold blank in H2. cbn [all_chars] in H2.
      by apply andb_true_iff in H2 as [? _]. }
  rewrite H1, (span_stop _ ws2 (Re.fence +:+ ws3)); [|done|].
  2:{ intros c t. change (Re.fence +:+ ws3) with (String "`" ("``" +:+ ws3)).
      by intros [= <- _]. }
  rewrite drop_prefix_app, length_app_string. done.
Qed.

Lemma fenced_body body ws2 ws3 :
  no_backtick body = true -> Re.rstrip body = body ->
  blank ws2 = true -> blank ws3 = true ->
  Re.sub_fence 0 (body +:+ ws2 +:+ Re.fence +:+ ws3) = body +:+ ws3.
Proof.
  intros Hb Hr H2 H3. by rewrite sub_fence_body, closing_fence.
Qed.

Lemma opening_fence ws1 rest :
  blank ws1 = true ->
  (forall c t, rest = String c t -> PyStr.is_space c = false) ->
  Re.sub_fence 0 (Re.fence +:+ "json" +:+ ws1 +:+ rest) = Re.sub_fence 0 rest.
Proof.
  intros H1 Hrest.
  change (Re.fence +:+ "json" +:+ ws1 +:+ rest)
    with ((Re.fence +:+ "json") +:+ ws1 +:+ rest).
  rewrite <- app_assoc_string. apply sub_fence_hit.
  { discriminate. }
  rewrite app_assoc_string. unfold Re.match_fence.
  rewrite drop_prefix_app, span_stop by done.
  by rewrite length_app_string.
Qed.

Lemma rstrip_blank ws : blank ws = true -> Re.rstrip ws = EmptyString.
Proof.
  unfold blank. induction ws as [|c ws IH]; [done|]. cbn [all_chars Re.rstrip].
  intros [Hc Hws]%andb_true_iff. by rewrite (IH Hws), Hc.
Qed.

Lemma rstrip_app_blank b ws :
  blank ws = true -> Re.rstrip (b +:+ ws) = Re.rstrip b.
Proof.
  intros Hws. induction b as [|c b IH].
  - by apply rstrip_blank.
  - rewrite app_cons. cbn [Re.rstrip]. by rewrite IH.
Qed.

Lemma rstrip_length s : String.length (Re.rstrip s) <= String.length s.
Proof.
  induction s as [|c s IH]; [done|]. cbn [Re.rstrip].
  destruct (Re.rstrip s) as [|c' t'].
  - destruct (PyStr.is_space c); cbn [String.length]; lia.
  - cbn [String.length] in *. lia.
Qed.

Lemma length_nil_string s : String.length s = 0 -> s = EmptyString.
Proof. by destruct s. Qed.

Lemma strip_fixed b :
  Re.strip b = b -> Re.lstrip b = b /\ Re.rstrip b = b.
Proof.
  unfold Re.strip, Re.lstrip.
  destruct (PyStr.span PyStr.is_space b) as [ws b2] eqn:E. cbn [snd].
  apply span_spec in E as [-> _]. intros H.
  assert (ws = EmptyString) as ->.
  { apply length_nil_string. pose proof (rstrip_length b2) as Hl.
    rewrite H, length_app_string in Hl. lia. }
  done.
Qed.

Lemma lstrip_fixed b :
  Re.lstrip b = b ->
  b = EmptyString \/ exists c t, b = String c t /\ PyStr.is_space c = false.
Proof.
  destruct b as [|c t]; [by left|]. intros H. right.
  destruct (PyStr.is_space c) eqn:Hc; [|eauto]. exfalso.
  unfold Re.lstrip in H. cbn [PyStr.span] in H. rewrite Hc in H.
  destruct (PyStr.span PyStr.is_space t) as [a b2] eqn:E. cbn [snd] in H.
  apply span_spec in E as [E _]. apply (f_equal String.length) in E.
  rewrite H, length_app_string in E. cbn [String.length] in E. lia.
Qed.

Lemma lstrip_blank_prefix ws rest :
  blank ws = true ->
  (forall c t, rest = String c t -> PyStr.is_space c = false) ->
  Re.lstrip (ws +:+ rest) = rest.
Proof. intros Hws Hrest. unfold Re.lstrip. by rewrite span_stop. Qed.

Lemma strip_padded ws0 b ws :
  Re.strip b = b -> blank ws0 = true -> blank ws = true ->
  Re.strip (ws0 +:+ b +:+ ws) = b.
Proof.
  intros H H0 Hws. destruct (strip_fixed _ H) as [Hl Hr]. unfold Re.strip.
  destruct (lstrip_fixed _ Hl) as [->|(c & t & -> & Hc)].
  - change (EmptyString +:+ ws) with ws.
    rewrite <- (app_nil_r_string (ws0 +:+ ws)).
    rewrite (lstrip_blank_prefix (ws0 +:+ ws) EmptyString); [done| |done].
    unfold blank in *. by rewrite all_chars_app, H0, Hws.
  - rewrite lstrip_blank_prefix; [|done|].
    + by rewrite rstrip_app_blank.
    + rewrite app_cons. by intros ? ? [= <- _].
Qed.

Lemma rstrip_app_solid p s :
  s <> EmptyString -> Re.rstrip s = s -> Re.rstrip (p +:+ s) = p +:+ s.
Proof.
  intros Hn Hs. induction p as [|a p IH]; [done|].
  rewrite app_cons. cbn [Re.rstrip]. rewrite IH.
  destruct (p +:+ s) as [|x u] eqn:E; [|done].
  apply (f_equal String.length) in E. rewrite length_app_string in E.
  destruct s; [done|]. cbn [String.length] in E. lia.
Qed.

End FenceFacts.

(** X22. A reply without a backtick is parsed as it is, less the white space
    around it. *)
Theorem plain_reply_is_parsed_stripped w text :
  no_backtick text = true ->
  _extract_code_from_json w text = json_loads w (Re.strip text).
Proof.
  intros H. unfold _extract_code_from_json. cbn zeta.
  by rewrite sub_fence_plain.
Qed.

Lemma plain_reply_is_parsed_stripped_witness :
  no_backtick " {}  " = true
  /\ _extract_code_from_json (builds_at_once) " {}  "
     = json_loads builds_at_once "{}".
Proof.
  split; [reflexivity|].
  rewrite (plain_reply_is_parsed_stripped builds_at_once " {}  ");
    reflexivity.
Defined.

(** X23. A reply that wraps its body in a json code fence, with any white
    space after the opening fence, around the closing fence and around the
    whole, is parsed as the body alone (the body holds no backtick and has no
    white space at its ends). *)
Theorem fenced_reply_is_parsed_as_its_body w ws1 body ws2 ws3 :
  no_backtick body = true -> Re.strip body = body ->
  blank ws1 = true -> blank ws2 = true -> blank ws3 = true ->
  _extract_code_from_json w
    (Re.fence +:+ "json" +:+ ws1 +:+ body +:+ ws2 +:+ Re.fence +:+ ws3)
  = json_loads w body.
Proof.
  intros Hb Hs H1 H2 H3. unfold _extract_code_from_json. cbn zeta. f_equal.
  destruct (strip_fixed _ Hs) as [Hl Hr].
  destruct (lstrip_fixed _ Hl) as [->|(c & t & -> & Hc)].
  - change (EmptyString +:+ ws2 +:+ Re.fence +:+ ws3)
      with (ws2 +:+ Re.fence +:+ ws3).
    rewrite <- (app_assoc_string ws1 ws2).
    rewrite opening_fence.
    + change (Re.fence +:+ ws3) with (EmptyString +:+ Re.fence +:+ ws3).
      rewrite closing_fence by done.
      rewrite <- (app_nil_r_string ws3).
      exact (strip_padded ws3 EmptyString EmptyString eq_refl H3 eq_refl).
    + unfold blank in *. by rewrite all_chars_app, H1, H2.
    + by intros ? ? [= <- _].
  - rewrite opening_fence; [|done|by rewrite app_cons; intros ? ? [= <- _]].
    rewrite fenced_body by done.
    exact (strip_padded EmptyString _ ws3 Hs eq_refl H3).
Qed.

Lemma fenced_reply_is_parsed_as_its_body_witness :
  _extract_code_from_json builds_at_once
    (Re.fence +:+ "json" +:+ " " +:+ "{}" +:+ " " +:+ Re.fence +:+ " ")
  = json_loads builds_at_once "{}".
Proof.
  apply (fenced_reply_is_parsed_as_its_body builds_at_once " " "{}" " " " ");
    reflexivity.
Defined.

(** X24. White space in front of the opening fence makes the second
    alternative of the pattern take the fence and leave the word [json]: what
    is parsed is [json], the white space after it and the body. *)
Theorem space_before_the_fence_leaves_the_tag w ws0 ws1 body ws2 ws3 :
  ws0 <> EmptyString -> body <> EmptyString ->
  no_backtick body = true -> Re.strip body = body ->
  blank ws0 = true -> blank ws1 = true -> blank ws2 = true -> blank ws3 = true ->
  _extract_code_from_json w
    (ws0 +:+ Re.fence +:+ "json" +:+ ws1 +:+ body +:+ ws2 +:+ Re.fence +:+ ws3)
  = json_loads w ("json" +:+ ws1 +:+ body).
Proof.
  intros Hne Hbne Hb Hs H0 H1 H2 H3. unfold _extract_code_from_json.
  cbn zeta. f_equal.
  destruct (strip_fixed _ Hs) as [Hl Hr].
  destruct (lstrip_fixed _ Hl) as [->|(c & t & E & Hc)]; [done|].
  set (tagged := "json" +:+ ws1 +:+ body).
  assert (Et : Re.sub_fence 0
                 (ws0 +:+ Re.fence +:+ "json" +:+ ws1 +:+ body +:+ ws2
                      +:+ Re.fence +:+ ws3)
               = Re.sub_fence 0 (tagged +:+ ws2 +:+ Re.fence +:+ ws3)).
  { change (ws0 +:+ Re.fence +:+ "json" +:+ ws1 +:+ body +:+ ws2
                +:+ Re.fence +:+ ws3)
      with (ws0 +:+ Re.fence
                +:+ ("json" +:+ ws1 +:+ body +:+ ws2 +:+ Re.fence +:+ ws3)).
    replace (tagged +:+ ws2 +:+ Re.fence +:+ ws3)
      with ("json" +:+ ws1 +:+ body +:+ ws2 +:+ Re.fence +:+ ws3).
    2:{ unfold tagged. by rewrite !app_assoc_string. }
    generalize ("json" +:+ ws1 +:+ body +:+ ws2 +:+ Re.fence +:+ ws3).
    intros rest. rewrite <- app_assoc_string. apply sub_fence_hit.
    { destruct ws0; discriminate. }
    rewrite app_assoc_string. unfold Re.match_fence.
    assert (Hd : PyStr.drop_prefix (Re.fence +:+ "json")
                   (ws0 +:+ Re.fence +:+ rest) = None).
    { destruct ws0 as [|x ws0]; [done|].
      change (Re.fence +:+ "json") with (String "`" "``json").
      rewrite app_cons. apply drop_prefix_tick, space_is_no_tick.
      unfold blank in H0. cbn [all_chars] in H0.
      by apply andb_true_iff in H0 as [? _]. }
    rewrite Hd, (span_stop _ ws0 (Re.fence +:+ rest)); [|done|].
    2:{ intros x y. change (Re.fence +:+ rest) with (String "`" ("``" +:+ rest)).
        by intros [= <- _]. }
    by rewrite drop_prefix_app, length_app_string. }
  rewrite Et.
  assert (Hnt : no_backtick tagged = true).
  { unfold tagged, no_backtick. rewrite !all_chars_app.
    apply blank_no_backtick in H1. unfold no_backtick in H1, Hb.
    by rewrite H1, Hb. }
  assert (Hrt : Re.rstrip tagged = tagged).
  { unfold tagged. rewrite <- app_assoc_string. by apply rstrip_app_solid. }
  rewrite fenced_body by done.
  assert (Hst : Re.strip tagged = tagged).
  { unfold Re.strip. rewrite <- Hrt at 2. f_equal. }
  exact (strip_padded EmptyString _ ws3 Hst eq_refl H3).
Qed.

Lemma space_before_the_fence_leaves_the_tag_witness :
  _extract_code_from_json builds_at_once
    (" " +:+ Re.fence +:+ "json" +:+ " " +:+ "{}" +:+ " " +:+ Re.fence +:+ " ")
  = json_loads builds_at_once ("json" +:+ " " +:+ "{}").
Proof.
  apply (space_before_the_fence_leaves_the_tag
           builds_at_once " " " " "{}" " " " ");
    (reflexivity || discriminate).
Defined.

Lemma transfer_run_upload cli code target fqbn evs res target' fqbn' u :
  transfer_run cli code target fqbn evs res ->
  EUpload target' fqbn' u ∈ evs -> target' = target /\ fqbn' = fqbn.
Proof.
  destruct 1; intros Hin;
    repeat (apply elem_of_cons in Hin as [Hin|Hin];
            [try discriminate; by injection Hin as -> -> _|]);
    by apply elem_of_nil in Hin.
Qed.

(** X25. Every upload of a deploy is for the board identifier of the call
    and goes to the port that was selected: the port of the call when it is
    not "auto", and then the ports are never listed; with "auto", the first
    port that the classifier flags in the listing made during the run. *)
Theorem upload_goes_to_the_selected_port w st code port fqbn target fqbn' u :
  let evs := run_events (deploy_to_arduino w code port fqbn) st in
  EUpload target fqbn' u ∈ evs ->
  fqbn' = fqbn
  /\ ((port <> "auto" /\ target = port /\ forall r, EComports r ∉ evs)
      \/ (port = "auto"
          /\ exists r,
               EComports r ∈ evs
               /\ head (arduino_ports (Classifier.classify r)) = Some target)).
Proof.
  intros evs. subst evs.
  destruct (toolchain_available st) eqn:Hcli.
  2:{ rewrite deploy_unavailable by done. by intros ?%elem_of_nil. }
  destruct (deploy_steps w code port fqbn st Hcli)
    as (pre & evs & -> & Hpre & Hrun).
  intros Hin. apply elem_of_app in Hin as [Hin|Hin].
  { rewrite Forall_forall in Hpre. by apply Hpre in Hin. }
  destruct Hrun as [Hflag Hstop|evs res Hport H|r Hport Hnone
                   |r tgt others evs res Hport Hsome H].
  - by apply elem_of_nil in Hin.
  - destruct (transfer_run_upload _ _ _ _ _ _ _ _ _ H Hin) as [-> ->].
    split; [done|]. left. repeat split; [done|]. intros r Hr.
    apply elem_of_app in Hr as [Hr|Hr].
    + by eapply cli_is_no_enumeration.
    + by eapply transfer_run_no_enumeration.
  - apply elem_of_cons in Hin as [Hin|Hin]; [discriminate|].
    by apply elem_of_nil in Hin.
  - apply elem_of_cons in Hin as [Hin|Hin]; [discriminate|].
    destruct (transfer_run_upload _ _ _ _ _ _ _ _ _ H Hin) as [-> ->].
    split; [done|]. right. split; [done|]. exists r. split.
    + apply elem_of_app. right. by left.
    + by rewrite Hsome.
Qed.

Lemma upload_goes_to_the_selected_port_witness :
  default_fqbn = default_fqbn
  /\ (("auto" <> "auto" /\ "/dev/ttyACM0" = "auto"
       /\ forall r,
            EComports r
            ∉ run_events (deploy_to_arduino board_attached sketch "auto"
                            default_fqbn) with_cli)
      \/ ("auto" = "auto"
          /\ exists r,
               EComports r
               ∈ run_events (deploy_to_arduino board_attached sketch "auto"
                               default_fqbn) with_cli
               /\ head (arduino_ports (Classifier.classify r))
                  = Some "/dev/ttyACM0")).
Proof.
  apply (upload_goes_to_the_selected_port board_attached with_cli sketch "auto"
           default_fqbn "/dev/ttyACM0" default_fqbn passed).
  vm_compute. repeat constructor.
Defined.

Section RenderingFacts.

Lemma no_colon_hex d : no_colon (PyStr.hex_upper d) = true.
Proof. unfold no_colon. induction d; simpl; rewrite ?IHd; reflexivity. Qed.

Lemma no_colon_zeros k : no_colon (PyStr.zeros k) = true.
Proof. unfold no_colon. induction k as [|k IH]; simpl; rewrite ?IH; reflexivity. Qed.

Lemma no_colon_format n : no_colon (PyStr.format_04X n) = true.
Proof.
  unfold PyStr.format_04X. cbn zeta. pose proof (no_colon_hex (N.to_hex_uint n)) as H.
  pose proof (no_colon_zeros (4 - String.length (PyStr.hex_upper (N.to_hex_uint n)))) as H'.
  unfold no_colon in *. by rewrite all_chars_app, H, H'.
Qed.

Lemma colon_split a : forall c b d,
  no_colon a = true -> no_colon c = true ->
  a +:+ ":" +:+ b = c +:+ ":" +:+ d -> a = c /\ b = d.
Proof.
  unfold no_colon.
  assert (E : forall z, EmptyString +:+ ":" +:+ z = String ":" z) by done.
  induction a as [|x a IH]; intros [|y c] b d Ha Hc H.
  - rewrite !E in H. by injection H as ->.
  - rewrite E, app_cons in H. injection H as <- _. discriminate.
  - rewrite E, app_cons in H. injection H as -> _. discriminate.
  - rewrite !app_cons in H. injection H as -> H.
    cbn [all_chars] in Ha, Hc.
    apply andb_true_iff in Ha as [_ Ha]. apply andb_true_iff in Hc as [_ Hc].
    destruct (IH _ _ _ Ha Hc H) as [E1 E2]. change (b = d) in E2.
    by rewrite E1, E2.
Qed.

End RenderingFacts.

(** X26. The "vid_pid" field tells the two ids: when two ports get the same
    field and it is not "N/A", they have the same vendor id and the same
    product id. *)
Theorem vid_pid_identifies_the_ids port1 port2 :
  Device.vid_pid (Classifier.entry port1) = Device.vid_pid (Classifier.entry port2) ->
  Device.vid_pid (Classifier.entry port1) <> "N/A" ->
  ListPortInfo.vid port1 = ListPortInfo.vid port2
  /\ ListPortInfo.pid port1 = ListPortInfo.pid port2.
Proof.
  unfold Classifier.entry. cbn [Device.vid_pid].
  destruct (ListPortInfo.vid port1) as [v1|], (ListPortInfo.pid port1) as [p1|];
    try done.
  destruct (negb (v1 =? 0)%N && negb (p1 =? 0)%N); [|done].
  destruct (ListPortInfo.vid port2) as [v2|], (ListPortInfo.pid port2) as [p2|];
    try (intros H; by apply vid_pid_is_not_NA in H).
  destruct (negb (v2 =? 0)%N && negb (p2 =? 0)%N);
    [|intros H; by apply vid_pid_is_not_NA in H].
  intros H _. apply colon_split in H as [Hv Hp]; try apply no_colon_format.
  by apply format_04X_inj in Hv as ->; apply format_04X_inj in Hp as ->.
Qed.

Lemma vid_pid_identifies_the_ids_witness :
  ListPortInfo.vid uno = ListPortInfo.vid second_uno
  /\ ListPortInfo.pid uno = ListPortInfo.pid second_uno.
Proof.
  apply (vid_pid_identifies_the_ids uno second_uno).
  - reflexivity.
  - vm_compute. discriminate.
Defined.
